(** * A shallow embedding of the finance bot's categorisation pipeline

    The development follows the Python sources module by module:
    - [PyFloat]   : Python's [float] (IEEE 754 binary64) on top of the
                    executable specification [SpecFloat] of the standard
                    library, together with [float(str)] on decimal literals;
    - [PyStr]     : Python's [str] as a list of Unicode code points, with
                    [strip], [replace] and the character tables used by [re];
    - [Re]        : the backtracking matcher behind [re.search], for the
                    fragment of the syntax that [utils.parse_amount] uses;
    - [Utils]     : [parse_amount] and [validate_amount] of utils.py;
    - [Tokens]    : the numeric tokens that the statements about the
                    parser range over;
    - [Config]    : the constants of config.py;
    - [Budget]    : [generate_budget_recommendations] of utils.py;
    - [Classifier]: [predict] and [predict_with_threshold] of
                    nlp_classifier.py over an abstract fitted pipeline;
    - [Database]  : the sqlite3 cursor protocol and the queries of
                    database.py that the handlers use;
    - [Accounts]  : [set_budget] and [delete_budget] of database.py over
                    the table of budgets;
    - [Bot]       : the conversation handlers of bot.py as state-passing
                    functions over the per-user [user_data] dictionary, and
                    the dispatch of updates that [main] sets up;
    - [Grammar], [Advice], [Ledger], [Situations] : the vocabulary and the
                    concrete inputs of the statements that need more than
                    the definitions of the code to be written down.

    The interpreter of reference is CPython 3.11, whose character tables
    are those of Unicode 14.0; the handlers run on python-telegram-bot 20
    or later. *)

From Stdlib Require Import ZArith List Bool Lia String Ascii.
From Stdlib Require Import Floats.SpecFloat.
From stdpp Require Import base option list strings gmap.

Local Open Scope Z_scope.

(* ================================================================== *)
(** ** Python floats *)
(* ================================================================== *)

Module PyFloat.

(** Python's [float] is IEEE 754 binary64: 53 bits of precision,
    infinities at exponent 1024. *)
Definition prec : Z := 53.
Definition emax : Z := 1024.

Definition float := spec_float.

Definition fmul : float -> float -> float := SFmul prec emax.
Definition fdiv : float -> float -> float := SFdiv prec emax.
Definition fadd : float -> float -> float := SFadd prec emax.
Definition fsub : float -> float -> float := SFsub prec emax.
Definition fneg : float -> float := SFopp.
Definition feqb : float -> float -> bool := SFeqb.
Definition fltb : float -> float -> bool := SFltb.
Definition fleb : float -> float -> bool := SFleb.
(** [x > y] and [x >= y] are the flipped comparisons (both false on NaN). *)
Definition fgtb (x y : float) : bool := SFltb y x.
Definition fgeb (x y : float) : bool := SFleb y x.

(** An integer used where Python expects a float ([num * 1000],
    [amount <= 0], [amount > 1000000000]). *)
Definition of_Z (z : Z) : float := binary_normalize prec emax z 0 false.

(** [float(s)] for a decimal literal with digits [m] and [k] digits after
    the point: the binary64 number nearest to [m / 10^k] (ties to even),
    obtained by one correctly rounded division of exact integers. *)
Definition of_decimal (m : Z) (k : nat) : float :=
  match m with
  | Zpos p => SFdiv prec emax (S754_finite false p 0)
                              (S754_finite false (Z.to_pos (10 ^ Z.of_nat k)) 0)
  | _ => S754_zero false
  end.

Definition is_nan (x : float) : bool :=
  match x with S754_nan => true | _ => false end.

(** Truth value of a float: [bool(x)] is [x != 0]. *)
Definition truthy (x : float) : bool := negb (feqb x (S754_zero false)).

(** [has_sign b x]: [x] is a number (not a NaN) whose sign bit is [b]. *)
Definition has_sign (b : bool) (x : float) : Prop :=
  match x with
  | S754_zero s | S754_infinity s | S754_finite s _ _ => s = b
  | S754_nan => False
  end.

End PyFloat.

(* ================================================================== *)
(** ** Python strings *)
(* ================================================================== *)

Module PyStr.

(** A [str] is a sequence of Unicode code points. *)
Definition char := Z.
Definition str := list char.

(** String literals of this file are written in UTF-8; [py] decodes them
    into code points. *)
Fixpoint utf8_decode (bs : list Z) (need : nat) (acc : Z) : str :=
  match bs with
  | [] => []
  | b :: bs' =>
    match need with
    | O => if b <? 128 then b :: utf8_decode bs' 0 0
           else if b <? 224 then utf8_decode bs' 1 (b - 192)
           else if b <? 240 then utf8_decode bs' 2 (b - 224)
           else utf8_decode bs' 3 (b - 240)
    | S O => (acc * 64 + (b - 128)) :: utf8_decode bs' 0 0
    | S n => utf8_decode bs' n (acc * 64 + (b - 128))
    end
  end.

Definition py (s : string) : str :=
  utf8_decode (map (fun a => Z.of_N (N_of_ascii a)) (list_ascii_of_string s)) 0 0.

(** *** Character tables

    [str.isspace], which [str.strip] and the class [\s] of [re] share:
    the complete Unicode whitespace set. *)
Definition is_space (c : char) : bool :=
  ((9 <=? c) && (c <=? 13)) || ((28 <=? c) && (c <=? 32))
  || (c =? 133) || (c =? 160) || (c =? 5760)
  || ((8192 <=? c) && (c <=? 8202))
  || (c =? 8232) || (c =? 8233) || (c =? 8239) || (c =? 8287) || (c =? 12288).

(** The class [\d], which is [str.isdecimal]: the decimal digits of Unicode
    (general category Nd).  They come in runs of ten, from the zero of a
    script to its nine; [decimal_zeros] lists the zeros. *)
Definition decimal_zeros : list Z :=
  [48; 1632; 1776; 1984; 2406; 2534; 2662; 2790; 2918; 3046; 3174; 3302;
   3430; 3558; 3664; 3792; 3872; 4160; 4240; 6112; 6160; 6470; 6608; 6784;
   6800; 6992; 7088; 7232; 7248; 42528; 43216; 43264; 43472; 43504; 43600;
   44016; 65296; 66720; 68912; 69734; 69872; 69942; 70096; 70384; 70736;
   70864; 71248; 71360; 71472; 71904; 72016; 72784; 73040; 73120; 92768;
   92864; 93008; 120782; 120792; 120802; 120812; 120822; 123200; 123632;
   125264; 130032].

Definition zero_of (c : char) : option Z :=
  find (fun z => (z <=? c) && (c <=? z + 9)) decimal_zeros.

Definition is_digit (c : char) : bool :=
  match zero_of c with Some _ => true | None => false end.

(** Word characters ([\w], which decides [\b]): the alphanumeric
    characters of [str.isalnum] and the underscore.  [word_ranges] lists
    them as closed intervals of code points. *)
Definition word_ranges : list (Z * Z) :=
  [(48, 57); (65, 90); (95, 95); (97, 122); (170, 170); (178, 179); (181,
   181); (185, 186); (188, 190); (192, 214); (216, 246); (248, 705); (710,
   721); (736, 740); (748, 748); (750, 750); (880, 884); (886, 887); (890,
   893); (895, 895); (902, 902); (904, 906); (908, 908); (910, 929); (931,
   1013); (1015, 1153); (1162, 1327); (1329, 1366); (1369, 1369); (1376,
   1416); (1488, 1514); (1519, 1522); (1568, 1610); (1632, 1641); (1646,
   1647); (1649, 1747); (1749, 1749); (1765, 1766); (1774, 1788); (1791,
   1791); (1808, 1808); (1810, 1839); (1869, 1957); (1969, 1969); (1984,
   2026); (2036, 2037); (2042, 2042); (2048, 2069); (2074, 2074); (2084,
   2084); (2088, 2088); (2112, 2136); (2144, 2154); (2160, 2183); (2185,
   2190); (2208, 2249); (2308, 2361); (2365, 2365); (2384, 2384); (2392,
   2401); (2406, 2415); (2417, 2432); (2437, 2444); (2447, 2448); (2451,
   2472); (2474, 2480); (2482, 2482); (2486, 2489); (2493, 2493); (2510,
   2510); (2524, 2525); (2527, 2529); (2534, 2545); (2548, 2553); (2556,
   2556); (2565, 2570); (2575, 2576); (2579, 2600); (2602, 2608); (2610,
   2611); (2613, 2614); (2616, 2617); (2649, 2652); (2654, 2654); (2662,
   2671); (2674, 2676); (2693, 2701); (2703, 2705); (2707, 2728); (2730,
   2736); (2738, 2739); (2741, 2745); (2749, 2749); (2768, 2768); (2784,
   2785); (2790, 2799); (2809, 2809); (2821, 2828); (2831, 2832); (2835,
   2856); (2858, 2864); (2866, 2867); (2869, 2873); (2877, 2877); (2908,
   2909); (2911, 2913); (2918, 2927); (2929, 2935); (2947, 2947); (2949,
   2954); (2958, 2960); (2962, 2965); (2969, 2970); (2972, 2972); (2974,
   2975); (2979, 2980); (2984, 2986); (2990, 3001); (3024, 3024); (3046,
   3058); (3077, 3084); (3086, 3088); (3090, 3112); (3114, 3129); (3133,
   3133); (3160, 3162); (3165, 3165); (3168, 3169); (3174, 3183); (3192,
   3198); (3200, 3200); (3205, 3212); (3214, 3216); (3218, 3240); (3242,
   3251); (3253, 3257); (3261, 3261); (3293, 3294); (3296, 3297); (3302,
   3311); (3313, 3314); (3332, 3340); (3342, 3344); (3346, 3386); (3389,
   3389); (3406, 3406); (3412, 3414); (3416, 3425); (3430, 3448); (3450,
   3455); (3461, 3478); (3482, 3505); (3507, 3515); (3517, 3517); (3520,
   3526); (3558, 3567); (3585, 3632); (3634, 3635); (3648, 3654); (3664,
   3673); (3713, 3714); (3716, 3716); (3718, 3722); (3724, 3747); (3749,
   3749); (3751, 3760); (3762, 3763); (3773, 3773); (3776, 3780); (3782,
   3782); (3792, 3801); (3804, 3807); (3840, 3840); (3872, 3891); (3904,
   3911); (3913, 3948); (3976, 3980); (4096, 4138); (4159, 4169); (4176,
   4181); (4186, 4189); (4193, 4193); (4197, 4198); (4206, 4208); (4213,
   4225); (4238, 4238); (4240, 4249); (4256, 4293); (4295, 4295); (4301,
   4301); (4304, 4346); (4348, 4680); (4682, 4685); (4688, 4694); (4696,
   4696); (4698, 4701); (4704, 4744); (4746, 4749); (4752, 4784); (4786,
   4789); (4792, 4798); (4800, 4800); (4802, 4805); (4808, 4822); (4824,
   4880); (4882, 4885); (4888, 4954); (4969, 4988); (4992, 5007); (5024,
   5109); (5112, 5117); (5121, 5740); (5743, 5759); (5761, 5786); (5792,
   5866); (5870, 5880); (5888, 5905); (5919, 5937); (5952, 5969); (5984,
   5996); (5998, 6000); (6016, 6067); (6103, 6103); (6108, 6108); (6112,
   6121); (6128, 6137); (6160, 6169); (6176, 6264); (6272, 6276); (6279,
   6312); (6314, 6314); (6320, 6389); (6400, 6430); (6470, 6509); (6512,
   6516); (6528, 6571); (6576, 6601); (6608, 6618); (6656, 6678); (6688,
   6740); (6784, 6793); (6800, 6809); (6823, 6823); (6917, 6963); (6981,
   6988); (6992, 7001); (7043, 7072); (7086, 7141); (7168, 7203); (7232,
   7241); (7245, 7293); (7296, 7304); (7312, 7354); (7357, 7359); (7401,
   7404); (7406, 7411); (7413, 7414); (7418, 7418); (7424, 7615); (7680,
   7957); (7960, 7965); (7968, 8005); (8008, 8013); (8016, 8023); (8025,
   8025); (8027, 8027); (8029, 8029); (8031, 8061); (8064, 8116); (8118,
   8124); (8126, 8126); (8130, 8132); (8134, 8140); (8144, 8147); (8150,
   8155); (8160, 8172); (8178, 8180); (8182, 8188); (8304, 8305); (8308,
   8313); (8319, 8329); (8336, 8348); (8450, 8450); (8455, 8455); (8458,
   8467); (8469, 8469); (8473, 8477); (8484, 8484); (8486, 8486); (8488,
   8488); (8490, 8493); (8495, 8505); (8508, 8511); (8517, 8521); (8526,
   8526); (8528, 8585); (9312, 9371); (9450, 9471); (10102, 10131); (11264,
   11492); (11499, 11502); (11506, 11507); (11517, 11517); (11520, 11557);
   (11559, 11559); (11565, 11565); (11568, 11623); (11631, 11631); (11648,
   11670); (11680, 11686); (11688, 11694); (11696, 11702); (11704, 11710);
   (11712, 11718); (11720, 11726); (11728, 11734); (11736, 11742); (11823,
   11823); (12293, 12295); (12321, 12329); (12337, 12341); (12344, 12348);
   (12353, 12438); (12445, 12447); (12449, 12538); (12540, 12543); (12549,
   12591); (12593, 12686); (12690, 12693); (12704, 12735); (12784, 12799);
   (12832, 12841); (12872, 12879); (12881, 12895); (12928, 12937); (12977,
   12991); (13312, 19903); (19968, 42124); (42192, 42237); (42240, 42508);
   (42512, 42539); (42560, 42606); (42623, 42653); (42656, 42735); (42775,
   42783); (42786, 42888); (42891, 42954); (42960, 42961); (42963, 42963);
   (42965, 42969); (42994, 43009); (43011, 43013); (43015, 43018); (43020,
   43042); (43056, 43061); (43072, 43123); (43138, 43187); (43216, 43225);
   (43250, 43255); (43259, 43259); (43261, 43262); (43264, 43301); (43312,
   43334); (43360, 43388); (43396, 43442); (43471, 43481); (43488, 43492);
   (43494, 43518); (43520, 43560); (43584, 43586); (43588, 43595); (43600,
   43609); (43616, 43638); (43642, 43642); (43646, 43695); (43697, 43697);
   (43701, 43702); (43705, 43709); (43712, 43712); (43714, 43714); (43739,
   43741); (43744, 43754); (43762, 43764); (43777, 43782); (43785, 43790);
   (43793, 43798); (43808, 43814); (43816, 43822); (43824, 43866); (43868,
   43881); (43888, 44002); (44016, 44025); (44032, 55203); (55216, 55238);
   (55243, 55291); (63744, 64109); (64112, 64217); (64256, 64262); (64275,
   64279); (64285, 64285); (64287, 64296); (64298, 64310); (64312, 64316);
   (64318, 64318); (64320, 64321); (64323, 64324); (64326, 64433); (64467,
   64829); (64848, 64911); (64914, 64967); (65008, 65019); (65136, 65140);
   (65142, 65276); (65296, 65305); (65313, 65338); (65345, 65370); (65382,
   65470); (65474, 65479); (65482, 65487); (65490, 65495); (65498, 65500);
   (65536, 65547); (65549, 65574); (65576, 65594); (65596, 65597); (65599,
   65613); (65616, 65629); (65664, 65786); (65799, 65843); (65856, 65912);
   (65930, 65931); (66176, 66204); (66208, 66256); (66273, 66299); (66304,
   66339); (66349, 66378); (66384, 66421); (66432, 66461); (66464, 66499);
   (66504, 66511); (66513, 66517); (66560, 66717); (66720, 66729); (66736,
   66771); (66776, 66811); (66816, 66855); (66864, 66915); (66928, 66938);
   (66940, 66954); (66956, 66962); (66964, 66965); (66967, 66977); (66979,
   66993); (66995, 67001); (67003, 67004); (67072, 67382); (67392, 67413);
   (67424, 67431); (67456, 67461); (67463, 67504); (67506, 67514); (67584,
   67589); (67592, 67592); (67594, 67637); (67639, 67640); (67644, 67644);
   (67647, 67669); (67672, 67702); (67705, 67742); (67751, 67759); (67808,
   67826); (67828, 67829); (67835, 67867); (67872, 67897); (67968, 68023);
   (68028, 68047); (68050, 68096); (68112, 68115); (68117, 68119); (68121,
   68149); (68160, 68168); (68192, 68222); (68224, 68255); (68288, 68295);
   (68297, 68324); (68331, 68335); (68352, 68405); (68416, 68437); (68440,
   68466); (68472, 68497); (68521, 68527); (68608, 68680); (68736, 68786);
   (68800, 68850); (68858, 68899); (68912, 68921); (69216, 69246); (69248,
   69289); (69296, 69297); (69376, 69415); (69424, 69445); (69457, 69460);
   (69488, 69505); (69552, 69579); (69600, 69622); (69635, 69687); (69714,
   69743); (69745, 69746); (69749, 69749); (69763, 69807); (69840, 69864);
   (69872, 69881); (69891, 69926); (69942, 69951); (69956, 69956); (69959,
   69959); (69968, 70002); (70006, 70006); (70019, 70066); (70081, 70084);
   (70096, 70106); (70108, 70108); (70113, 70132); (70144, 70161); (70163,
   70187); (70272, 70278); (70280, 70280); (70282, 70285); (70287, 70301);
   (70303, 70312); (70320, 70366); (70384, 70393); (70405, 70412); (70415,
   70416); (70419, 70440); (70442, 70448); (70450, 70451); (70453, 70457);
   (70461, 70461); (70480, 70480); (70493, 70497); (70656, 70708); (70727,
   70730); (70736, 70745); (70751, 70753); (70784, 70831); (70852, 70853);
   (70855, 70855); (70864, 70873); (71040, 71086); (71128, 71131); (71168,
   71215); (71236, 71236); (71248, 71257); (71296, 71338); (71352, 71352);
   (71360, 71369); (71424, 71450); (71472, 71483); (71488, 71494); (71680,
   71723); (71840, 71922); (71935, 71942); (71945, 71945); (71948, 71955);
   (71957, 71958); (71960, 71983); (71999, 71999); (72001, 72001); (72016,
   72025); (72096, 72103); (72106, 72144); (72161, 72161); (72163, 72163);
   (72192, 72192); (72203, 72242); (72250, 72250); (72272, 72272); (72284,
   72329); (72349, 72349); (72368, 72440); (72704, 72712); (72714, 72750);
   (72768, 72768); (72784, 72812); (72818, 72847); (72960, 72966); (72968,
   72969); (72971, 73008); (73030, 73030); (73040, 73049); (73056, 73061);
   (73063, 73064); (73066, 73097); (73112, 73112); (73120, 73129); (73440,
   73458); (73648, 73648); (73664, 73684); (73728, 74649); (74752, 74862);
   (74880, 75075); (77712, 77808); (77824, 78894); (82944, 83526); (92160,
   92728); (92736, 92766); (92768, 92777); (92784, 92862); (92864, 92873);
   (92880, 92909); (92928, 92975); (92992, 92995); (93008, 93017); (93019,
   93025); (93027, 93047); (93053, 93071); (93760, 93846); (93952, 94026);
   (94032, 94032); (94099, 94111); (94176, 94177); (94179, 94179); (94208,
   100343); (100352, 101589); (101632, 101640); (110576, 110579); (110581,
   110587); (110589, 110590); (110592, 110882); (110928, 110930); (110948,
   110951); (110960, 111355); (113664, 113770); (113776, 113788); (113792,
   113800); (113808, 113817); (119520, 119539); (119648, 119672); (119808,
   119892); (119894, 119964); (119966, 119967); (119970, 119970); (119973,
   119974); (119977, 119980); (119982, 119993); (119995, 119995); (119997,
   120003); (120005, 120069); (120071, 120074); (120077, 120084); (120086,
   120092); (120094, 120121); (120123, 120126); (120128, 120132); (120134,
   120134); (120138, 120144); (120146, 120485); (120488, 120512); (120514,
   120538); (120540, 120570); (120572, 120596); (120598, 120628); (120630,
   120654); (120656, 120686); (120688, 120712); (120714, 120744); (120746,
   120770); (120772, 120779); (120782, 120831); (122624, 122654); (123136,
   123180); (123191, 123197); (123200, 123209); (123214, 123214); (123536,
   123565); (123584, 123627); (123632, 123641); (124896, 124902); (124904,
   124907); (124909, 124910); (124912, 124926); (124928, 125124); (125127,
   125135); (125184, 125251); (125259, 125259); (125264, 125273); (126065,
   126123); (126125, 126127); (126129, 126132); (126209, 126253); (126255,
   126269); (126464, 126467); (126469, 126495); (126497, 126498); (126500,
   126500); (126503, 126503); (126505, 126514); (126516, 126519); (126521,
   126521); (126523, 126523); (126530, 126530); (126535, 126535); (126537,
   126537); (126539, 126539); (126541, 126543); (126545, 126546); (126548,
   126548); (126551, 126551); (126553, 126553); (126555, 126555); (126557,
   126557); (126559, 126559); (126561, 126562); (126564, 126564); (126567,
   126570); (126572, 126578); (126580, 126583); (126585, 126588); (126590,
   126590); (126592, 126601); (126603, 126619); (126625, 126627); (126629,
   126633); (126635, 126651); (127232, 127244); (130032, 130041); (131072,
   173791); (173824, 177976); (177984, 178205); (178208, 183969); (183984,
   191456); (194560, 195101); (196608, 201546)].

Definition is_word (c : char) : bool :=
  existsb (fun r => (fst r <=? c) && (c <=? snd r)) word_ranges.

(** Simple lower-casing, as [re.IGNORECASE] applies it: Latin and basic
    Cyrillic capitals, and the Kelvin sign U+212A whose lower case is
    [k].  These are all the code points that lower-case to a letter of
    the patterns of [parse_amount]. *)
Definition lower (c : char) : char :=
  if (65 <=? c) && (c <=? 90) then c + 32
  else if (1040 <=? c) && (c <=? 1071) then c + 32
  else if (1024 <=? c) && (c <=? 1039) then c + 80
  else if c =? 8490 then 107
  else c.

(** *** Methods of [str] *)

Definition truthy (s : str) : bool :=
  match s with [] => false | _ => true end.

Fixpoint lstrip (s : str) : str :=
  match s with
  | c :: s' => if is_space c then lstrip s' else s
  | [] => []
  end.

Definition rstrip (s : str) : str := rev (lstrip (rev s)).

Definition strip (s : str) : str := rstrip (lstrip s).

(** [s.replace(a, b)] for one-character [a] and [b]. *)
Definition replace_char (a b : char) (s : str) : str :=
  map (fun c => if c =? a then b else c) s.

(** [s.replace(a, '')] for a one-character [a]. *)
Fixpoint remove_char (a : char) (s : str) : str :=
  match s with
  | c :: s' => if c =? a then remove_char a s' else c :: remove_char a s'
  | [] => []
  end.

Definition startswith_char (a : char) (s : str) : bool :=
  match s with c :: _ => c =? a | [] => false end.

Definition str_eqb (s t : str) : bool := bool_decide (s = t).

(** *** [float(s)]

    Decimal literals [[+-]digits[.digits]] (and the forms [digits.] and
    [.digits]), with the digits of any script; every other string answers
    [None], Python's [ValueError].  The exponent forms, [inf], [nan], digit
    separators and surrounding blanks that [float] also reads cannot reach
    it from [parse_amount], whose arguments are regular-expression
    groups. *)
Definition digit_value (c : char) : Z :=
  match zero_of c with Some z => c - z | None => 0 end.

Definition digits_to_Z (ds : str) : Z :=
  fold_left (fun acc c => acc * 10 + digit_value c) ds 0.

Fixpoint split_point (s : str) : str * option str :=
  match s with
  | [] => ([], None)
  | c :: s' =>
    if c =? 46 then ([], Some s')
    else let '(i, f) := split_point s' in (c :: i, f)
  end.

Definition unsigned_float (s : str) : option PyFloat.float :=
  let '(i, f) := split_point s in
  let fr := default [] f in
  if forallb is_digit i && forallb is_digit fr && truthy (i ++ fr)
  then Some (PyFloat.of_decimal (digits_to_Z (i ++ fr)) (length fr))
  else None.

Definition py_float (s : str) : option PyFloat.float :=
  match s with
  | 45 :: s' => PyFloat.fneg <$> unsigned_float s'
  | 43 :: s' => unsigned_float s'
  | _ => unsigned_float s
  end.

End PyStr.

(* ================================================================== *)
(** ** The regular expressions of [re] used by utils.py *)
(* ================================================================== *)

Module Re.
Import PyStr.

(** One-character classes.  All patterns are compiled with
    [re.IGNORECASE]; it only matters for the sets. *)
Inductive cclass :=
| CDigit                      (* \d *)
| CSpace                      (* \s *)
| CDot                        (* .  : anything but a newline *)
| CSet (cs : list char).      (* [...] and single literal characters *)

Definition cclass_match (c : cclass) (x : char) : bool :=
  match c with
  | CDigit => is_digit x
  | CSpace => is_space x
  | CDot => negb (x =? 10)
  | CSet cs => existsb (fun y => lower y =? lower x) cs
  end.

Inductive regex :=
| REps                              (* the empty pattern *)
| RBol                              (* ^ *)
| REol                              (* $ *)
| RWordB                            (* \b *)
| RCls (c : cclass)
| RSeq (r1 r2 : regex)
| RAlt (r1 r2 : regex)              (* r1|r2 *)
| ROpt (r : regex)                  (* r?  *)
| RStar (c : cclass)                (* c*  *)
| RPlus (c : cclass)                (* c+  *)
| RLazyPlus (c : cclass)            (* c+? *)
| RGroup (i : nat) (r : regex).     (* capturing group number i *)

(** Captured groups, latest first. *)
Definition caps := list (nat * str).

Fixpoint group (i : nat) (g : caps) : option str :=
  match g with
  | (j, t) :: g' => if Nat.eqb i j then Some t else group i g'
  | [] => None
  end.

(** [m.groups()] of a pattern with [n] groups. *)
Definition groups (n : nat) (g : caps) : list (option str) :=
  map (fun i => group i g) (seq 1 n).

(** The continuation receives the character before the position (for
    [\b] and [^]), the rest of the subject and the groups so far. *)
Definition cont := option char -> str -> caps -> option caps.

Definition is_word_opt (c : option char) : bool :=
  match c with Some x => is_word x | None => false end.

(** Greedy [c*]: the longest run first, shorter runs on backtracking. *)
Fixpoint star (c : cclass) (prev : option char) (s : str) (g : caps)
    (k : cont) : option caps :=
  match s with
  | x :: s' =>
    if cclass_match c x then
      match star c (Some x) s' g k with
      | Some r => Some r
      | None => k prev s g
      end
    else k prev s g
  | [] => k prev s g
  end.

(** Lazy [c*?]: the shortest run first. *)
Fixpoint lazy_star (c : cclass) (prev : option char) (s : str) (g : caps)
    (k : cont) : option caps :=
  match k prev s g with
  | Some r => Some r
  | None =>
    match s with
    | x :: s' => if cclass_match c x then lazy_star c (Some x) s' g k else None
    | [] => None
    end
  end.

Fixpoint mtch (r : regex) (prev : option char) (s : str) (g : caps)
    (k : cont) : option caps :=
  match r with
  | REps => k prev s g
  | RBol => match prev with None => k prev s g | Some _ => None end
  | REol =>
    match s with
    | [] => k prev s g
    | [10] => k prev s g
    | _ => None
    end
  | RWordB =>
    if xorb (is_word_opt prev) (is_word_opt (head s)) then k prev s g else None
  | RCls c =>
    match s with
    | x :: s' => if cclass_match c x then k (Some x) s' g else None
    | [] => None
    end
  | RSeq r1 r2 => mtch r1 prev s g (fun p s' g' => mtch r2 p s' g' k)
  | RAlt r1 r2 =>
    match mtch r1 prev s g k with
    | Some r => Some r
    | None => mtch r2 prev s g k
    end
  | ROpt r1 =>
    match mtch r1 prev s g k with
    | Some r => Some r
    | None => k prev s g
    end
  | RStar c => star c prev s g k
  | RPlus c =>
    match s with
    | x :: s' => if cclass_match c x then star c (Some x) s' g k else None
    | [] => None
    end
  | RLazyPlus c =>
    match s with
    | x :: s' => if cclass_match c x then lazy_star c (Some x) s' g k else None
    | [] => None
    end
  | RGroup i r1 =>
    mtch r1 prev s g
      (fun p s' g' => k p s' ((i, take (length s - length s') s) :: g'))
  end.

Definition accept : cont := fun _ _ g => Some g.

(** [re.match]: at the start of the subject only. *)
Definition re_match (r : regex) (s : str) : option caps :=
  mtch r None s [] accept.

(** [re.search]: the first position from which the pattern matches. *)
Fixpoint search_from (r : regex) (prev : option char) (s : str) : option caps :=
  match mtch r prev s [] accept with
  | Some g => Some g
  | None =>
    match s with
    | x :: s' => search_from r (Some x) s'
    | [] => None
    end
  end.

Definition re_search (r : regex) (s : str) : option caps :=
  search_from r None s.

(** A literal word is the sequence of its characters. *)
Definition chr (c : char) : regex := RCls (CSet [c]).

Fixpoint lit (w : str) : regex :=
  match w with
  | [] => REps
  | [c] => chr c
  | c :: w' => RSeq (chr c) (lit w')
  end.

(** [group_free i r]: the pattern [r] has no group number [i]. *)
Fixpoint group_free (i : nat) (r : regex) : bool :=
  match r with
  | RSeq r1 r2 | RAlt r1 r2 => group_free i r1 && group_free i r2
  | ROpt r1 => group_free i r1
  | RGroup j r1 => negb (Nat.eqb i j) && group_free i r1
  | _ => true
  end.

(** [needs P r]: every match of [r] consumes a character that satisfies
    [P]. *)
Inductive needs (P : char -> bool) : regex -> Prop :=
| needs_cls c : (forall x, cclass_match c x = true -> P x = true) -> needs P (RCls c)
| needs_plus c : (forall x, cclass_match c x = true -> P x = true) -> needs P (RPlus c)
| needs_lazy_plus c :
    (forall x, cclass_match c x = true -> P x = true) -> needs P (RLazyPlus c)
| needs_seq_l r1 r2 : needs P r1 -> needs P (RSeq r1 r2)
| needs_seq_r r1 r2 : needs P r2 -> needs P (RSeq r1 r2)
| needs_alt r1 r2 : needs P r1 -> needs P r2 -> needs P (RAlt r1 r2)
| needs_group i r : needs P r -> needs P (RGroup i r).

End Re.

(* ================================================================== *)
(** ** utils.py: amounts *)
(* ================================================================== *)

Module Utils.
Import PyFloat PyStr Re.

(** The numeric token, "-?\d+(?:[\.,]\d+)?". *)
Definition NUMBER : regex :=
  RSeq (ROpt (chr 45))
    (RSeq (RPlus CDigit)
          (ROpt (RSeq (RCls (CSet [46; 44])) (RPlus CDigit)))).

(** The currency words, "руб\b|рублей\b|рубля\b|р\b|₽\b". *)
Definition CURRENCY_B : regex :=
  RAlt (RSeq (lit (py "руб")) RWordB)
    (RAlt (RSeq (lit (py "рублей")) RWordB)
      (RAlt (RSeq (lit (py "рубля")) RWordB)
        (RAlt (RSeq (lit (py "р")) RWordB)
              (RSeq (lit (py "₽")) RWordB)))).

(** The currency words of the last pattern, "руб\b|рублей\b|рубля\b|р\b|₽". *)
Definition CURRENCY : regex :=
  RAlt (RSeq (lit (py "руб")) RWordB)
    (RAlt (RSeq (lit (py "рублей")) RWordB)
      (RAlt (RSeq (lit (py "рубля")) RWordB)
        (RAlt (RSeq (lit (py "р")) RWordB)
              (lit (py "₽"))))).

(** k_pattern: "^(-?\d+(?:[\.,]\d+)?)\s*[кkK]", then the optional
    "(?:\s*(?:руб\b|рублей\b|рубля\b|р\b|₽\b))?", then "\s*" and a second
    group that takes the rest of the line (dot, starred), then "$". *)
Definition k_pattern : regex :=
  RSeq RBol
    (RSeq (RGroup 1 NUMBER)
      (RSeq (RStar CSpace)
        (RSeq (RCls (CSet (py "кkK")))
          (RSeq (ROpt (RSeq (RStar CSpace) CURRENCY_B))
            (RSeq (RStar CSpace)
              (RSeq (RGroup 2 (RStar CDot)) REol)))))).

(** patterns[0] =
    "^(.+?)\s+(-?\d+(?:[\.,]\d+)?)\s*(руб\b|рублей\b|рубля\b|р\b|₽\b)?$" *)
Definition pattern_1 : regex :=
  RSeq RBol
    (RSeq (RGroup 1 (RLazyPlus CDot))
      (RSeq (RPlus CSpace)
        (RSeq (RGroup 2 NUMBER)
          (RSeq (RStar CSpace)
            (RSeq (ROpt (RGroup 3 CURRENCY_B)) REol))))).

(** patterns[1] = "^(.+?)\s+(-?\d+(?:[\.,]\d+)?)$" *)
Definition pattern_2 : regex :=
  RSeq RBol
    (RSeq (RGroup 1 (RLazyPlus CDot))
      (RSeq (RPlus CSpace)
        (RSeq (RGroup 2 NUMBER) REol))).

(** patterns[2] = "^(-?\d+(?:[\.,]\d+)?)\s*(руб\b|рублей\b|рубля\b|р\b|₽)?$" *)
Definition pattern_3 : regex :=
  RSeq RBol
    (RSeq (RGroup 1 NUMBER)
      (RSeq (RStar CSpace)
        (RSeq (ROpt (RGroup 2 CURRENCY)) REol))).

(** The list [patterns], each with its number of groups. *)
Definition patterns : list (regex * nat) :=
  [(pattern_1, 3%nat); (pattern_2, 2%nat); (pattern_3, 2%nat)].

(** "^-?\d", the test that tells the last pattern from the second. *)
Definition starts_number : regex :=
  RSeq RBol (RSeq (ROpt (chr 45)) (RCls CDigit)).

(** [groups[i]] as a string; the first two groups of every pattern take
    part in each of its matches. *)
Definition grp (i : nat) (gs : list (option str)) : str :=
  default [] (default None (gs !! i)).

(** What one round of the [for pattern in patterns] loop does. *)
Inductive round := Continue | Return (r : option (float * str)).

Definition amount_of (amount_str description : str) : round :=
  let is_negative := startswith_char 45 amount_str in
  let amount_str_clean := remove_char 45 (replace_char 44 46 amount_str) in
  match py_float amount_str_clean with
  | Some a =>
    let amount := if is_negative then fneg a else a in
    if feqb amount (of_Z 0) then Return None
    else Return (Some (amount, description))
  | None => Continue                       (* except ValueError: continue *)
  end.

Definition try_pattern (p : regex * nat) (text : str) : round :=
  match re_search (fst p) text with
  | None => Continue
  | Some m =>
    let gs := groups (snd p) m in
    match length gs with
    | 3%nat => amount_of (grp 1 gs) (strip (grp 0 gs))
    | 2%nat =>
      match re_match starts_number (grp 0 gs) with
      | Some _ => amount_of (grp 0 gs) []
      | None => amount_of (grp 1 gs) (strip (grp 0 gs))
      end
    | _ => Continue
    end
  end.

Fixpoint try_patterns (ps : list (regex * nat)) (text : str)
    : option (float * str) :=
  match ps with
  | [] => None
  | p :: ps' =>
    match try_pattern p text with
    | Return r => r
    | Continue => try_patterns ps' text
    end
  end.

(** The [if k_match:] block. *)
Definition k_branch (text : str) : round :=
  match re_search k_pattern text with
  | None => Continue
  | Some m =>
    match py_float (replace_char 44 46 (default [] (group 1 m))) with
    | Some num =>
      let amount := fmul num (of_Z 1000) in
      let description := strip (default [] (group 2 m)) in
      if fleb amount (of_Z 0) then Return None
      else Return (Some (amount, description))
    | None => Continue                     (* except ValueError: pass *)
    end
  end.

(** [parse_amount(text)]: [Some (amount, description)], or [None] for the
    pair [(None, None)]. *)
Definition parse_amount (text : str) : option (float * str) :=
  if negb (truthy text) || negb (truthy (strip text)) then None
  else
    let text := strip text in
    match k_branch text with
    | Return r => r
    | Continue => try_patterns patterns text
    end.

(** *** [validate_amount] *)

(** The third component of the result: the empty string on success,
    otherwise one of the four error texts. *)
Inductive validation_message :=
| msg_ok                (* the empty string *)
| msg_enter_amount      (* "Введите сумму" *)
| msg_cannot_parse      (* "Не могу распознать сумму. Примеры: ..." *)
| msg_must_be_positive  (* "Сумма должна быть положительной" *)
| msg_too_large.        (* "Слишком большая сумма. Проверьте ввод." *)

Definition validate_amount (amount_str : str)
    : bool * option float * validation_message :=
  if negb (truthy amount_str) || negb (truthy (strip amount_str))
  then (false, None, msg_enter_amount)
  else
    match parse_amount amount_str with
    | None => (false, None, msg_cannot_parse)
    | Some (amount, _) =>
      if fleb amount (of_Z 0) then (false, None, msg_must_be_positive)
      else if fgtb amount (of_Z 1000000000) then (false, None, msg_too_large)
      else (true, Some amount, msg_ok)
    end.

End Utils.

(* ================================================================== *)
(** ** The inputs that the statements about [parse_amount] range over *)
(* ================================================================== *)

Module Tokens.
Import PyFloat PyStr.

(** A numeric token of the grammar: an optional minus sign, the digits of
    the integer part and, optionally, a separator with the digits after
    it. *)
Record number := {
  negative : bool;
  int_part : str;
  frac_part : option (char * str);
}.

Definition digits (ds : str) : bool := truthy ds && forallb is_digit ds.

(** The separator is [.] or [,]; both runs of digits are non-empty. *)
Definition well_formed (n : number) : bool :=
  digits (int_part n) &&
  match frac_part n with
  | Some (sep, fr) => ((sep =? 46) || (sep =? 44)) && digits fr
  | None => true
  end.

Definition frac_digits (n : number) : str :=
  match frac_part n with Some (_, fr) => fr | None => [] end.

(** The token as text. *)
Definition unsigned (n : number) : str :=
  int_part n ++ match frac_part n with Some (sep, fr) => sep :: fr | None => [] end.

Definition token (n : number) : str :=
  (if negative n then [45] else []) ++ unsigned n.

(** The float that the digits denote, and the float with the sign. *)
Definition magnitude (n : number) : float :=
  of_decimal (digits_to_Z (int_part n ++ frac_digits n)) (length (frac_digits n)).

Definition value (n : number) : float :=
  if negative n then fneg (magnitude n) else magnitude n.

(** The letters that the set of the thousand-multiplier suffix accepts
    under [re.IGNORECASE], written in the source and in the other case. *)
Definition k_letters : list char := py "кКkK".

(** A description in front of the number: it starts and ends with a
    character that is not white space, holds no newline, no digit and no
    minus sign. *)
Definition plain_description (d : str) : bool :=
  match d, last d with
  | c :: _, Some z =>
    negb (is_space c) && negb (is_space z)
    && forallb (fun x => negb (x =? 10) && negb (is_digit x) && negb (x =? 45)) d
  | _, _ => false
  end.

(** White space between the description and the number. *)
Definition blanks (ws : str) : bool := truthy ws && forallb is_space ws.

(** The token with a point for its separator, which is what [float]
    receives. *)
Definition dotted (n : number) : str :=
  int_part n ++ match frac_part n with Some (_, fr) => 46 :: fr | None => [] end.

(** What may follow a numeric token without extending it: nothing, or a
    character that is neither a digit nor a separator. *)
Definition no_number_ahead (rest : str) : Prop :=
  forall x rest', rest = x :: rest' -> is_digit x = false /\ x <> 46 /\ x <> 44.

End Tokens.

(* ================================================================== *)
(** ** config.py and the budget recommendations of utils.py *)
(* ================================================================== *)

Module Config.
Import PyFloat PyStr.

Definition CONFIDENCE_THRESHOLD : float := of_decimal 8 1.      (* 0.8 *)

Definition DEFAULT_CATEGORIES : list str :=
  [py "Еда"; py "Транспорт"; py "Развлечения"; py "Кафе"; py "Продукты";
   py "Здоровье"; py "Образование"; py "Другое"].

Inductive budget_group := essentials | wants | savings.

(** The dictionaries [BUDGET_RATIOS] and [CATEGORY_GROUPS], in the order
    of their keys. *)
Definition BUDGET_RATIOS : list (budget_group * float) :=
  [(essentials, of_decimal 5 1); (wants, of_decimal 3 1); (savings, of_decimal 2 1)].

Definition CATEGORY_GROUPS : list (budget_group * list str) :=
  [(essentials, [py "Продукты"; py "Транспорт"; py "Здоровье"; py "Образование"]);
   (wants, [py "Еда"; py "Кафе"; py "Развлечения"]);
   (savings, [py "Другое"])].

End Config.

Module Budget.
Import PyFloat PyStr Config.

(** The part of the [stats] dictionary that the recommendations read:
    [stats['overall']['total_amount']] and the rows of
    [stats['by_category']] with their keys [category] (NULL for
    transactions without a category) and [total]. *)
Record stats := {
  total_amount : float;
  by_category : list (option str * float);
}.

(** One entry of the list of recommendations.  The texts are Markdown
    strings built from the numbers kept here. *)
Inductive recommendation :=
| NoData                                              (* "Недостаточно данных ..." *)
| OverTarget (g : budget_group) (actual ideal deviation : float)
                                                      (* "... превышают норму ..." *)
| UnderTarget (g : budget_group) (actual ideal deviation : float)
                                                      (* "... ниже нормы ..." *)
| OnTarget (g : budget_group) (actual ideal : float)  (* "... в норме ..." *)
| GoodDistribution                                    (* "Отличное распределение бюджета!" *)
| ReduceEssentials                                    (* "Попробуйте сократить обязательные расходы." *)
| ReduceWants.                                        (* "Сократите траты на развлечения и желания." *)

Global Instance budget_group_eq_dec : EqDecision budget_group.
Proof. solve_decision. Defined.

(** [{cat['category']: cat['total'] for cat in ...}]: a later row
    replaces an earlier one with the same key. *)
Definition category_expenses (rows : list (option str * float))
    : gmap (option str) float :=
  foldl (fun m r => <[fst r := snd r]> m) ∅ rows.

(** [group_expenses[group]] after the two nested loops. *)
Definition group_expense (ce : gmap (option str) float) (categories : list str)
    : float :=
  foldl (fun acc c => fadd acc (default (of_Z 0) (ce !! Some c))) (of_Z 0) categories.

Definition group_percentage (st : stats) (g : budget_group) : float :=
  let ce := category_expenses (by_category st) in
  let amount :=
    group_expense ce
      (default [] (snd <$> find (fun p => bool_decide (fst p = g)) CATEGORY_GROUPS)) in
  if fgtb (total_amount st) (of_Z 0)
  then fmul (fdiv amount (total_amount st)) (of_Z 100)
  else of_Z 0.

(** [deviation = actual_percentage - ideal_percentage * 100] *)
Definition deviation (actual_percentage ideal_percentage : float) : float :=
  fsub actual_percentage (fmul ideal_percentage (of_Z 100)).

(** The body of the loop over [BUDGET_RATIOS]. *)
Definition group_recommendation (g : budget_group)
    (actual_percentage ideal_percentage : float) : recommendation :=
  let d := deviation actual_percentage ideal_percentage in
  let ideal := fmul ideal_percentage (of_Z 100) in
  if fgtb d (of_Z 10) then OverTarget g actual_percentage ideal d
  else if fltb d (of_Z (-10)) then UnderTarget g actual_percentage ideal d
  else OnTarget g actual_percentage ideal.

Definition ratio (g : budget_group) : float :=
  default (of_Z 0) (snd <$> find (fun p => bool_decide (fst p = g)) BUDGET_RATIOS).

Definition within_band (st : stats) (g : budget_group) : bool :=
  fleb (SFabs (fsub (group_percentage st g) (fmul (ratio g) (of_Z 100)))) (of_Z 10).

Definition generate_budget_recommendations (st : stats) : list recommendation :=
  if fleb (total_amount st) (of_Z 0) then [NoData]
  else
    let per_group :=
      map (fun p => group_recommendation (fst p) (group_percentage st (fst p)) (snd p))
          BUDGET_RATIOS in
    let essentials_ok := within_band st essentials in
    let wants_ok := within_band st wants in
    per_group ++
    (if essentials_ok && wants_ok then [GoodDistribution]
     else if negb essentials_ok then [ReduceEssentials]
     else if negb wants_ok then [ReduceWants]
     else []).

End Budget.

(* ================================================================== *)
(** ** nlp_classifier.py *)
(* ================================================================== *)

Module Classifier.
Import PyFloat PyStr Config.

(** The state of a [FinancialClassifier].  The fitted scikit-learn
    pipeline is the function [predict_proba] from a description to the
    probabilities of the classes ([None] when the call raises); the label
    encoder is the list of its classes. *)
Record FinancialClassifier := {
  is_trained : bool;
  pipeline : option (str -> option (list float));
  classes_ : list str;
}.

(** [np.argmax] on a vector of floats: the first index of the greatest
    element; a NaN counts as the greatest and ends the scan. *)
Fixpoint argmax_from (mp : float) (max_ind i : nat) (ip : list float) : nat :=
  match ip with
  | [] => max_ind
  | x :: ip' =>
    if negb (fleb x mp)
    then if is_nan x then i else argmax_from x i (S i) ip'
    else argmax_from mp max_ind (S i) ip'
  end.

(** [None] on the empty vector, where [np.argmax] raises. *)
Definition np_argmax (ip : list float) : option nat :=
  match ip with
  | [] => None
  | x :: ip' => Some (if is_nan x then O else argmax_from x 0 1 ip')
  end.

(** [predict(text)] with [return_probability=False].  The outer [None]
    is the [ValueError] of an untrained model; every exception inside the
    [try] block gives [(None, 0.0)]. *)
Definition predict (clf : FinancialClassifier) (text : str)
    : option (option str * float) :=
  match is_trained clf, pipeline clf with
  | true, Some predict_proba =>
    if negb (truthy text) then Some (None, of_Z 0)
    else
      Some
        (default (None, of_Z 0)
           (proba ← predict_proba text;
            max_idx ← np_argmax proba;
            confidence ← proba !! max_idx;
            category ← classes_ clf !! max_idx;
            Some (Some category, confidence)))
  | _, _ => None
  end.

Definition predict_with_threshold (clf : FinancialClassifier) (text : str)
    (threshold : float) : option (option str * float * bool) :=
  '(category, confidence) ← predict clf text;
  if fgeb confidence threshold
  then Some (category, confidence, true)
  else Some (None, confidence, false).

(** [is_max_at l j v]: [v] is the element of [l] at [j], no element is
    greater, and every element before [j] is smaller. *)
Definition is_max_at (l : list float) (j : nat) (v : float) : Prop :=
  l !! j = Some v
  /\ Forall (fun y => PyFloat.fleb y v = true) l
  /\ forall i y, (i < j)%nat -> l !! i = Some y -> PyFloat.fltb y v = true.

End Classifier.

(* ================================================================== *)
(** ** database.py *)
(* ================================================================== *)

Module Database.
Import PyFloat PyStr.

(** *** The sqlite3 cursor *)

Inductive sqlval :=
| SqlNull
| SqlInt (z : Z)
| SqlReal (x : float)
| SqlText (s : str).

(** A [sqlite3.Row], already turned into a dictionary. *)
Definition row := list (string * sqlval).

Record cursor := {
  pending : list row;     (* the rows that the fetch methods will return *)
  rowcount : Z;
}.

(** A fresh cursor has [rowcount = -1]. *)
Definition new_cursor : cursor := {| pending := []; rowcount := -1 |}.

(** [cursor.execute] of a SELECT statement: the rows are the result of the
    query; [rowcount] stays [-1] for every statement that produces rows. *)
Definition execute_select (c : cursor) (result : list row) : cursor :=
  {| pending := result; rowcount := -1 |}.

(** [cursor.execute] of INSERT, UPDATE or DELETE: [rowcount] is the number
    of rows changed. *)
Definition execute_dml (c : cursor) (changed : Z) : cursor :=
  {| pending := []; rowcount := changed |}.

Definition fetchone (c : cursor) : option row * cursor :=
  match pending c with
  | [] => (None, c)
  | r :: rs => (Some r, {| pending := rs; rowcount := rowcount c |})
  end.

Definition fetchall (c : cursor) : list row * cursor :=
  (pending c, {| pending := []; rowcount := rowcount c |}).

(** *** The tables *)

Record transaction := {
  t_id : Z;
  t_user_id : Z;
  t_amount : float;
  t_description : option str;
  t_category_id : option Z;
  t_date : Z;
}.

Record db := {
  categories : list (Z * str);          (* id, name *)
  transactions : list transaction;      (* latest first *)
  last_id : Z;                          (* AUTOINCREMENT counter *)
}.

(** The seed of [init_db] on an empty database: the default categories
    receive the ids 1, 2, ... in the order of the list. *)
Definition init_db : db :=
  {| categories := imap (fun i n => (Z.of_nat i + 1, n)) Config.DEFAULT_CATEGORIES;
     transactions := [];
     last_id := 0 |}.

Definition get_category_id (d : db) (category_name : str) : option Z :=
  fst <$> find (fun c => str_eqb (snd c) category_name) (categories d).

(** Code-point order, which is the order of SQLite's BINARY collation on
    UTF-8 text. *)
Fixpoint str_leb (a b : str) : bool :=
  match a, b with
  | [], _ => true
  | _ :: _, [] => false
  | x :: a', y :: b' => (x <? y) || ((x =? y) && str_leb a' b')
  end.

Fixpoint insert_by_name (c : Z * str) (l : list (Z * str)) : list (Z * str) :=
  match l with
  | [] => [c]
  | c' :: l' => if str_leb (snd c) (snd c') then c :: l else c' :: insert_by_name c l'
  end.

(** [SELECT id, name FROM categories ORDER BY name] *)
Definition get_all_categories (d : db) : list (Z * str) :=
  foldr insert_by_name [] (categories d).

(** [insert_transaction]: the new row id, or [None] when sqlite3 raises
    (then the transaction is rolled back).  [storage_ok] says whether the
    statement goes through; [now] is [datetime.now()]. *)
Definition insert_transaction (storage_ok : bool) (now : Z) (d : db)
    (user_id : Z) (amount : float) (description : option str)
    (category_id : option Z) : option Z * db :=
  if storage_ok then
    let transaction_id := last_id d + 1 in
    (Some transaction_id,
     {| categories := categories d;
        transactions :=
          {| t_id := transaction_id; t_user_id := user_id; t_amount := amount;
             t_description := description; t_category_id := category_id;
             t_date := now |} :: transactions d;
        last_id := transaction_id |})
  else (None, d).

(** *** [get_period_statistics] *)

(** The four SELECT statements of the function. *)
Inductive query :=
| q_overall           (* COUNT, SUM, AVG, MIN, MAX of the amounts *)
| q_by_category       (* per category: count, total, average *)
| q_most_expensive    (* ORDER BY t.amount DESC LIMIT 1 *)
| q_most_frequent.    (* GROUP BY c.name ORDER BY count DESC LIMIT 1 *)

(** The dictionary that the function returns; [statistics_empty] is the
    empty dictionary of the [except sqlite3.Error] branch. *)
Record statistics := {
  period : str;
  start_date : Z;
  end_date : Z;
  overall : row;
  by_category : list row;
  most_expensive : option row;
  most_frequent : option row;
  days_in_period : Z;
}.

Inductive statistics_dict :=
| statistics_empty
| statistics_of (s : statistics).

(** [stats.get('most_expensive')] and [stats.get('most_frequent')]. *)
Definition get_most_expensive (s : statistics_dict) : option row :=
  match s with statistics_empty => None | statistics_of s => most_expensive s end.

Definition get_most_frequent (s : statistics_dict) : option row :=
  match s with statistics_empty => None | statistics_of s => most_frequent s end.

Section PeriodStatistics.

(** The SQL engine: the rows that a statement yields for the parameters
    [(user_id, start_date, end_date)], or [None] when it raises
    [sqlite3.Error]. *)
Variable select : query -> Z -> Z -> Z -> option (list row).

(** Calendar arithmetic of [datetime]: times are microseconds of local
    time since 0001-01-01 (a Monday); [month_start] and [year_start]
    are [replace(day=1, ...)] and [replace(month=1, day=1, ...)]. *)
Variable month_start year_start : Z -> Z.

Definition day_us : Z := 86400000000.

Definition midnight (t : Z) : Z := t - t `mod` day_us.

Definition weekday (t : Z) : Z := (t `div` day_us) `mod` 7.

Definition period_start (period : str) (now : Z) : Z :=
  if str_eqb period (py "day") then midnight now
  else if str_eqb period (py "week") then midnight (now - weekday now * day_us)
  else if str_eqb period (py "month") then month_start now
  else if str_eqb period (py "year") then year_start now
  else 730119 * day_us.                      (* datetime(2000, 1, 1) *)

Definition get_period_statistics (now : Z) (user_id : Z) (period : str)
    : statistics_dict :=
  let cursor := new_cursor in
  let start_date := period_start period now in
  let end_date := now in
  default statistics_empty
    (rows ← select q_overall user_id start_date end_date;
     let cursor := execute_select cursor rows in
     let '(r, cursor) := fetchone cursor in
     let overall_stats := default [] r in
     rows ← select q_by_category user_id start_date end_date;
     let cursor := execute_select cursor rows in
     let '(category_stats, cursor) := fetchall cursor in
     rows ← select q_most_expensive user_id start_date end_date;
     let cursor := execute_select cursor rows in
     let '(most_expensive, cursor) :=
       if 0 <? rowcount cursor then fetchone cursor else (None, cursor) in
     rows ← select q_most_frequent user_id start_date end_date;
     let cursor := execute_select cursor rows in
     let '(most_frequent, cursor) :=
       if 0 <? rowcount cursor then fetchone cursor else (None, cursor) in
     Some (statistics_of
       {| period := period;
          start_date := start_date;
          end_date := end_date;
          overall := overall_stats;
          by_category := category_stats;
          most_expensive := most_expensive;
          most_frequent := most_frequent;
          days_in_period := (end_date - start_date) `div` day_us + 1 |})).

End PeriodStatistics.

End Database.

(* ================================================================== *)
(** ** database.py: the budgets *)
(* ================================================================== *)

Module Accounts.
Import PyFloat PyStr.

(** A row of the table [budgets]; [period] is given, never NULL. *)
Record budget := {
  b_id : Z;
  b_user_id : Z;
  b_category_id : Z;
  b_amount_limit : float;
  b_period : str;
}.

(** The table and its AUTOINCREMENT counter. *)
Record tables := {
  budgets : list budget;
  last_budget_id : Z;
}.

(** The columns of "UNIQUE(user_id, category_id, period)". *)
Definition same_key (user_id category_id : Z) (period : str) (b : budget) : bool :=
  (b_user_id b =? user_id) && (b_category_id b =? category_id)
  && str_eqb (b_period b) period.

(** [set_budget]: "INSERT OR REPLACE INTO budgets" takes away the row that
    holds the key and adds the new row under a fresh id; [False] and no
    change when sqlite3 raises. *)
Definition set_budget (storage_ok : bool) (t : tables) (user_id category_id : Z)
    (amount_limit : float) (period : str) : bool * tables :=
  if storage_ok then
    (true,
     {| budgets :=
          {| b_id := last_budget_id t + 1; b_user_id := user_id;
             b_category_id := category_id; b_amount_limit := amount_limit;
             b_period := period |}
          :: List.filter (fun b => negb (same_key user_id category_id period b))
               (budgets t);
        last_budget_id := last_budget_id t + 1 |})
  else (false, t).

(** [delete_budget]: "DELETE FROM budgets WHERE user_id = ? AND
    category_id = ?", then [cursor.rowcount > 0]. *)
Definition delete_budget (storage_ok : bool) (t : tables) (user_id category_id : Z)
    : bool * tables :=
  if storage_ok then
    let kept :=
      List.filter
        (fun b => negb ((b_user_id b =? user_id) && (b_category_id b =? category_id)))
        (budgets t) in
    let rowcount := Z.of_nat (length (budgets t) - length kept) in
    (0 <? rowcount, {| budgets := kept; last_budget_id := last_budget_id t |})
  else (false, t).

(** The limit that the table holds under a key. *)
Definition budget_limit (t : tables) (user_id category_id : Z) (period : str)
    : option float :=
  b_amount_limit <$> find (same_key user_id category_id period) (budgets t).

Definition key (b : budget) : Z * Z * str :=
  (b_user_id b, b_category_id b, b_period b).

End Accounts.

(* ================================================================== *)
(** ** bot.py: the conversation handlers *)
(* ================================================================== *)

Module Bot.
Import PyFloat PyStr Config Classifier Database Utils.

(** The states of the two [ConversationHandler]s; [END] is
    [ConversationHandler.END]. *)
Inductive state :=
| DESCRIPTION | AMOUNT | CONFIRM_CATEGORY | FAST_CATEGORY | FAST_AMOUNT | END.

(** The values kept in [context.user_data]. *)
Inductive pyval :=
| VNone
| VBool (b : bool)
| VInt (z : Z)
| VFloat (x : float)
| VStr (s : str).

(** The [callback_data] of the inline buttons, a closed set of tags:
    "confirm_yes", "confirm_no", "change_category", "cancel_add",
    "select_cat_<id>", "fast_cat_<id>" and "fast_cancel". *)
Inductive callback :=
| confirm_yes
| confirm_no
| change_category
| cancel_add_data
| select_cat (id : Z)
| fast_cat (id : Z)
| fast_cancel.

Definition button := (str * callback)%type.
Definition keyboard := list (list button).

(** What the bot sends back.  Each constructor is one of the texts of
    bot.py, with the data that the text shows and its inline keyboard. *)
Inductive message :=
| AddPrompt                               (* "Добавление новой транзакции ..." *)
| CannotParse                             (* "Не удалось распознать сумму ..." *)
| AddedAutomatically (transaction_id : Z) (confidence amount : float)
    (category : option str) (description : str)
                                          (* "Транзакция добавлена автоматически!" *)
| SaveError                               (* "Ошибка при сохранении транзакции ..." *)
| CheckData (description : str) (amount : float) (category : option str)
    (confidence : float) (kb : keyboard)  (* "Проверьте данные: ... Всё верно?" *)
| ChooseManually (confidence : float) (description : str) (amount : float)
    (kb : keyboard)                       (* "Модель не уверена в категории ..." *)
| Added (transaction_id : Z) (amount : float) (category : option pyval)
    (confidence : option pyval)           (* "Транзакция добавлена!" *)
| DataLost                                (* "Данные транзакции потеряны ..." *)
| EnterAgain                              (* "Введите данные заново ..." *)
| AddCancelled                            (* "Добавление транзакции отменено." *)
| ConfirmManual (description : option pyval) (amount : pyval)
    (category : str)                      (* "Подтверждение: ... Сохранить транзакцию?" *)
| ChooseAction (kb : keyboard)            (* "Выберите действие:" *)
| ChooseCategory (kb : keyboard)          (* "Выберите категорию вручную:" *)
| NoCategories                            (* "Категории не найдены ..." *)
| FastChoose (kb : keyboard)              (* "Быстрое добавление транзакции ..." *)
| FastCancelled                           (* "Добавление отменено." *)
| CategoryNotFound                        (* "Категория не найдена." *)
| FastEnterAmount (category : str)        (* "Категория: ... Теперь введите сумму" *)
| FastInvalid (err : validation_message)  (* the validation message and the examples *)
| FastNoCategory                          (* "Ошибка: категория не выбрана ..." *)
| FastAdded (transaction_id : Z) (amount : float) (category : option pyval)
                                          (* "Транзакция добавлена!" *)
| FastAddCancelled                        (* "Быстрое добавление отменено." *)
| OperationCancelled.                     (* "Операция отменена. Вы можете начать заново." *)

(** The bot as the handlers see it: the per-user dictionary
    [context.user_data], the database and the messages sent so far
    (latest first). *)
Record world := {
  user_data : gmap string pyval;
  database : db;
  sent : list message;
}.

(** What a handler finds around it: the global [classifier] ([None] when
    its initialisation failed), whether sqlite3 accepts the statements of
    this update, and the clock. *)
Record env := {
  classifier : option FinancialClassifier;
  storage_ok : bool;
  now : Z;
}.

Definition reply (m : message) (w : world) : world :=
  {| user_data := user_data w; database := database w; sent := m :: sent w |}.

Definition set_item (k : string) (v : pyval) (w : world) : world :=
  {| user_data := <[k := v]> (user_data w); database := database w; sent := sent w |}.

(** [context.user_data.clear()] *)
Definition clear (w : world) : world :=
  {| user_data := ∅; database := database w; sent := sent w |}.

Definition with_database (d : db) (w : world) : world :=
  {| user_data := user_data w; database := d; sent := sent w |}.

(** Truth value of [d.get(k)]. *)
Definition val_truthy (v : option pyval) : bool :=
  match v with
  | None | Some VNone => false
  | Some (VBool b) => b
  | Some (VInt z) => negb (z =? 0)
  | Some (VFloat x) => PyFloat.truthy x
  | Some (VStr s) => PyStr.truthy s
  end.

Definition opt_str (s : option str) : pyval :=
  match s with Some s => VStr s | None => VNone end.

Definition opt_int (z : option Z) : pyval :=
  match z with Some z => VInt z | None => VNone end.

(** The rows of category buttons, two to a row, and the cancel button. *)
Fixpoint keyboard_rows (mk : Z -> callback) (i n : nat) (row : list button)
    (cats : list (Z * str)) : keyboard :=
  match cats with
  | [] => []
  | cat :: cats' =>
    let row := row ++ [(snd cat, mk (fst cat))] in
    if (Nat.eqb (i mod 2) 0) || Nat.eqb i n
    then row :: keyboard_rows mk (S i) n [] cats'
    else keyboard_rows mk (S i) n row cats'
  end.

Definition category_keyboard (mk : Z -> callback) (cancel : callback)
    (cats : list (Z * str)) : keyboard :=
  keyboard_rows mk 1 (length cats) [] cats ++ [[(py "❌ Отмена", cancel)]].

Definition HIGH_CONFIDENCE_THRESHOLD : float := of_decimal 85 2.   (* 0.85 *)

(** How a handler ends: it returns the next state, or an exception leaves
    it.  Either way the writes to [user_data] and to the database that came
    before stay. *)
Inductive ending := Next (s : state) | Exception.

Definition outcome := (ending * world)%type.

Definition add_transaction_start (w : world) : outcome :=
  (Next DESCRIPTION, reply AddPrompt w).

(** The values of the local variables [suggested_category], [confidence],
    [category_id], [is_high_confidence] after the classification block,
    and the world with the keys that the block wrote; [None] when
    [predict_with_threshold] raises, before the block writes anything. *)
Definition classify (e : env) (description : str) (w : world)
    : option (option str * float * option Z * bool * world) :=
  let suggested_category := Some (py "Другое") in
  let confidence := of_Z 0 in
  let category_id := get_category_id (database w) (py "Другое") in
  match classifier e with
  | Some clf =>
    if PyStr.truthy description then
      '(category, conf, is_confident) ←
        predict_with_threshold clf description CONFIDENCE_THRESHOLD;
      if is_confident : bool then
        let category_id := category ≫= get_category_id (database w) in
        let is_high_confidence := fgeb conf HIGH_CONFIDENCE_THRESHOLD in
        Some (category, conf, category_id, is_high_confidence,
              set_item "is_high_confidence" (VBool is_high_confidence)
                (set_item "confidence" (VFloat conf)
                  (set_item "is_auto_category" (VBool true) w)))
      else
        Some (Some (py "❓ Требуется выбор"), conf, category_id, false,
              set_item "is_high_confidence" (VBool false)
                (set_item "confidence" (VFloat conf)
                  (set_item "is_auto_category" (VBool false) w)))
    else Some (suggested_category, confidence, category_id, false, w)
  | None => Some (suggested_category, confidence, category_id, false, w)
  end.

Definition add_transaction_text (e : env) (user_id : Z) (user_text : str)
    (w : world) : outcome :=
  match parse_amount user_text with
  | None => (Next DESCRIPTION, reply CannotParse w)
  | Some (amount, description) =>
    let w := set_item "amount" (VFloat amount) w in
    let w := set_item "description" (VStr description) w in
    match classify e description w with
    | None => (Exception, w)
    | Some (suggested_category, confidence, category_id, is_high_confidence, w) =>
      let w := set_item "suggested_category" (opt_str suggested_category) w in
      let w := set_item "category_id" (opt_int category_id) w in
      if is_high_confidence : bool then
        let '(transaction_id, d) :=
          insert_transaction (storage_ok e) (now e) (database w)
            user_id amount (Some description) category_id in
        let w := with_database d w in
        let w :=
          match transaction_id with
          | Some id =>
            reply (AddedAutomatically id confidence amount suggested_category description) w
          | None => reply SaveError w
          end in
        (Next END, clear w)
      else if val_truthy (user_data w !! "is_auto_category") then
        (Next CONFIRM_CATEGORY,
         reply (CheckData description amount suggested_category confidence
                  [[(py "✅ Да, все верно", confirm_yes)];
                   [(py "❌ Нет, изменить категорию", change_category)]]) w)
      else
        (Next CONFIRM_CATEGORY,
         reply (ChooseManually confidence description amount
                  (category_keyboard select_cat cancel_add_data
                     (get_all_categories (database w)))) w)
    end
  end.

Definition change_category_callback (w : world) : outcome :=
  (Next CONFIRM_CATEGORY,
        reply (ChooseCategory
                 (category_keyboard select_cat cancel_add_data
                    (get_all_categories (database w)))) w).

(** [user_data['amount']] only ever holds a float, [user_data['category_id']]
    an integer or [None], [user_data['description']] a string. *)
Definition description_of (v : option pyval) : option str :=
  match v with Some (VStr s) => Some s | _ => None end.

Definition confirm_category_callback (e : env) (user_id : Z) (data : callback)
    (w : world) : outcome :=
  match data with
  | change_category => change_category_callback w
  | confirm_yes =>
    let amount := user_data w !! "amount" in
    let description := user_data w !! "description" in
    let category_id := user_data w !! "category_id" in
    let category_name := user_data w !! "suggested_category" in
    let confidence := user_data w !! "confidence" in
    let w :=
      match amount, category_id with
      | Some (VFloat a), Some (VInt c) =>
        if val_truthy amount && val_truthy category_id then
          let '(transaction_id, d) :=
            insert_transaction (storage_ok e) (now e) (database w)
              user_id a (description_of description) (Some c) in
          let w := with_database d w in
          match transaction_id with
          | Some id => reply (Added id a category_name confidence) w
          | None => reply SaveError w
          end
        else reply DataLost w
      | _, _ => reply DataLost w
      end in
    (Next END, clear w)
  | confirm_no => (Next DESCRIPTION, reply EnterAgain w)
  | _ => (Next CONFIRM_CATEGORY, w)
  end.

Definition cancel_add (w : world) : outcome :=
  (Next END, reply AddCancelled (clear w)).

(** The loop that looks a category name up by its id. *)
Definition category_name_of (d : db) (category_id : Z) : option str :=
  snd <$> find (fun cat => fst cat =? category_id) (get_all_categories d).

(** The confirmation text shows [user_data.get('amount', 0)] through
    [format_money], which calls [amount.is_integer()]: when the key is
    missing the fallback is the integer 0, which has no such method, and
    the handler is left by an [AttributeError]. *)
Definition category_selection_callback (data : callback) (w : world) : outcome :=
  match data with
  | cancel_add_data => (Next END, clear (reply AddCancelled w))
  | select_cat category_id =>
    match category_name_of (database w) category_id with
    | Some category_name =>
      if PyStr.truthy category_name then
        let w := set_item "suggested_category" (VStr category_name) w in
        let w := set_item "category_id" (VInt category_id) w in
        let w := set_item "is_auto_category" (VBool false) w in
        match user_data w !! "amount" with
        | None => (Exception, w)
        | Some amount =>
          let w :=
            reply (ConfirmManual (user_data w !! "description") amount
                     category_name) w in
          let w :=
            reply (ChooseAction [[(py "✅ Да, сохранить", confirm_yes)];
                                 [(py "❌ Нет, отменить", cancel_add_data)]]) w in
          (Next CONFIRM_CATEGORY, w)
        end
      else (Next CONFIRM_CATEGORY, w)
    | None => (Next CONFIRM_CATEGORY, w)
    end
  | _ => (Next CONFIRM_CATEGORY, w)
  end.

Definition fast_add_start (w : world) : outcome :=
  match get_all_categories (database w) with
  | [] => (Next END, reply NoCategories w)
  | categories =>
    (Next FAST_CATEGORY,
          reply (FastChoose (category_keyboard fast_cat fast_cancel categories)) w)
  end.

Definition fast_category_callback (data : callback) (w : world) : outcome :=
  match data with
  | fast_cancel => (Next END, reply FastCancelled w)
  | fast_cat category_id =>
    match category_name_of (database w) category_id with
    | Some category_name =>
      if PyStr.truthy category_name then
        let w := set_item "fast_category_id" (VInt category_id) w in
        let w := set_item "fast_category_name" (VStr category_name) w in
        (Next FAST_AMOUNT, reply (FastEnterAmount category_name) w)
      else (Next END, reply CategoryNotFound w)
    | None => (Next END, reply CategoryNotFound w)
    end
  | _ => (Next FAST_CATEGORY, w)
  end.

Definition fast_amount_input (e : env) (user_id : Z) (user_text : str)
    (w : world) : outcome :=
  match validate_amount user_text with
  | (true, Some amount, _) =>
    let category_id := user_data w !! "fast_category_id" in
    let category_name := user_data w !! "fast_category_name" in
    match category_id with
    | Some (VInt c) =>
      if val_truthy category_id then
        let '(transaction_id, d) :=
          insert_transaction (storage_ok e) (now e) (database w)
            user_id amount None (Some c) in
        let w := with_database d w in
        let w :=
          match transaction_id with
          | Some id => reply (FastAdded id amount category_name) w
          | None => reply SaveError w
          end in
        (Next END, clear w)
      else (Next END, clear (reply FastNoCategory w))
    | _ => (Next END, clear (reply FastNoCategory w))
    end
  | (_, _, error_msg) => (Next FAST_AMOUNT, reply (FastInvalid error_msg) w)
  end.

Definition cancel_fast_add (w : world) : outcome :=
  (Next END, reply FastAddCancelled (clear w)).

(** *** The two [ConversationHandler]s of [main] *)

Inductive update :=
| Command (name : string)          (* "/name" *)
| Message (text : str)             (* a text message that is not a command *)
| CallbackQuery (data : callback). (* a press on an inline button *)

(** What a [ConversationHandler] does with an update: nothing when no
    handler of the current state takes it, otherwise it runs the handler. *)
Inductive handled :=
| NotHandled
| Raised (w : world)
| Handled (next : option state) (w : world).

Definition run (o : outcome) : handled :=
  match o with
  | (Exception, w) => Raised w
  | (Next END, w) => Handled None w
  | (Next s, w) => Handled (Some s) w
  end.

(** [conv_handler]: entry point "/add" (also on re-entry), the handlers of
    [DESCRIPTION] and [CONFIRM_CATEGORY], and the fallback "/cancel". *)
Definition conv_handler (e : env) (user_id : Z) (st : option state)
    (u : update) (w : world) : handled :=
  match u, st with
  | Command "add", _ => run (add_transaction_start w)
  | _, None => NotHandled
  | Message text, Some DESCRIPTION => run (add_transaction_text e user_id text w)
  | CallbackQuery data, Some CONFIRM_CATEGORY =>
    match data with
    | confirm_yes | confirm_no =>                       (* "^confirm_" *)
      run (confirm_category_callback e user_id data w)
    | change_category => run (change_category_callback w)
    | select_cat _ | cancel_add_data =>                 (* "^select_cat_", "^cancel_add" *)
      run (category_selection_callback data w)
    | _ => NotHandled
    end
  | Command "cancel", Some _ => run (cancel_add w)
  | _, _ => NotHandled
  end.

(** [fast_conv_handler]: entry point "/fast" (also on re-entry), the
    handlers of [FAST_CATEGORY] and [FAST_AMOUNT], and the fallback
    "/cancel". *)
Definition fast_conv_handler (e : env) (user_id : Z) (st : option state)
    (u : update) (w : world) : handled :=
  match u, st with
  | Command "fast", _ => run (fast_add_start w)
  | _, None => NotHandled
  | CallbackQuery data, Some FAST_CATEGORY =>
    match data with
    | fast_cat _ | fast_cancel => run (fast_category_callback data w)   (* "^fast_" *)
    | _ => NotHandled
    end
  | Message text, Some FAST_AMOUNT => run (fast_amount_input e user_id text w)
  | Command "cancel", Some _ => run (cancel_fast_add w)
  | _, _ => NotHandled
  end.

(** A conversation: the updates of one user, each with its environment,
    fed to a handler from a given state.  An update that the handler does
    not take leaves state and world as they are; a callback that raises
    leaves the state of the conversation as it is. *)
Fixpoint converse
    (h : env -> Z -> option state -> update -> world -> handled)
    (user_id : Z) (us : list (env * update)) (st : option state) (w : world)
    : option state * world :=
  match us with
  | [] => (st, w)
  | (e, u) :: us' =>
    match h e user_id st u w with
    | Handled st' w' => converse h user_id us' st' w'
    | Raised w' => converse h user_id us' st w'
    | NotHandled => converse h user_id us' st w
    end
  end.

Definition initial_world : world :=
  {| user_data := ∅; database := init_db; sent := [] |}.

(** *** The application of [main]

    [main] registers all its handlers in one group, where an update goes
    to the first handler, in the order of registration, that accepts it:
    the plain command handlers, then [conv_handler], then
    [fast_conv_handler], then the callback handlers of the reports and
    the charts, which take none of the buttons of the conversations. *)

(** The plain handler of "/cancel". *)
Definition cancel (w : world) : outcome :=
  (Next END, reply OperationCancelled w).

(** The other commands with a plain handler. *)
Definition plain_commands : list string :=
  ["start"; "help"; "categories"; "report"; "stats"; "budget"; "advice";
   "test_nlp"]%string.

(** The states of the two conversations of a user. *)
Record conversations := {
  add_conversation : option state;
  fast_conversation : option state;
}.

(** One update.  The result is [None] for the commands of
    [plain_commands], whose handlers are not part of this development.
    The state that a plain handler returns is not used. *)
Definition application (e : env) (user_id : Z) (c : conversations)
    (u : update) (w : world) : option (conversations * world) :=
  let in_conversations :=
    match conv_handler e user_id (add_conversation c) u w with
    | Handled st w' =>
      Some ({| add_conversation := st; fast_conversation := fast_conversation c |}, w')
    | Raised w' => Some (c, w')
    | NotHandled =>
      match fast_conv_handler e user_id (fast_conversation c) u w with
      | Handled st w' =>
        Some ({| add_conversation := add_conversation c; fast_conversation := st |}, w')
      | Raised w' => Some (c, w')
      | NotHandled => Some (c, w)
      end
    end in
  match u with
  | Command name =>
    if String.eqb name "cancel" then Some (c, snd (cancel w))
    else if bool_decide (name ∈ plain_commands) then None
    else in_conversations
  | _ => in_conversations
  end.

(** The updates of one user, one after the other. *)
Fixpoint serve (user_id : Z) (us : list (env * update)) (c : conversations)
    (w : world) : option (conversations * world) :=
  match us with
  | [] => Some (c, w)
  | (e, u) :: us' =>
    '(c', w') ← application e user_id c u w;
    serve user_id us' c' w'
  end.

Definition no_conversation : conversations :=
  {| add_conversation := None; fast_conversation := None |}.

End Bot.

(* ================================================================== *)
(** ** Concrete inputs for the examples *)
(* ================================================================== *)

Module Examples.
Import PyFloat PyStr Config Classifier Database Budget Bot Tokens.

(** A fitted model that gives every description 8% for "Еда" and 92% for
    "Кафе". *)
Definition example_classifier : FinancialClassifier :=
  {| is_trained := true;
     pipeline := Some (fun _ => Some [of_decimal 8 2; of_decimal 92 2]);
     classes_ := [py "Еда"; py "Кафе"] |}.

(** A bot with this classifier and a database that accepts every
    statement. *)
Definition example_env : env :=
  {| classifier := Some example_classifier; storage_ok := true; now := 0 |}.

(** The same bot without a classifier. *)
Definition manual_env : env :=
  {| classifier := None; storage_ok := true; now := 0 |}.

(** Bots whose model gives "Кафе" 82% and 60%. *)
Definition fair_env : env :=
  {| classifier :=
       Some {| is_trained := true;
               pipeline := Some (fun _ => Some [of_decimal 18 2; of_decimal 82 2]);
               classes_ := [py "Еда"; py "Кафе"] |};
     storage_ok := true; now := 0 |}.

Definition unsure_env : env :=
  {| classifier :=
       Some {| is_trained := true;
               pipeline := Some (fun _ => Some [of_decimal 4 1; of_decimal 6 1]);
               classes_ := [py "Еда"; py "Кафе"] |};
     storage_ok := true; now := 0 |}.




Definition example_stats : stats :=
  {| total_amount := of_Z 1000;
     by_category := [(Some (py "Еда"), of_Z 700); (Some (py "Продукты"), of_Z 300)] |}.

(** 40% essentials, 40% wants, 20% saved: the essentials and the wants on
    the two edges of the band. *)
Definition edge_stats : stats :=
  {| total_amount := of_Z 1000;
     by_category :=
       [(Some (py "Продукты"), of_Z 400); (Some (py "Еда"), of_Z 400);
        (Some (py "Другое"), of_Z 200)] |}.

(** A database whose SELECT statements all return one row. *)
Definition one_row_select (q : query) (user_id start_date end_date : Z)
    : option (list row) :=
  Some [[("amount"%string, SqlReal (of_Z 300))]].

(** The numbers "-200", "-2", "-1.5" and "1.5". *)
Definition minus_200 : number :=
  {| negative := true; int_part := py "200"; frac_part := None |}.
Definition minus_2 : number :=
  {| negative := true; int_part := py "2"; frac_part := None |}.
Definition minus_1_5 : number :=
  {| negative := true; int_part := py "1"; frac_part := Some (46, py "5") |}.
Definition plus_1_5 : number :=
  {| negative := false; int_part := py "1"; frac_part := Some (46, py "5") |}.

End Examples.

(* ================================================================== *)
(** ** Vocabulary of the further properties *)
(* ================================================================== *)

Module Grammar.
Import PyFloat PyStr Re Utils Tokens.

(** The currency words of the patterns. *)
Definition currency_words : list str :=
  [py "руб"; py "рублей"; py "рубля"; py "р"; py "₽"].

(** What follows the number in the first pattern. *)
Definition END_1 : regex :=
  RSeq (RStar CSpace) (RSeq (ROpt (RGroup 3 CURRENCY_B)) REol).

(** What follows the first group of the first pattern. *)
Definition TAIL_1 : regex :=
  RSeq (RPlus CSpace) (RSeq (RGroup 2 NUMBER) END_1).

(** What a character of the text around a number is not: a digit, a sign,
    a separator or the letter of the thousands. *)
Definition outside_number (c : char) : Prop :=
  is_digit c = false /\ c <> 45 /\ c <> 46 /\ c <> 44
  /\ cclass_match (CSet (py "кkK")) c = false.

(** A description after the suffix: it starts and ends with a character
    that is not white space, does not start with the letter of the currency
    words or the rouble sign, and holds no newline. *)
Definition suffix_description (d : str) : bool :=
  match d, last d with
  | c :: _, Some z =>
    negb (is_space c) && negb (is_space z)
    && negb (lower c =? 1088) && negb (c =? 8381)
    && forallb (fun x => negb (x =? 10)) d
  | _, _ => false
  end.

(** A description as the first pattern takes it: on one line, with no
    white space at its ends. *)
Definition any_description (d : str) : bool :=
  match d, last d with
  | c :: _, Some z =>
    negb (is_space c) && negb (is_space z) && forallb (fun x => negb (x =? 10)) d
  | _, _ => false
  end.

(** The currency words that are written with letters. *)
Definition currency_letters : list str :=
  [py "руб"; py "рублей"; py "рубля"; py "р"].

(** What may follow the number: nothing, or a currency word of [words]
    after white space or none. *)
Definition currency_tail (words : list str) (tail : str) : Prop :=
  tail = []
  \/ exists ws cur,
       tail = ws ++ cur /\ Forall (fun c => is_space c = true) ws /\ cur ∈ words.

(** Whether the suffix pattern matches a stripped text. *)
Definition has_suffix (s : str) : bool :=
  match re_search k_pattern s with Some _ => true | None => false end.

(** The numeric token that the grammar finds in a stripped text: the first
    group of the suffix pattern when it matches, otherwise the second group
    of the pattern with a description, otherwise the first group of the
    pattern of a number alone. *)
Definition found_token (s : str) : option str :=
  match re_search k_pattern s with
  | Some m => group 1 m
  | None =>
    match re_search pattern_1 s with
    | Some m => group 2 m
    | None =>
      match re_search pattern_3 s with
      | Some m => group 1 m
      | None => None
      end
    end
  end.

End Grammar.

Module Advice.
Import PyFloat PyStr Config Budget.

(** The closing line of [generate_budget_recommendations]. *)
Definition advice (st : stats) : recommendation :=
  if within_band st essentials then
    if within_band st wants then GoodDistribution else ReduceWants
  else ReduceEssentials.

Definition is_on_target (r : recommendation) : bool :=
  match r with OnTarget _ _ _ => true | _ => false end.

End Advice.

Module Ledger.
Import PyFloat PyStr Config Classifier Database Utils Bot.

(** The button of a category. *)
Definition button_of (mk : Z -> callback) (cat : Z * str) : button :=
  (snd cat, mk (fst cat)).

(** The table after [insert_transaction] has gone through. *)
Definition with_transaction (d : db) (now user_id : Z) (amount : float)
    (description : option str) (category_id : option Z) : db :=
  {| categories := categories d;
     transactions :=
       {| t_id := last_id d + 1; t_user_id := user_id; t_amount := amount;
          t_description := description; t_category_id := category_id;
          t_date := now |} :: transactions d;
     last_id := last_id d + 1 |}.


End Ledger.

Module Situations.
Import PyFloat PyStr Config Classifier Database Utils Bot Examples.

(** The model of [fair_env]: 82% for "Кафе". *)
Definition fair_classifier : FinancialClassifier :=
  {| is_trained := true;
     pipeline := Some (fun _ => Some [of_decimal 18 2; of_decimal 82 2]);
     classes_ := [py "Еда"; py "Кафе"] |}.

(** A user in the middle of a text dialogue: the amount 300 is pending. *)
Definition amount_pending : world :=
  set_item "amount" (VFloat (of_Z 300)) initial_world.

(** The same user after a category was suggested and "/fast" has led to
    the choice of the category 1. *)
Definition both_pending : world :=
  set_item "fast_category_id" (VInt 1)
    (set_item "category_id" (VInt 4) amount_pending).

(** A user whose earlier text was categorised with a middle confidence. *)
Definition after_suggestion : world :=
  set_item "is_auto_category" (VBool true) initial_world.


(** Saturday 2025-11-29 at 08:00, in microseconds since 0001-01-01. *)
Definition a_saturday : Z := 63900000000 * 1000000.

End Situations.

(* ================================================================== *)
(** * Facts *)
(* ================================================================== *)

Import PyFloat PyStr Re Utils Tokens Examples.

(** ** The order of floats *)

Ltac cmp_cases :=
  repeat match goal with
  | |- context [Pos.compare_cont Eq ?a ?b] =>
    change (Pos.compare_cont Eq a b) with (Pos.compare a b)
  end;
  repeat match goal with
  | |- context [Z.compare ?a ?b] => destruct (Z.compare_spec a b)
  | |- context [Pos.compare ?a ?b] => destruct (Pos.compare_spec a b)
  end.

Ltac float_cases :=
  unfold fleb, fltb, fgtb, fgeb, feqb, SFleb, SFltb, SFeqb, SFcompare;
  repeat match goal with
  | |- forall x : float, _ => intros [[]|[]| |[] ? ?]
  end;
  cbn; try congruence;
  cmp_cases; cbn; intros; subst; try congruence; try lia.

Section FloatOrder.

Lemma pos_compare_cont_eq (m n : positive) :
  Pos.compare_cont Eq m n = Pos.compare m n.
Proof. reflexivity. Qed.


Lemma fltb_trans : forall x y z : float,
  fltb x y = true -> fltb y z = true -> fltb x z = true.
Proof. float_cases. Qed.

Lemma fltb_fleb_trans : forall x y z : float,
  fltb x y = true -> fleb y z = true -> fltb x z = true.
Proof. float_cases. Qed.

Lemma fleb_fltb_trans : forall x y z : float,
  fleb x y = true -> fltb y z = true -> fltb x z = true.
Proof. float_cases. Qed.

Lemma fltb_fleb : forall x y : float, fltb x y = true -> fleb x y = true.
Proof. float_cases. Qed.

Lemma fltb_not_fleb : forall x y : float, fltb x y = true -> fleb y x = false.
Proof. float_cases. Qed.

Lemma fleb_not_fltb : forall x y : float, fleb x y = true -> fltb y x = false.
Proof. float_cases. Qed.

Lemma fleb_total : forall x y : float,
  is_nan x = false -> is_nan y = false -> fleb x y = false -> fltb y x = true.
Proof. float_cases. Qed.

Lemma fleb_refl : forall x : float, is_nan x = false -> fleb x x = true.
Proof. float_cases. Qed.

Lemma feqb_fneg_zero (x : float) :
  feqb (fneg x) (of_Z 0) = feqb x (of_Z 0).
Proof. destruct x as [[]|[]| |[] ? ?]; reflexivity. Qed.

End FloatOrder.

(** ** Signs survive rounding *)

Section Rounding.

Lemma shr_1_nonneg (mrs : shr_record) : 0 <= shr_m mrs -> 0 <= shr_m (shr_1 mrs).
Proof. destruct mrs as [[|[p|p|]|p] r s]; simpl; lia. Qed.

Lemma iter_pos_invariant {A} (P : A -> Prop) (f : A -> A) :
  (forall x, P x -> P (f x)) -> forall n x, P x -> P (SpecFloat.iter_pos f n x).
Proof.
  intros Hf n. induction n as [n IH|n IH|]; intros x Hx; simpl; auto.
Qed.

Lemma shr_nonneg (mrs : shr_record) (e n : Z) :
  0 <= shr_m mrs -> 0 <= shr_m (fst (shr mrs e n)).
Proof.
  intros H. destruct n; simpl; auto.
  apply (iter_pos_invariant (fun r => 0 <= shr_m r)); auto using shr_1_nonneg.
Qed.

Lemma shr_fexp_nonneg (m e : Z) (l : location) :
  0 <= m -> 0 <= shr_m (fst (shr_fexp prec emax m e l)).
Proof.
  intros H. unfold shr_fexp. apply shr_nonneg.
  destruct l as [|[]]; simpl; lia.
Qed.

Lemma round_nearest_even_nonneg (m : Z) (l : location) :
  0 <= m -> 0 <= round_nearest_even m l.
Proof. intros H. destruct l as [|[]]; simpl; try destruct (Z.even m); lia. Qed.

Lemma binary_round_aux_sign (sx : bool) (mx ex : Z) (lx : location) :
  0 <= mx -> has_sign sx (binary_round_aux prec emax sx mx ex lx).
Proof.
  intros H. unfold binary_round_aux.
  pose proof (shr_fexp_nonneg mx ex lx H) as H1.
  destruct (shr_fexp prec emax mx ex lx) as [mrs' e']. simpl in H1.
  pose proof (shr_fexp_nonneg _ e' loc_Exact
                (round_nearest_even_nonneg _ (loc_of_shr_record mrs') H1)) as H2.
  destruct (shr_fexp prec emax _ e' loc_Exact) as [mrs'' e'']. simpl in H2.
  destruct (shr_m mrs'') as [|p|p]; simpl; try lia; auto.
  destruct (e'' <=? emax - prec); simpl; auto.
Qed.

Lemma fdiv_sign (m1 m2 : positive) (e1 e2 : Z) :
  has_sign false (fdiv (S754_finite false m1 e1) (S754_finite false m2 e2)).
Proof.
  unfold fdiv, SFdiv, SFdiv_core_binary.
  set (s := _ - _ - _).
  set (m' := match s with Z0 => Z.pos m1 | Z.pos _ => Z.shiftl (Z.pos m1) s | Z.neg _ => 0 end).
  assert (Hm : 0 <= m').
  { subst m'. destruct s; try lia. apply Z.shiftl_nonneg. lia. }
  pose proof (Z.div_pos m' (Z.pos m2) Hm ltac:(lia)) as Hq.
  unfold Z.div in Hq. destruct (Z.div_eucl m' (Z.pos m2)) as [q r].
  apply binary_round_aux_sign, Hq.
Qed.

Lemma of_decimal_sign (m : Z) (k : nat) : has_sign false (of_decimal m k).
Proof. destruct m; simpl; auto. apply fdiv_sign. Qed.

Lemma fmul_1000_sign (s : bool) (x : float) :
  has_sign s x -> has_sign s (fmul x (of_Z 1000)).
Proof.
  change (of_Z 1000) with (S754_finite false 8796093022208000 (-43)).
  destruct x as [sx|sx| |sx m e]; simpl; intros H; subst; try easy.
  - destruct s; reflexivity.
  - destruct s; reflexivity.
  - rewrite xorb_false_r. now apply binary_round_aux_sign.
Qed.

Lemma fneg_sign (s : bool) (x : float) : has_sign s x -> has_sign (negb s) (fneg x).
Proof. destruct x; simpl; intros; subst; auto. Qed.

Lemma negative_le_zero (x : float) : has_sign true x -> fleb x (of_Z 0) = true.
Proof. destruct x as [[]|[]| |[] ? ?]; simpl; intros; try easy. Qed.

Lemma fneg_fneg x : fneg (fneg x) = x.
Proof. destruct x as [[]|[]| |[] ? ?]; reflexivity. Qed.

End Rounding.

(** ** The matcher *)

Section Matcher.

Lemma star_none c : forall s prev g (k : cont),
  (forall p s' g', s' `suffix_of` s -> k p s' g' = None) ->
  star c prev s g k = None.
Proof.
  induction s as [|x s IH]; intros prev g k Hk; simpl.
  - now apply Hk.
  - rewrite IH by (intros; apply Hk; now apply suffix_cons_r).
    rewrite (Hk prev (x :: s) g) by done. now destruct (cclass_match c x).
Qed.

Lemma lazy_star_none c : forall s prev g (k : cont),
  (forall p s' g', s' `suffix_of` s -> k p s' g' = None) ->
  lazy_star c prev s g k = None.
Proof.
  induction s as [|x s IH]; intros prev g k Hk; simpl.
  - now rewrite Hk.
  - rewrite (Hk prev (x :: s) g) by done.
    rewrite IH by (intros; apply Hk; now apply suffix_cons_r).
    now destruct (cclass_match c x).
Qed.

Lemma mtch_none r : forall prev s g (k : cont),
  (forall p s' g', s' `suffix_of` s -> k p s' g' = None) ->
  mtch r prev s g k = None.
Proof.
  induction r as [| | | |c|r1 IH1 r2 IH2|r1 IH1 r2 IH2|r IH|c|c|c|i r IH];
    intros prev s g k Hk; simpl.
  - now apply Hk.
  - destruct prev; auto.
  - repeat case_match; auto.
  - destruct (xorb _ _); auto.
  - destruct s as [|x s]; auto. destruct (cclass_match c x); auto.
    apply Hk. now apply suffix_cons_r.
  - apply IH1. intros p s' g' Hs. apply IH2.
    intros p' s'' g'' Hs'. apply Hk. now transitivity s'.
  - rewrite IH1, IH2; auto.
  - rewrite IH; auto.
  - now apply star_none.
  - destruct s as [|x s]; auto. destruct (cclass_match c x); auto.
    apply star_none. intros. apply Hk. now apply suffix_cons_r.
  - destruct s as [|x s]; auto. destruct (cclass_match c x); auto.
    apply lazy_star_none. intros. apply Hk. now apply suffix_cons_r.
  - apply IH. intros. now apply Hk.
Qed.

Lemma needs_none P r : needs P r ->
  forall prev s g (k : cont),
  Forall (fun x => P x = false) s -> mtch r prev s g k = None.
Proof.
  induction 1 as [c Hc|c Hc|c Hc|r1 r2 _ IH|r1 r2 _ IH|r1 r2 _ IH1 _ IH2|i r _ IH];
    intros prev s g k Hs; simpl.
  1-3: destruct s as [|x s]; auto; apply Forall_cons in Hs as [Hx _];
       destruct (cclass_match c x) eqn:E; auto; apply Hc in E; congruence.
  - now apply IH.
  - apply mtch_none. intros p s' g' [l ->]. apply IH.
    now apply Forall_app in Hs as [_ ?].
  - rewrite IH1, IH2; auto.
  - now apply IH.
Qed.

Lemma search_needs_none P r : needs P r ->
  forall s prev, Forall (fun x => P x = false) s -> search_from r prev s = None.
Proof.
  intros Hr. induction s as [|x s IH]; intros prev Hs; simpl.
  - now rewrite (needs_none P r Hr).
  - rewrite (needs_none P r Hr) by done. apply IH.
    now apply Forall_cons in Hs as [_ ?].
Qed.

(** A pattern that starts with [^] matches at the first position or
    nowhere. *)
Lemma search_bol r s x : search_from (RSeq RBol r) (Some x) s = None.
Proof. revert x. induction s as [|y s IH]; intros x; simpl; auto. Qed.

Lemma search_anchored r s :
  re_search (RSeq RBol r) s = mtch r None s [] accept.
Proof.
  unfold re_search. destruct s as [|x s]; simpl.
  - now destruct (mtch r None [] [] accept).
  - destruct (mtch r None (x :: s) [] accept); auto. apply search_bol.
Qed.

(** Greedy repetition over a run that ends where the class stops. *)
Lemma star_run c (run rest : str) g (k : cont) res :
  Forall (fun x => cclass_match c x = true) run ->
  (forall x rest', rest = x :: rest' -> cclass_match c x = false) ->
  (forall p, k p rest g = Some res) ->
  forall prev, star c prev (run ++ rest) g k = Some res.
Proof.
  intros Hrun Hrest Hk. induction Hrun as [|x run Hx _ IH]; intros prev; simpl.
  - destruct rest as [|y rest]; simpl; auto.
    rewrite (Hrest y rest) by done. auto.
  - now rewrite Hx, IH.
Qed.

Lemma plus_run c (x : char) (run rest : str) g (k : cont) res :
  Forall (fun x => cclass_match c x = true) (x :: run) ->
  (forall x rest', rest = x :: rest' -> cclass_match c x = false) ->
  (forall p, k p rest g = Some res) ->
  forall prev, mtch (RPlus c) prev ((x :: run) ++ rest) g k = Some res.
Proof.
  intros Hrun Hrest Hk prev. apply Forall_cons in Hrun as [Hx Hrun]. simpl.
  rewrite Hx. now apply star_run.
Qed.

End Matcher.

(** ** Strings and character tables *)

Section Strings.

(** Where the decimal digits lie: not below [0], and in none of the gaps
    that hold the white space, the capital letters and the letters of the
    patterns. *)
Lemma is_digit_range c :
  is_digit c = true ->
  48 <= c /\ ~ 58 <= c <= 1631 /\ ~ 4250 <= c <= 6111 /\ ~ 7258 <= c <= 42527.
Proof.
  unfold is_digit, zero_of.
  destruct (find _ decimal_zeros) as [z|] eqn:E; [intros _|done].
  apply find_some in E as [Hin Hz]. unfold decimal_zeros in Hin.
  repeat (destruct Hin as [<-|Hin]; [lia|]). destruct Hin.
Qed.

Lemma forallb_Forall {A} (f : A -> bool) (l : list A) :
  forallb f l = true <-> Forall (fun x => f x = true) l.
Proof.
  induction l as [|x l IH]; simpl.
  - split; auto.
  - rewrite andb_true_iff, Forall_cons, IH. tauto.
Qed.

Lemma digits_inv ds :
  digits ds = true ->
  exists x l, ds = x :: l /\ Forall (fun c => is_digit c = true) (x :: l).
Proof.
  unfold digits. intros [Ht Hd]%andb_true_iff. destruct ds as [|x l]; [done|].
  exists x, l. split; auto. now apply forallb_Forall.
Qed.

Lemma lower_digit c : is_digit c = true -> lower c = c.
Proof. intros H%is_digit_range. unfold lower. repeat case_match; lia. Qed.

(** Lower-casing never yields a character below [A], except from itself. *)
Lemma lower_eq_small c d : d < 65 -> lower c = d -> c = d.
Proof. unfold lower. repeat case_match; lia. Qed.

Lemma set_match_small (cs : list char) x :
  Forall (fun y => y < 65) cs ->
  cclass_match (CSet cs) x = bool_decide (x ∈ cs).
Proof.
  intros Hcs. simpl. induction Hcs as [|y cs Hy _ IH]; simpl.
  - done.
  - rewrite IH. assert (Hl : lower y = y) by (unfold lower; repeat case_match; lia).
    rewrite Hl. destruct (Z.eqb_spec y (lower x)) as [E|E].
    + symmetry in E. apply lower_eq_small in E; [|done]. subst.
      symmetry. rewrite orb_true_l. apply bool_decide_eq_true. left.
    + destruct (decide (x = y)) as [->|Hne].
      * exfalso. apply E. unfold lower. repeat case_match; lia.
      * simpl. apply eq_true_iff_eq. rewrite !bool_decide_eq_true.
        rewrite elem_of_cons. tauto.
Qed.

Lemma lstrip_id c s : is_space c = false -> lstrip (c :: s) = c :: s.
Proof. intros H. simpl. now rewrite H. Qed.

Lemma lstrip_blank s : Forall (fun x => is_space x = true) s -> lstrip s = [].
Proof. induction 1 as [|x s Hx _ IH]; simpl; [done|]. now rewrite Hx. Qed.

Lemma strip_blank s : Forall (fun x => is_space x = true) s -> strip s = [].
Proof. intros H. unfold strip. now rewrite lstrip_blank. Qed.

Lemma strip_id c s z :
  is_space c = false -> last (c :: s) = Some z -> is_space z = false ->
  strip (c :: s) = c :: s.
Proof.
  intros Hc Hl Hz. unfold strip. rewrite lstrip_id by done. unfold rstrip.
  apply last_Some in Hl as [l' E]. rewrite E, rev_unit.
  rewrite lstrip_id by done. now rewrite <- rev_unit, rev_involutive.
Qed.

End Strings.

(** ** Numeric tokens *)

Ltac eval_py :=
  repeat match goal with
  | |- context [py ?s] =>
    let v := eval vm_compute in (py s) in change (py s) with v
  end.

Lemma set_no_match (cs : list char) c :
  lower c = c -> Forall (fun y => lower y <> c) cs ->
  cclass_match (CSet cs) c = false.
Proof.
  intros Hl Hcs. unfold cclass_match. rewrite Hl.
  induction Hcs as [|y cs Hy _ IH]; [done|].
  cbn [existsb]. rewrite IH, orb_false_r. lia.
Qed.

Section TokenFacts.

Variable n : number.
Hypothesis Hwf : well_formed n = true.

Lemma well_formed_int :
  exists x l, int_part n = x :: l /\ Forall (fun c => is_digit c = true) (x :: l).
Proof.
  apply digits_inv. unfold well_formed in Hwf.
  now apply andb_true_iff in Hwf as [? _].
Qed.

Lemma well_formed_frac sep fr :
  frac_part n = Some (sep, fr) ->
  (sep = 46 \/ sep = 44) /\
  exists x l, fr = x :: l /\ Forall (fun c => is_digit c = true) (x :: l).
Proof.
  intros E. unfold well_formed in Hwf. rewrite E in Hwf.
  apply andb_true_iff in Hwf as [_ [Hs Hd]%andb_true_iff].
  split; [lia|]. now apply digits_inv.
Qed.

(** Every character of the token is a digit, a separator or the sign. *)
Lemma token_chars :
  Forall (fun c => is_digit c = true \/ c = 46 \/ c = 44 \/ c = 45) (token n).
Proof.
  destruct well_formed_int as (x & l & Ei & Hi).
  unfold token, unsigned. rewrite Ei.
  apply Forall_app. split.
  { destruct (negative n); constructor; auto. }
  apply Forall_app. split.
  { eapply Forall_impl; [exact Hi|]. simpl. auto. }
  destruct (frac_part n) as [[sep fr]|] eqn:Ef; [|constructor].
  destruct (well_formed_frac sep fr Ef) as (Hs & y & m & -> & Hf).
  constructor; [lia|]. eapply Forall_impl; [exact Hf|]. simpl. auto.
Qed.

Lemma token_forall (P : char -> bool) :
  (forall c, is_digit c = true \/ c = 46 \/ c = 44 \/ c = 45 -> P c = false) ->
  Forall (fun c => P c = false) (token n).
Proof. intros H. eapply Forall_impl; [exact token_chars|]. exact H. Qed.

Lemma token_no_space : Forall (fun c => is_space c = false) (token n).
Proof.
  apply token_forall. intros c [H%is_digit_range|H]; unfold is_space; lia.
Qed.

Lemma token_no_k :
  Forall (fun c => cclass_match (CSet (py "кkK")) c = false) (token n).
Proof.
  apply token_forall. intros c H.
  assert (Hc : 48 <= c /\ ~ 58 <= c <= 1631 /\ ~ 7258 <= c <= 42527 \/ c < 48).
  { destruct H as [H%is_digit_range|H]; lia. }
  apply set_no_match.
  - unfold lower. repeat case_match; lia.
  - eval_py. repeat constructor; vm_compute lower; lia.
Qed.

Lemma token_head : exists c s, token n = c :: s /\ is_space c = false.
Proof.
  pose proof token_no_space as H.
  destruct well_formed_int as (x & l & Ei & Hi).
  destruct (token n) as [|c s] eqn:E.
  - exfalso. unfold token, unsigned in E. rewrite Ei in E.
    now destruct (negative n).
  - apply Forall_cons in H as [? _]. eauto.
Qed.

Lemma unsigned_last : exists z, last (unsigned n) = Some z /\ is_digit z = true.
Proof.
  destruct well_formed_int as (x & l & Ei & Hi).
  unfold unsigned. destruct (frac_part n) as [[sep fr]|] eqn:Ef.
  - destruct (well_formed_frac sep fr Ef) as (Hs & y & m & -> & Hf).
    rewrite last_app, last_cons.
    destruct (last (y :: m)) as [z|] eqn:El; [|now apply last_None in El].
    exists z. split; [done|].
    rewrite Forall_forall in Hf. apply Hf.
    apply last_Some in El as [l' ->]. apply elem_of_app. right. apply elem_of_cons. now left.
  - rewrite app_nil_r, Ei.
    destruct (last (x :: l)) as [z|] eqn:El; [|now apply last_None in El].
    exists z. split; [done|].
    rewrite Forall_forall in Hi. apply Hi.
    apply last_Some in El as [l' ->]. apply elem_of_app. right. apply elem_of_cons. now left.
Qed.

Lemma token_last : exists z, last (token n) = Some z /\ is_digit z = true.
Proof.
  destruct unsigned_last as (z & Hl & Hz). exists z. split; [|done].
  unfold token. rewrite last_app, Hl. done.
Qed.

Lemma strip_token : strip (token n) = token n.
Proof.
  destruct token_head as (c & s & E & Hc).
  destruct token_last as (z & Hl & Hz%is_digit_range).
  rewrite E in *. eapply strip_id; eauto. unfold is_space. lia.
Qed.

End TokenFacts.

Section FloatOfToken.

Lemma replace_app a b l1 l2 :
  replace_char a b (l1 ++ l2) = replace_char a b l1 ++ replace_char a b l2.
Proof. apply map_app. Qed.

Lemma replace_cons a b c l :
  replace_char a b (c :: l) = (if c =? a then b else c) :: replace_char a b l.
Proof. reflexivity. Qed.

Lemma remove_app a l1 l2 :
  remove_char a (l1 ++ l2) = remove_char a l1 ++ remove_char a l2.
Proof.
  induction l1 as [|c l1 IH]; simpl; [done|]. rewrite IH. now destruct (c =? a).
Qed.

Lemma replace_digits l :
  Forall (fun c => is_digit c = true) l -> replace_char 44 46 l = l.
Proof.
  induction 1 as [|x l Hx%is_digit_range _ IH]; simpl; [done|].
  rewrite IH. now destruct (Z.eqb_spec x 44); [lia|].
Qed.

Lemma remove_digits l :
  Forall (fun c => is_digit c = true) l -> remove_char 45 l = l.
Proof.
  induction 1 as [|x l Hx%is_digit_range _ IH]; simpl; [done|].
  rewrite IH. now destruct (Z.eqb_spec x 45); [lia|].
Qed.

Lemma split_point_digits i :
  Forall (fun c => is_digit c = true) i ->
  split_point i = (i, None) /\ forall f, split_point (i ++ 46 :: f) = (i, Some f).
Proof.
  induction 1 as [|x l Hx%is_digit_range _ [IH1 IH2]]; simpl; [done|].
  destruct (Z.eqb_spec x 46); [lia|]. rewrite IH1. split; [done|].
  intros f. now rewrite IH2.
Qed.

Lemma py_float_unsigned x s :
  x <> 45 -> x <> 43 -> py_float (x :: s) = unsigned_float (x :: s).
Proof. intros. unfold py_float. repeat case_match; congruence. Qed.

Variable n : number.
Hypothesis Hwf : well_formed n = true.

(** [','] becomes ['.']; the digits and the sign stay. *)
Lemma replace_unsigned : replace_char 44 46 (unsigned n) = dotted n.
Proof.
  destruct (well_formed_int n Hwf) as (x & l & Ei & Hi).
  unfold unsigned, dotted. rewrite replace_app, Ei, replace_digits by done.
  f_equal. destruct (frac_part n) as [[sep fr]|] eqn:Ef; [|done].
  destruct (well_formed_frac n Hwf sep fr Ef) as (Hs & y & m & E & Hf).
  rewrite replace_cons, E, replace_digits by done.
  destruct Hs as [-> | ->]; reflexivity.
Qed.

Lemma remove_dotted : remove_char 45 (dotted n) = dotted n.
Proof.
  destruct (well_formed_int n Hwf) as (x & l & Ei & Hi).
  unfold dotted. rewrite Ei, remove_app, remove_digits by done. f_equal.
  destruct (frac_part n) as [[sep fr]|] eqn:Ef; [|done].
  destruct (well_formed_frac n Hwf sep fr Ef) as (Hs & y & m & E & Hf).
  cbn [remove_char]. change (46 =? 45) with false. cbn iota.
  now rewrite E, remove_digits.
Qed.

Lemma unsigned_float_dotted : unsigned_float (dotted n) = Some (magnitude n).
Proof.
  destruct (well_formed_int n Hwf) as (x & l & Ei & Hi).
  unfold unsigned_float, dotted, magnitude, frac_digits.
  destruct (split_point_digits _ Hi) as [H1 H2].
  destruct (frac_part n) as [[sep fr]|] eqn:Ef.
  - destruct (well_formed_frac n Hwf sep fr Ef) as (Hs & y & m & E & Hf).
    rewrite Ei, H2. cbn [default from_option id]. rewrite <- Ei.
    assert (forallb is_digit (int_part n) = true) as -> by (rewrite Ei; now apply forallb_Forall).
    assert (forallb is_digit fr = true) as -> by (rewrite E; now apply forallb_Forall).
    now rewrite Ei.
  - rewrite app_nil_r, Ei, H1. cbn [default from_option id]. rewrite app_nil_r.
    assert (forallb is_digit (x :: l) = true) as -> by now apply forallb_Forall.
    reflexivity.
Qed.

Lemma py_float_dotted : py_float (dotted n) = Some (magnitude n).
Proof.
  destruct (well_formed_int n Hwf) as (x & l & Ei & Hi).
  pose proof unsigned_float_dotted as H. unfold dotted in *. rewrite Ei in *.
  apply Forall_cons in Hi as [Hx%is_digit_range _].
  cbn [app] in *. rewrite py_float_unsigned by lia. exact H.
Qed.

(** What [parse_amount] makes of group 1 on the branch of the suffix. *)
Lemma py_float_token : py_float (replace_char 44 46 (token n)) = Some (value n).
Proof.
  unfold token, value. destruct (negative n).
  - cbn [app]. rewrite replace_cons, replace_unsigned.
    change (45 =? 44) with false. cbn iota.
    unfold py_float. now rewrite unsigned_float_dotted.
  - cbn [app]. rewrite replace_unsigned. apply py_float_dotted.
Qed.

(** What it makes of the amount on the branch of the patterns. *)
Lemma py_float_clean :
  py_float (remove_char 45 (replace_char 44 46 (token n))) = Some (magnitude n).
Proof.
  unfold token. destruct (negative n).
  - cbn [app]. rewrite replace_cons, replace_unsigned.
    change (45 =? 44) with false. cbn iota.
    cbn [remove_char]. change (45 =? 45) with true. cbn iota.
    rewrite remove_dotted. apply py_float_dotted.
  - cbn [app]. rewrite replace_unsigned, remove_dotted. apply py_float_dotted.
Qed.

Lemma startswith_token : startswith_char 45 (token n) = negative n.
Proof.
  destruct (well_formed_int n Hwf) as (x & l & Ei & Hi).
  apply Forall_cons in Hi as [Hx%is_digit_range _].
  unfold token, unsigned. rewrite Ei. destruct (negative n); simpl; [done|]. lia.
Qed.

End FloatOfToken.

(** ** Matching a numeric token *)

Section Equations.

Context (prev : option char) (s : str) (g : caps) (k : cont).

Lemma mtch_seq r1 r2 :
  mtch (RSeq r1 r2) prev s g k = mtch r1 prev s g (fun p s' g' => mtch r2 p s' g' k).
Proof. reflexivity. Qed.

Lemma mtch_opt r :
  mtch (ROpt r) prev s g k =
  match mtch r prev s g k with Some x => Some x | None => k prev s g end.
Proof. reflexivity. Qed.

Lemma mtch_alt r1 r2 :
  mtch (RAlt r1 r2) prev s g k =
  match mtch r1 prev s g k with Some x => Some x | None => mtch r2 prev s g k end.
Proof. reflexivity. Qed.

Lemma mtch_group i r :
  mtch (RGroup i r) prev s g k =
  mtch r prev s g (fun p s' g' => k p s' ((i, take (length s - length s') s) :: g')).
Proof. reflexivity. Qed.

Lemma mtch_star c : mtch (RStar c) prev s g k = star c prev s g k.
Proof. reflexivity. Qed.

Lemma mtch_cls_nil c : mtch (RCls c) prev [] g k = None.
Proof. reflexivity. Qed.

Lemma mtch_cls_cons c x s' :
  mtch (RCls c) prev (x :: s') g k =
  if cclass_match c x then k (Some x) s' g else None.
Proof. reflexivity. Qed.

Lemma mtch_plus_nil c : mtch (RPlus c) prev [] g k = None.
Proof. reflexivity. Qed.

Lemma mtch_plus_cons c x s' :
  mtch (RPlus c) prev (x :: s') g k =
  if cclass_match c x then star c (Some x) s' g k else None.
Proof. reflexivity. Qed.

Lemma mtch_eol_nil : mtch REol prev [] g k = k prev [] g.
Proof. reflexivity. Qed.

End Equations.

Lemma take_prefix {A} (a b : list A) : take (length (a ++ b) - length b) (a ++ b) = a.
Proof.
  rewrite length_app, Nat.add_sub. apply take_app_length.
Qed.

Lemma star_nil c prev g (k : cont) : star c prev [] g k = k prev [] g.
Proof. reflexivity. Qed.

Lemma star_stop c prev x s g (k : cont) :
  cclass_match c x = false -> star c prev (x :: s) g k = k prev (x :: s) g.
Proof. intros H. simpl. now rewrite H. Qed.

(** The words for the currency need a letter or the rouble sign. *)
Lemma currency_b_nil prev g (k : cont) : mtch CURRENCY_B prev [] g k = None.
Proof. reflexivity. Qed.

Lemma currency_nil prev g (k : cont) : mtch CURRENCY prev [] g k = None.
Proof. reflexivity. Qed.

Lemma no_number_ahead_nil : no_number_ahead [].
Proof. intros x rest' H. discriminate. Qed.

Lemma separator_match x :
  cclass_match (CSet [46; 44]) x = bool_decide (x ∈ [46; 44]).
Proof. apply set_match_small. repeat constructor; lia. Qed.

Lemma minus_match x : cclass_match (CSet [45]) x = bool_decide (x ∈ [45]).
Proof. apply set_match_small. repeat constructor; lia. Qed.

Section NumberMatch.

Variable n : number.
Hypothesis Hwf : well_formed n = true.
Variables (rest : str) (g : caps) (k : cont) (res : caps).
Hypothesis Hrest : no_number_ahead rest.
Hypothesis Hk : forall p, k p rest g = Some res.

Let FRACTION : regex := ROpt (RSeq (RCls (CSet [46; 44])) (RPlus CDigit)).

Lemma fraction_match prev :
  mtch FRACTION prev
    (match frac_part n with Some (sep, fr) => sep :: fr | None => [] end ++ rest) g k
  = Some res.
Proof.
  unfold FRACTION. rewrite mtch_opt, mtch_seq.
  destruct (frac_part n) as [[sep fr]|] eqn:Ef.
  - destruct (well_formed_frac n Hwf sep fr Ef) as (Hs & y & m & -> & Hf).
    cbn [app]. rewrite mtch_cls_cons, separator_match.
    rewrite bool_decide_eq_true_2 by (rewrite ?elem_of_cons, ?elem_of_nil; lia).
    change (y :: m ++ rest) with ((y :: m) ++ rest).
    rewrite (plus_run CDigit y m rest g k res); auto.
    intros x rest' E. now destruct (Hrest x rest' E).
  - cbn [app]. destruct rest as [|x rest'] eqn:E.
    + rewrite mtch_cls_nil. apply Hk.
    + destruct (Hrest x rest' eq_refl) as (_ & H1 & H2).
      rewrite mtch_cls_cons, separator_match.
      rewrite bool_decide_eq_false_2 by (rewrite ?elem_of_cons, ?elem_of_nil; lia). apply Hk.
Qed.

Lemma unsigned_match prev :
  mtch (RSeq (RPlus CDigit) FRACTION) prev (unsigned n ++ rest) g k = Some res.
Proof.
  destruct (well_formed_int n Hwf) as (x & l & Ei & Hi).
  rewrite mtch_seq. unfold unsigned. rewrite Ei, <- app_assoc.
  apply plus_run; auto.
  - intros y rest' E. destruct (frac_part n) as [[sep fr]|] eqn:Ef.
    + destruct (well_formed_frac n Hwf sep fr Ef) as (Hs & _).
      injection E as <- _. cbn [cclass_match]. destruct Hs as [-> | ->]; reflexivity.
    + cbn [app] in E. now destruct (Hrest y rest' E).
  - intros p. apply fraction_match.
Qed.

Lemma number_match prev : mtch NUMBER prev (token n ++ rest) g k = Some res.
Proof.
  destruct (well_formed_int n Hwf) as (x & l & Ei & Hi).
  unfold NUMBER, chr. rewrite mtch_seq, mtch_opt.
  fold FRACTION. unfold token. destruct (negative n); cbn [app].
  - rewrite mtch_cls_cons, minus_match.
    rewrite bool_decide_eq_true_2 by (rewrite ?elem_of_cons, ?elem_of_nil; lia).
    now rewrite unsigned_match.
  - pose proof (unsigned_match prev) as H. revert H.
    unfold unsigned. rewrite Ei. cbn [app]. intros H.
    rewrite mtch_cls_cons, minus_match.
    apply Forall_cons in Hi as [Hx%is_digit_range _].
    rewrite bool_decide_eq_false_2 by (rewrite ?elem_of_cons, ?elem_of_nil; lia). exact H.
Qed.

End NumberMatch.

(** No number starts with a character that is neither a digit nor the
    minus sign. *)
Lemma number_fails prev x s g (k : cont) :
  is_digit x = false -> x <> 45 -> mtch NUMBER prev (x :: s) g k = None.
Proof.
  intros Hd Hm. unfold NUMBER, chr.
  rewrite mtch_seq, mtch_opt, mtch_cls_cons, minus_match.
  rewrite bool_decide_eq_false_2 by (rewrite ?elem_of_cons, ?elem_of_nil; lia).
  rewrite mtch_seq, mtch_plus_cons. cbn [cclass_match]. now rewrite Hd.
Qed.

Lemma number_fails_nil prev g (k : cont) : mtch NUMBER prev [] g k = None.
Proof. reflexivity. Qed.

Section Lazy.

Lemma lazy_star_run c (d rest : str) g (K : cont) res :
  Forall (fun x => cclass_match c x = true) d ->
  (forall d1 d2 p, d = d1 ++ d2 -> d2 <> [] -> K p (d2 ++ rest) g = None) ->
  (forall p, K p rest g = Some res) ->
  forall prev, lazy_star c prev (d ++ rest) g K = Some res.
Proof.
  intros Hd. induction Hd as [|x d Hx _ IH]; intros Hin Hk prev.
  - cbn [app]. destruct rest; simpl; now rewrite Hk.
  - cbn [app lazy_star]. rewrite (Hin [] (x :: d)), Hx by done.
    apply IH; auto. intros d1 d2 p -> Hne. now apply (Hin (x :: d1) d2).
Qed.

Lemma lazy_plus_run c (x : char) (d rest : str) g (K : cont) res :
  Forall (fun x => cclass_match c x = true) (x :: d) ->
  (forall d1 d2 p, x :: d = d1 ++ d2 -> d1 <> [] -> d2 <> [] ->
                   K p (d2 ++ rest) g = None) ->
  (forall p, K p rest g = Some res) ->
  forall prev, mtch (RLazyPlus c) prev ((x :: d) ++ rest) g K = Some res.
Proof.
  intros [Hx Hd]%Forall_cons Hin Hk prev. cbn [app mtch]. rewrite Hx.
  apply lazy_star_run; auto.
  intros d1 d2 p -> Hne. now apply (Hin (x :: d1) d2).
Qed.

(** A greedy run cannot pass a character outside its class; when the
    continuation fails in front of every character of [d], the run fails. *)
Lemma star_blocked c (K : cont) (rest : str) :
  forall (d : str) z,
  (forall p x s g', x ∈ d -> K p (x :: s) g' = None) ->
  last d = Some z -> cclass_match c z = false ->
  forall prev g, star c prev (d ++ rest) g K = None.
Proof.
  induction d as [|x d IH]; intros z HK Hl Hz prev g; [done|].
  cbn [app star]. rewrite (HK prev x) by (rewrite ?elem_of_cons, ?elem_of_nil; tauto).
  destruct d as [|y d].
  - injection Hl as ->. now rewrite Hz.
  - rewrite (IH z); [now destruct (cclass_match c x)| |done|done].
    intros. apply HK. apply elem_of_cons. now right.
Qed.

End Lazy.

Section Patterns.

Lemma needs_digit_number : needs is_digit NUMBER.
Proof. apply needs_seq_r, needs_seq_l, needs_plus. auto. Qed.

Lemma needs_digit_k_pattern : needs is_digit k_pattern.
Proof. apply needs_seq_r, needs_seq_l, needs_group, needs_digit_number. Qed.

Lemma needs_digit_pattern_1 : needs is_digit pattern_1.
Proof. do 3 apply needs_seq_r. apply needs_seq_l, needs_group, needs_digit_number. Qed.

Lemma needs_digit_pattern_2 : needs is_digit pattern_2.
Proof. do 3 apply needs_seq_r. apply needs_seq_l, needs_group, needs_digit_number. Qed.

Lemma needs_digit_pattern_3 : needs is_digit pattern_3.
Proof. apply needs_seq_r, needs_seq_l, needs_group, needs_digit_number. Qed.

Lemma needs_space_pattern_1 : needs is_space pattern_1.
Proof. do 2 apply needs_seq_r. apply needs_seq_l, needs_plus. auto. Qed.

Lemma needs_space_pattern_2 : needs is_space pattern_2.
Proof. do 2 apply needs_seq_r. apply needs_seq_l, needs_plus. auto. Qed.

Lemma needs_letter_k_pattern : needs (cclass_match (CSet (py "кkK"))) k_pattern.
Proof. do 3 apply needs_seq_r. apply needs_seq_l, needs_cls. auto. Qed.

End Patterns.

(** ** [parse_amount] on the inputs of the grammar *)

Section OnTokens.

Variable n : number.
Hypothesis Hwf : well_formed n = true.

Lemma token_truthy : truthy (token n) = true.
Proof. destruct (token_head n Hwf) as (c & s & -> & _). reflexivity. Qed.

(** *** The number alone *)

Lemma k_pattern_token : re_search k_pattern (token n) = None.
Proof.
  apply (search_needs_none _ _ needs_letter_k_pattern), token_no_k, Hwf.
Qed.

Lemma pattern_1_token : re_search pattern_1 (token n) = None.
Proof.
  apply (search_needs_none _ _ needs_space_pattern_1), token_no_space, Hwf.
Qed.

Lemma pattern_2_token : re_search pattern_2 (token n) = None.
Proof.
  apply (search_needs_none _ _ needs_space_pattern_2), token_no_space, Hwf.
Qed.

Lemma pattern_3_token : re_search pattern_3 (token n) = Some [(1%nat, token n)].
Proof.
  unfold pattern_3. rewrite search_anchored, mtch_seq, mtch_group.
  rewrite <- (app_nil_r (token n)) at 1.
  apply number_match; auto using no_number_ahead_nil.
  intros p. cbn [length]. rewrite Nat.sub_0_r, firstn_all. reflexivity.
Qed.

Lemma starts_number_token : is_Some (re_match starts_number (token n)).
Proof.
  destruct (well_formed_int n Hwf) as (x & l & Ei & Hi).
  apply Forall_cons in Hi as [Hx Hl].
  unfold re_match, starts_number, chr, token, unsigned. rewrite Ei.
  change (mtch (RSeq RBol ?r) None ?s ?g ?k) with (mtch r None s g k).
  rewrite mtch_seq, mtch_opt. destruct (negative n); cbn [app].
  - rewrite mtch_cls_cons, minus_match.
    rewrite bool_decide_eq_true_2 by (rewrite ?elem_of_cons, ?elem_of_nil; lia).
    rewrite mtch_cls_cons. cbn [cclass_match]. rewrite Hx. unfold accept. eauto.
  - rewrite mtch_cls_cons, minus_match, bool_decide_eq_false_2
      by (apply is_digit_range in Hx; rewrite ?elem_of_cons, ?elem_of_nil; lia).
    rewrite mtch_cls_cons. cbn [cclass_match]. rewrite Hx. unfold accept. eauto.
Qed.

Lemma amount_of_token description :
  amount_of (token n) description =
  Return (if feqb (value n) (of_Z 0) then None else Some (value n, description)).
Proof.
  unfold amount_of. rewrite (py_float_clean n Hwf), (startswith_token n Hwf).
  fold (value n). now destruct (feqb (value n) (of_Z 0)).
Qed.

Lemma parse_amount_token :
  parse_amount (token n) =
  if feqb (value n) (of_Z 0) then None else Some (value n, []).
Proof.
  unfold parse_amount. rewrite (strip_token n Hwf), token_truthy. cbn [negb orb].
  unfold k_branch. rewrite k_pattern_token.
  unfold patterns, try_patterns, try_pattern. cbn [fst snd].
  rewrite pattern_1_token, pattern_2_token, pattern_3_token.
  cbn [groups seq map group Nat.eqb length grp lookup list_lookup default from_option id].
  destruct starts_number_token as [m ->].
  rewrite amount_of_token. reflexivity.
Qed.

(** *** The number with the thousand-multiplier suffix *)

Variable kc : char.
Hypothesis Hkc : kc ∈ k_letters.

Lemma k_letter_cases : kc = 1082 \/ kc = 1050 \/ kc = 107 \/ kc = 75.
Proof.
  revert Hkc. unfold k_letters. eval_py.
  rewrite !elem_of_cons, elem_of_nil. tauto.
Qed.

Lemma k_pattern_suffix :
  re_search k_pattern (token n ++ [kc]) = Some [(2%nat, []); (1%nat, token n)].
Proof.
  unfold k_pattern. rewrite search_anchored, mtch_seq, mtch_group.
  apply number_match; auto.
  - intros x rest' [= <- _].
    destruct k_letter_cases as [-> | [-> | [-> | ->]]]; split; done.
  - intros p. rewrite take_prefix.
    destruct k_letter_cases as [-> | [-> | [-> | ->]]]; reflexivity.
Qed.

Lemma strip_suffixed : strip (token n ++ [kc]) = token n ++ [kc].
Proof.
  destruct (token_head n Hwf) as (c & s & E & Hc). rewrite E. cbn [app].
  apply (strip_id c _ kc); auto.
  - now rewrite app_comm_cons, last_snoc.
  - destruct k_letter_cases as [-> | [-> | [-> | ->]]]; reflexivity.
Qed.

Lemma parse_amount_suffixed :
  parse_amount (token n ++ [kc]) =
  let amount := fmul (value n) (of_Z 1000) in
  if fleb amount (of_Z 0) then None else Some (amount, []).
Proof.
  unfold parse_amount. rewrite strip_suffixed.
  destruct (token_head n Hwf) as (c & s & E & Hc).
  assert (truthy (token n ++ [kc]) = true) as -> by now rewrite E.
  cbn [negb orb]. unfold k_branch. rewrite k_pattern_suffix.
  cbn [group Nat.eqb default from_option id].
  rewrite (py_float_token n Hwf). cbn zeta.
  now destruct (fleb _ _).
Qed.

End OnTokens.

Section Described.

Variable n : number.
Hypothesis Hwf : well_formed n = true.
Variables d ws : str.
Hypothesis Hd : plain_description d = true.
Hypothesis Hws : blanks ws = true.

Lemma plain_description_inv :
  exists c d' z,
    d = c :: d' /\ last d = Some z /\ is_space c = false /\ is_space z = false /\
    Forall (fun x => x <> 10 /\ is_digit x = false /\ x <> 45) d.
Proof.
  clear Hws Hwf. revert Hd. unfold plain_description.
  destruct d as [|c d']; [done|].
  destruct (last (c :: d')) as [z|]; [|done].
  intros [[Hc Hz]%andb_true_iff Hall]%andb_true_iff.
  exists c, d', z. repeat split; try (now apply negb_true_iff).
  apply forallb_Forall in Hall.
  eapply Forall_impl; [exact Hall|]. intros x. cbn beta.
  rewrite !andb_true_iff, !negb_true_iff. intros [[H1 H2] H3].
  repeat split; [lia|done|lia].
Qed.

Lemma blanks_inv :
  exists w ws', ws = w :: ws' /\ Forall (fun x => is_space x = true) (w :: ws').
Proof.
  unfold blanks in Hws. apply andb_true_iff in Hws as [Ht Hall].
  destruct ws as [|w ws']; [done|]. exists w, ws'. split; [done|].
  now apply forallb_Forall.
Qed.

Let text : str := d ++ ws ++ token n.

Lemma strip_described : strip text = text.
Proof.
  destruct plain_description_inv as (c & d' & z & E & _ & Hc & _).
  destruct (token_last n Hwf) as (y & Hl & Hy%is_digit_range).
  unfold text. rewrite E. cbn [app]. apply (strip_id c _ y); auto.
  - now rewrite app_comm_cons, !last_app, Hl.
  - unfold is_space. lia.
Qed.

Lemma truthy_described : truthy text = true.
Proof.
  destruct plain_description_inv as (c & d' & z & E & _). unfold text. now rewrite E.
Qed.

Lemma k_pattern_described : re_search k_pattern text = None.
Proof.
  destruct plain_description_inv as (c & d' & z & E & _ & _ & _ & Hall).
  rewrite E in Hall. apply Forall_cons in Hall as [(_ & H1 & H2) _].
  unfold k_pattern, text. rewrite search_anchored, mtch_seq, mtch_group, E.
  now apply number_fails.
Qed.

(** What follows the first group of the first pattern. *)
Let TAIL : regex :=
  RSeq (RPlus CSpace)
    (RSeq (RGroup 2 NUMBER)
      (RSeq (RStar CSpace) (RSeq (ROpt (RGroup 3 CURRENCY_B)) REol))).

Lemma tail_match p g :
  mtch TAIL p (ws ++ token n) g accept = Some ((2%nat, token n) :: g).
Proof.
  destruct blanks_inv as (w & ws' & E & Hall).
  destruct (token_head n Hwf) as (c & s & Et & Hc).
  unfold TAIL. rewrite mtch_seq, E. apply plus_run; auto.
  - intros x rest' Ex. rewrite Et in Ex. injection Ex as <- _. exact Hc.
  - intros q. rewrite mtch_seq, mtch_group.
    rewrite <- (app_nil_r (token n)) at 1.
    apply number_match; auto using no_number_ahead_nil.
    intros r. cbn [length]. rewrite Nat.sub_0_r, firstn_all. reflexivity.
Qed.

(** Inside the description the tail cannot start. *)
Lemma tail_inside d1 d2 p g :
  d = d1 ++ d2 -> d2 <> [] -> mtch TAIL p (d2 ++ ws ++ token n) g accept = None.
Proof.
  intros E Hne.
  destruct plain_description_inv as (c & d' & z & _ & Hl & _ & Hz & Hall).
  rewrite E in Hall, Hl. apply Forall_app in Hall as [_ Hall].
  assert (Hl2 : last d2 = Some z).
  { rewrite last_app in Hl. destruct (last d2) eqn:El; [done|].
    now apply last_None in El. }
  assert (HK : forall q (x : char) (s : str) g',
             x ∈ d2 ->
             mtch (RSeq (RGroup 2 NUMBER)
                    (RSeq (RStar CSpace) (RSeq (ROpt (RGroup 3 CURRENCY_B)) REol)))
                  q (x :: s) g' accept = None).
  { intros q x s g' Hx. rewrite Forall_forall in Hall.
    destruct (Hall x Hx) as (_ & H1 & H2).
    rewrite mtch_seq, mtch_group. now apply number_fails. }
  unfold TAIL. rewrite mtch_seq.
  destruct d2 as [|x d2]; [done|]. cbn [app]. rewrite mtch_plus_cons.
  destruct (cclass_match CSpace x) eqn:Ex; [|done].
  destruct d2 as [|y d2].
  - injection Hl2 as ->. cbn in Ex. congruence.
  - apply (star_blocked CSpace _ _ (y :: d2) z); auto.
    intros. apply HK. apply elem_of_cons. now right.
Qed.

Lemma pattern_1_described :
  re_search pattern_1 text = Some [(2%nat, token n); (1%nat, d)].
Proof.
  destruct plain_description_inv as (c & d' & z & E & _ & _ & _ & Hall).
  unfold pattern_1. rewrite search_anchored, mtch_seq, mtch_group.
  fold TAIL. unfold text. rewrite E in Hall |- *.
  apply lazy_plus_run.
  - eapply Forall_impl; [exact Hall|]. intros x (H & _). cbn. lia.
  - intros d1 d2 p E' H1 H2. apply (tail_inside d1 d2); auto. congruence.
  - intros p. rewrite take_prefix. apply tail_match.
Qed.

Lemma strip_description : strip d = d.
Proof.
  destruct plain_description_inv as (c & d' & z & E & Hl & Hc & Hz & _).
  rewrite E in Hl |- *. now apply (strip_id c d' z).
Qed.

Lemma parse_amount_described :
  parse_amount (d ++ ws ++ token n) =
  if feqb (value n) (of_Z 0) then None else Some (value n, d).
Proof.
  fold text. unfold parse_amount. rewrite strip_described, truthy_described.
  cbn [negb orb]. unfold k_branch. rewrite k_pattern_described.
  unfold patterns, try_patterns, try_pattern. cbn [fst snd].
  rewrite pattern_1_described.
  cbn [groups seq map group Nat.eqb length grp lookup list_lookup default from_option id].
  rewrite (amount_of_token n Hwf), strip_description. reflexivity.
Qed.

End Described.

(* ================================================================== *)
(** * The specification, statement by statement *)
(* ================================================================== *)

(** ** [validate_amount] *)

Section Validation.

Lemma parse_amount_not_blank text r :
  parse_amount text = Some r ->
  negb (truthy text) || negb (truthy (strip text)) = false.
Proof. unfold parse_amount. now destruct (_ || _). Qed.

Lemma above_limit_positive amount :
  fgtb amount (of_Z 1000000000) = true -> fleb amount (of_Z 0) = false.
Proof.
  intros H. destruct (fleb amount (of_Z 0)) eqn:E; [|done].
  pose proof (fltb_fleb_trans _ _ _ H E) as F. vm_compute in F. discriminate.
Qed.

(** C7.  For an amount string that [parse_amount] reads as [amount]:
    [validate_amount] fails when [amount <= 0] and when
    [amount > 1000000000], and it succeeds and returns [amount] when
    [0 < amount < 1000000000]. *)
Theorem validate_amount_bounds (amount_str : str) (amount : float) (description : str) :
  parse_amount amount_str = Some (amount, description) ->
  (fleb amount (of_Z 0) = true ->
   validate_amount amount_str = (false, None, msg_must_be_positive))
  /\ (fgtb amount (of_Z 1000000000) = true ->
      validate_amount amount_str = (false, None, msg_too_large))
  /\ (fltb (of_Z 0) amount = true -> fltb amount (of_Z 1000000000) = true ->
      validate_amount amount_str = (true, Some amount, msg_ok)).
Proof.
  intros Hp. unfold validate_amount.
  rewrite (parse_amount_not_blank _ _ Hp), Hp.
  split; [|split].
  - now intros ->.
  - intros H. now rewrite (above_limit_positive _ H), H.
  - intros H0 H1. rewrite (fltb_not_fleb _ _ H0).
    unfold fgtb. fold (fltb (of_Z 1000000000) amount).
    now rewrite (fleb_not_fltb _ _ (fltb_fleb _ _ H1)).
Qed.

Lemma validate_amount_bounds_witness :
  parse_amount (py "500") = Some (of_Z 500, [])
  /\ validate_amount (py "500") = (true, Some (of_Z 500), msg_ok).
Proof.
  split; [vm_compute; reflexivity|].
  apply (validate_amount_bounds (py "500") (of_Z 500) []); vm_compute; reflexivity.
Defined.

(** The limit itself is accepted: the test is [amount > 1000000000]. *)
Example validate_amount_at_limit :
  validate_amount (py "1000000000") = (true, Some (of_Z 1000000000), msg_ok).
Proof. vm_compute. reflexivity. Qed.

End Validation.

(** ** The classifier *)

Section ArgMax.
Import Classifier.

Lemma argmax_from_spec (ip : list float) :
  forall (pre : list float) (mp : float) (max_ind : nat),
  Forall (fun y => is_nan y = false) (pre ++ ip) ->
  is_max_at pre max_ind mp ->
  exists v, is_max_at (pre ++ ip) (argmax_from mp max_ind (length pre) ip) v.
Proof.
  induction ip as [|x ip IH]; intros pre mp max_ind Hnan (Hat & Hle & Hlt).
  - exists mp. rewrite app_nil_r. now repeat split.
  - assert (Hx : is_nan x = false).
    { apply Forall_app in Hnan as [_ [? _]%Forall_cons]. done. }
    assert (Hmp : is_nan mp = false).
    { apply Forall_app in Hnan as [Hpre _]. rewrite Forall_forall in Hpre.
      apply Hpre. eapply list_elem_of_lookup_2, Hat. }
    cbn [argmax_from]. rewrite Hx.
    replace (pre ++ x :: ip) with ((pre ++ [x]) ++ ip) in * by now rewrite <- app_assoc.
    replace (S (length pre)) with (length (pre ++ [x])) by (rewrite length_app; simpl; lia).
    destruct (fleb x mp) eqn:E; cbn [negb].
    + apply IH; [done|]. repeat split.
      * now apply lookup_app_l_Some.
      * apply Forall_app. split; [done|]. now constructor.
      * intros i y Hi Hy. apply (Hlt i y Hi).
        rewrite lookup_app_l in Hy; [done|]. apply lookup_lt_Some in Hat. lia.
    + apply fleb_total in E; [|done|done].
      apply (IH (pre ++ [x]) x (length pre)); [done|]. repeat split.
      * now rewrite lookup_app_r, Nat.sub_diag by lia.
      * apply Forall_app. split.
        -- eapply Forall_impl; [exact Hle|]. intros y Hy. cbn beta.
           apply fltb_fleb. exact (fleb_fltb_trans y mp x Hy E).
        -- constructor; [|done]. now apply fleb_refl.
      * intros i y Hi Hy. rewrite lookup_app_l in Hy by done.
        eapply fleb_fltb_trans; [|exact E].
        rewrite Forall_forall in Hle. apply Hle. eapply list_elem_of_lookup_2, Hy.
Qed.

Lemma np_argmax_spec (proba : list float) (i : nat) :
  Forall (fun y => is_nan y = false) proba ->
  np_argmax proba = Some i -> exists v, is_max_at proba i v.
Proof.
  destruct proba as [|x ip]; [done|]. intros Hnan [= <-].
  pose proof Hnan as [Hx _]%Forall_cons. rewrite Hx.
  apply (argmax_from_spec ip [x] x 0%nat); [done|]. repeat split.
  - constructor; [|done]. now apply fleb_refl.
  - intros i y Hi. lia.
Qed.

Lemma np_argmax_Some (proba : list float) :
  proba <> [] -> is_Some (np_argmax proba).
Proof. destruct proba; [done|]. eauto. Qed.

End ArgMax.

Section Threshold.
Import Config Classifier.

(** C8.  For a trained classifier and every text, [predict_with_threshold]
    returns [(category, confidence, True)] when the predicted confidence is
    at least the threshold and [(None, confidence, False)] otherwise, where
    [(category, confidence)] is the result of [predict]; and when the
    pipeline yields a distribution for the text, these are the class and the
    probability at the arg-max of the distribution. *)
Theorem predict_with_threshold_spec (clf : FinancialClassifier)
    (predict_proba : str -> option (list float)) (text : str) (threshold : float) :
  is_trained clf = true -> pipeline clf = Some predict_proba ->
  exists category confidence,
    predict clf text = Some (category, confidence)
    /\ predict_with_threshold clf text threshold =
       Some (if fgeb confidence threshold
             then (category, confidence, true)
             else (None, confidence, false))
    /\ forall proba,
         text <> [] -> predict_proba text = Some proba -> proba <> [] ->
         length (classes_ clf) = length proba ->
         Forall (fun y => is_nan y = false) proba ->
         exists i c,
           category = Some c /\ classes_ clf !! i = Some c
           /\ np_argmax proba = Some i /\ is_max_at proba i confidence.
Proof.
  intros Ht Hp.
  assert (Hthr : forall category confidence,
            predict clf text = Some (category, confidence) ->
            predict_with_threshold clf text threshold =
            Some (if fgeb confidence threshold
                  then (category, confidence, true)
                  else (None, confidence, false))).
  { intros category confidence E. unfold predict_with_threshold. rewrite E.
    cbn. now destruct (fgeb confidence threshold). }
  destruct (predict clf text) as [[category confidence]|] eqn:E.
  2: { unfold predict in E. rewrite Ht, Hp in E. now destruct (negb _). }
  exists category, confidence. split; [done|]. split; [now apply Hthr|].
  intros proba Htext Hproba Hne Hlen Hnan.
  unfold predict in E. rewrite Ht, Hp in E.
  destruct text as [|c text']; [done|]. cbn [truthy negb] in E.
  rewrite Hproba in E. cbn [mbind option_bind] in E.
  destruct (np_argmax_Some proba Hne) as [i Hi]. rewrite Hi in E.
  cbn [mbind option_bind] in E.
  destruct (np_argmax_spec proba i Hnan Hi) as (v & Hmax).
  pose proof Hmax as (Hv & _). rewrite Hv in E. cbn [mbind option_bind] in E.
  destruct (classes_ clf !! i) as [c0|] eqn:Ec.
  - cbn in E. injection E as <- <-. exists i, c0. auto.
  - exfalso. apply lookup_ge_None in Ec. apply lookup_lt_Some in Hv. lia.
Qed.

Lemma predict_with_threshold_spec_witness :
  exists category confidence,
    predict example_classifier (py "кофе") = Some (category, confidence)
    /\ predict_with_threshold example_classifier (py "кофе") CONFIDENCE_THRESHOLD =
       Some (if fgeb confidence CONFIDENCE_THRESHOLD
             then (category, confidence, true)
             else (None, confidence, false))
    /\ forall proba,
         py "кофе" <> [] -> Some [of_decimal 8 2; of_decimal 92 2] = Some proba ->
         proba <> [] ->
         length (classes_ example_classifier) = length proba ->
         Forall (fun y => is_nan y = false) proba ->
         exists i c,
           category = Some c /\ classes_ example_classifier !! i = Some c
           /\ np_argmax proba = Some i /\ is_max_at proba i confidence.
Proof.
  apply (predict_with_threshold_spec example_classifier
           (fun _ => Some [of_decimal 8 2; of_decimal 92 2])
           (py "кофе") CONFIDENCE_THRESHOLD); reflexivity.
Defined.

Example predict_with_threshold_confident :
  predict_with_threshold example_classifier (py "кофе") CONFIDENCE_THRESHOLD
  = Some (Some (py "Кафе"), of_decimal 92 2, true).
Proof. vm_compute. reflexivity. Qed.

Example predict_with_threshold_unsure :
  predict_with_threshold example_classifier (py "кофе") (of_decimal 95 2)
  = Some (None, of_decimal 92 2, false).
Proof. vm_compute. reflexivity. Qed.

End Threshold.

(** ** The budget recommendations *)

Section Recommendations.
Import Config Budget.

Lemma deviation_above x : fgtb x (of_Z 10) = true -> fltb x (of_Z (-10)) = false.
Proof.
  intros H. destruct (fltb x (of_Z (-10))) eqn:E; [|done].
  pose proof (fltb_trans _ _ _ H E) as F. vm_compute in F. discriminate.
Qed.

(** C9.  With a positive total, the first three recommendations are those
    of the groups "essentials", "wants", "savings" in this order.  For each
    group the actual percentage is the sum of the expenses of its categories
    divided by the total, times 100; the ideal percentage is the ratio of
    the group (0.5, 0.3, 0.2) times 100; and the deviation is the actual
    percentage minus the ideal one.  A deviation above 10 gives "over
    target", one below -10 "under target", and every deviation from -10 to
    10, the two ends included, "on target", each with these numbers; 10
    and -10 are literals of the function, which takes the statistics only. *)
Theorem budget_deviation_bands (st : stats) :
  fgtb (total_amount st) (of_Z 0) = true ->
  exists r_essentials r_wants r_savings general,
    generate_budget_recommendations st =
      r_essentials :: r_wants :: r_savings :: general
    /\ forall (g : budget_group) (categories : list str) (ratio : float)
              (r : recommendation),
         (g, categories, ratio, r) ∈
           [(essentials,
             [py "Продукты"; py "Транспорт"; py "Здоровье"; py "Образование"],
             of_decimal 5 1, r_essentials);
            (wants, [py "Еда"; py "Кафе"; py "Развлечения"],
             of_decimal 3 1, r_wants);
            (savings, [py "Другое"], of_decimal 2 1, r_savings)] ->
         let spent :=
           foldl (fun acc c =>
                    fadd acc (default (of_Z 0)
                                (category_expenses (by_category st) !! Some c)))
                 (of_Z 0) categories in
         let actual := fmul (fdiv spent (total_amount st)) (of_Z 100) in
         let ideal := fmul ratio (of_Z 100) in
         let d := fsub actual ideal in
         (fgtb d (of_Z 10) = true -> r = OverTarget g actual ideal d)
         /\ (fltb d (of_Z (-10)) = true -> r = UnderTarget g actual ideal d)
         /\ (fleb (of_Z (-10)) d = true -> fleb d (of_Z 10) = true ->
             r = OnTarget g actual ideal).
Proof.
  intros Htotal. unfold generate_budget_recommendations.
  rewrite (fltb_not_fleb _ _ Htotal). cbv zeta.
  unfold BUDGET_RATIOS. cbn [map fst snd app].
  eexists _, _, _, _. split; [reflexivity|].
  intros g categories ratio r Hin.
  assert (Hr : r = group_recommendation g
                     (fmul (fdiv
                        (foldl (fun acc c =>
                                  fadd acc (default (of_Z 0)
                                    (category_expenses (by_category st) !! Some c)))
                               (of_Z 0) categories)
                        (total_amount st)) (of_Z 100))
                     ratio).
  { rewrite !elem_of_cons, elem_of_nil in Hin.
    destruct Hin as [E | [E | [E | []]]];
      apply pair_equal_spec in E as [E ->];
      apply pair_equal_spec in E as [E ->];
      apply pair_equal_spec in E as [-> ->];
      unfold group_percentage; cbv zeta; rewrite Htotal; reflexivity. }
  rewrite Hr. clear Hr Hin. unfold group_recommendation, deviation. cbv zeta.
  set (actual := fmul _ (of_Z 100)).
  set (d := fsub actual (fmul ratio (of_Z 100))).
  split; [|split].
  - now intros ->.
  - intros H. rewrite H.
    destruct (fgtb d (of_Z 10)) eqn:E; [|done].
    apply deviation_above in E. congruence.
  - intros H1 H2. unfold fgtb.
    fold (fltb (of_Z 10) d). now rewrite (fleb_not_fltb _ _ H2), (fleb_not_fltb _ _ H1).
Qed.

Lemma budget_deviation_bands_witness :
  (exists general,
     generate_budget_recommendations example_stats =
     UnderTarget essentials (of_Z 30) (of_Z 50) (of_Z (-20))
     :: OverTarget wants (of_Z 70) (of_Z 30) (of_Z 40)
     :: UnderTarget savings (of_Z 0) (of_Z 20) (of_Z (-20))
     :: general)
  /\ (exists general,
        generate_budget_recommendations edge_stats =
        OnTarget essentials (of_Z 40) (of_Z 50)
        :: OnTarget wants (of_Z 40) (of_Z 30)
        :: OnTarget savings (of_Z 20) (of_Z 20)
        :: general).
Proof.
  split.
  - destruct (budget_deviation_bands example_stats)
      as (r_e & r_w & r_s & general & E & H); [reflexivity|].
    exists general. rewrite E.
    destruct (H essentials _ _ r_e ltac:(apply elem_of_cons; now left))
      as (_ & He & _).
    destruct (H wants _ _ r_w
                ltac:(apply elem_of_cons; right; apply elem_of_cons; now left))
      as (Hw & _ & _).
    destruct (H savings _ _ r_s
                ltac:(apply elem_of_cons; right; apply elem_of_cons; right;
                      apply elem_of_cons; now left)) as (_ & Hs & _).
    rewrite (He ltac:(vm_compute; reflexivity)),
      (Hw ltac:(vm_compute; reflexivity)), (Hs ltac:(vm_compute; reflexivity)).
    vm_compute. reflexivity.
  - destruct (budget_deviation_bands edge_stats)
      as (r_e & r_w & r_s & general & E & H); [reflexivity|].
    exists general. rewrite E.
    destruct (H essentials _ _ r_e ltac:(apply elem_of_cons; now left))
      as (_ & _ & He).
    destruct (H wants _ _ r_w
                ltac:(apply elem_of_cons; right; apply elem_of_cons; now left))
      as (_ & _ & Hw).
    destruct (H savings _ _ r_s
                ltac:(apply elem_of_cons; right; apply elem_of_cons; right;
                      apply elem_of_cons; now left)) as (_ & _ & Hs).
    rewrite (He ltac:(vm_compute; reflexivity) ltac:(vm_compute; reflexivity)),
      (Hw ltac:(vm_compute; reflexivity) ltac:(vm_compute; reflexivity)),
      (Hs ltac:(vm_compute; reflexivity) ltac:(vm_compute; reflexivity)).
    vm_compute. reflexivity.
Defined.

(** 30% essentials against 50, 70% wants against 30, nothing saved against
    20. *)
Example recommendations_example :
  generate_budget_recommendations example_stats =
  [UnderTarget essentials (of_Z 30) (of_Z 50) (of_Z (-20));
   OverTarget wants (of_Z 70) (of_Z 30) (of_Z 40);
   UnderTarget savings (of_Z 0) (of_Z 20) (of_Z (-20));
   ReduceEssentials].
Proof. vm_compute. reflexivity. Qed.

(** On the edges of the band the recommendation is still "on target". *)
Example band_edges :
  group_recommendation wants (of_Z 40) (of_decimal 3 1)
  = OnTarget wants (of_Z 40) (of_Z 30)
  /\ group_recommendation wants (of_Z 20) (of_decimal 3 1)
     = OnTarget wants (of_Z 20) (of_Z 30).
Proof. split; vm_compute; reflexivity. Qed.

End Recommendations.

(** ** [get_period_statistics] *)

Section RowCount.
Import Database.

(** C10.  Whatever the database holds, for every user, period and clock,
    the dictionary that [get_period_statistics] returns has no most
    expensive transaction and no most frequent category: both guards read
    [cursor.rowcount] after a SELECT, where it is [-1]. *)
Theorem period_statistics_rowcount_guard
    (select : query -> Z -> Z -> Z -> option (list row))
    (month_start year_start : Z -> Z) (now user_id : Z) (period : str) :
  let stats := get_period_statistics select month_start year_start now user_id period in
  get_most_expensive stats = None /\ get_most_frequent stats = None.
Proof.
  cbn zeta. unfold get_period_statistics.
  destruct (select q_overall _ _ _) as [r1|]; [|done].
  destruct (select q_by_category _ _ _) as [r2|]; [|now destruct r1].
  destruct (select q_most_expensive _ _ _) as [r3|]; [|now destruct r1].
  destruct (select q_most_frequent _ _ _) as [r4|]; now destruct r1.
Qed.

Example period_statistics_with_rows :
  get_period_statistics one_row_select (fun t => t) (fun t => t) 0 7 (py "month")
  = statistics_of
      {| period := py "month"; start_date := 0; end_date := 0;
         overall := [("amount"%string, SqlReal (of_Z 300))];
         by_category := [[("amount"%string, SqlReal (of_Z 300))]];
         most_expensive := None; most_frequent := None;
         days_in_period := 1 |}.
Proof. vm_compute. reflexivity. Qed.

End RowCount.

(** ** The router *)

Section Routing.
Import Config Classifier Database Bot.







(** Confidence 0.92: the transaction is stored with the category "Кафе"
    (id 4) and the conversation is over. *)
Example auto_commit_example :
  converse conv_handler 7
    [(example_env, Command "add"); (example_env, Message (py "кофе в старбакс 300"))]
    None initial_world
  = (None,
     {| user_data := ∅;
        database :=
          {| categories := categories init_db;
             transactions :=
               [{| t_id := 1; t_user_id := 7; t_amount := of_Z 300;
                   t_description := Some (py "кофе в старбакс");
                   t_category_id := Some 4; t_date := 0 |}];
             last_id := 1 |};
        sent :=
          [AddedAutomatically 1 (of_decimal 92 2) (of_Z 300) (Some (py "Кафе"))
             (py "кофе в старбакс");
           AddPrompt] |}).
Proof. vm_compute. reflexivity. Qed.

(** Confidence 0.82 asks for a confirmation of "Кафе", confidence 0.6
    for a manual choice; neither stores anything. *)
Example confirmation_example :
  let fair :=
    converse conv_handler 7
      [(fair_env, Command "add"); (fair_env, Message (py "кофе 300"))]
      None initial_world in
  let unsure :=
    converse conv_handler 7
      [(unsure_env, Command "add"); (unsure_env, Message (py "кофе 300"))]
      None initial_world in
  fst fair = Some CONFIRM_CATEGORY
  /\ transactions (database (snd fair)) = []
  /\ head (sent (snd fair)) =
     Some (CheckData (py "кофе") (of_Z 300) (Some (py "Кафе")) (of_decimal 82 2)
             [[(py "✅ Да, все верно", confirm_yes)];
              [(py "❌ Нет, изменить категорию", change_category)]])
  /\ fst unsure = Some CONFIRM_CATEGORY
  /\ transactions (database (snd unsure)) = []
  /\ head (sent (snd unsure)) =
     Some (ChooseManually (of_decimal 6 1) (py "кофе") (of_Z 300)
             (category_keyboard select_cat cancel_add_data
                (get_all_categories init_db))).
Proof. vm_compute. repeat split; reflexivity. Qed.

(** *** Negative amounts *)

(** C2 fails on the text-add flow: [add_transaction_text] stores what
    [parse_amount] returns and never calls [validate_amount].  The input
    "-200" reaches the database through the manual choice of a category,
    and "кофе -200" through the automatic commit; [validate_amount], which
    the fast-add flow calls, rejects the same text. *)
Theorem text_add_commits_negative_amount :
  let manual :=
    converse conv_handler 7
      [(manual_env, Command "add"); (manual_env, Message (py "-200"));
       (manual_env, CallbackQuery (select_cat 1));
       (manual_env, CallbackQuery confirm_yes)] None initial_world in
  let automatic :=
    converse conv_handler 7
      [(example_env, Command "add"); (example_env, Message (py "кофе -200"))]
      None initial_world in
  map t_amount (transactions (database (snd manual))) = [fneg (of_Z 200)]
  /\ map t_amount (transactions (database (snd automatic))) = [fneg (of_Z 200)]
  /\ fleb (fneg (of_Z 200)) (of_Z 0) = true
  /\ validate_amount (py "-200") = (false, None, msg_must_be_positive).
Proof. vm_compute. repeat split; reflexivity. Qed.

(** The fast-add flow validates: what it stores is neither [<= 0] nor
    [> 1000000000]. *)
Lemma fast_add_stores_valid_amount (e : env) (user_id : Z) (user_text : str)
    (w w' : world) (s : state) (t : transaction) :
  fast_amount_input e user_id user_text w = (Next s, w') ->
  t ∈ transactions (database w') -> t ∉ transactions (database w) ->
  fleb (t_amount t) (of_Z 0) = false
  /\ fgtb (t_amount t) (of_Z 1000000000) = false.
Proof.
  unfold fast_amount_input, validate_amount.
  destruct (_ || _).
  { intros [= <- <-]. cbn. done. }
  destruct (parse_amount user_text) as [[amount description]|].
  2: { intros [= <- <-]. cbn. done. }
  destruct (fleb amount (of_Z 0)) eqn:Hpos.
  { intros [= <- <-]. cbn. done. }
  destruct (fgtb amount (of_Z 1000000000)) eqn:Hmax.
  { intros [= <- <-]. cbn. done. }
  destruct (user_data w !! "fast_category_id"%string) as [[| |c| |]|];
    try (intros [= <- <-]; cbn; done).
  destruct (val_truthy _).
  2: { intros [= <- <-]. cbn. done. }
  unfold insert_transaction. destruct (storage_ok e).
  2: { intros [= <- <-]. cbn. done. }
  intros [= <- <-]. cbn. intros [->|Hin]%elem_of_cons Hnot; [|done].
  cbn. auto.
Qed.

(** The same updates through the application of [main], where the two
    conversations come after the plain command handlers. *)
Example application_negative_amount :
  (fun r => map t_amount (transactions (database r.2))) <$>
    serve 7
      [(manual_env, Command "add"); (manual_env, Message (py "-200"));
       (manual_env, CallbackQuery (select_cat 1));
       (manual_env, CallbackQuery confirm_yes)] no_conversation initial_world
  = Some [fneg (of_Z 200)].
Proof. vm_compute. reflexivity. Qed.

End Routing.

(** *** The pending state at the end of a conversation *)

Section PendingState.
Import Config Classifier Database Bot.

(** C3 fails on the cancel button of the fast-add flow:
    [fast_category_callback] ends the conversation on "fast_cancel" without
    [context.user_data.clear()].  A user who picks a category, enters
    "/fast" again and presses the cancel button is left with the category
    of the first round in the pending state. *)
Theorem fast_cancel_keeps_pending_state :
  let run :=
    converse fast_conv_handler 7
      [(manual_env, Command "fast"); (manual_env, CallbackQuery (fast_cat 1));
       (manual_env, Command "fast"); (manual_env, CallbackQuery fast_cancel)]
      None initial_world in
  fst run = None
  /\ head (sent (snd run)) = Some FastCancelled
  /\ user_data (snd run) !! "fast_category_id"%string = Some (VInt 1)
  /\ user_data (snd run) !! "fast_category_name"%string = Some (VStr (py "Еда"))
  /\ user_data (snd run) <> ∅.
Proof.
  cbv zeta. repeat split; try (vm_compute; reflexivity).
  intros H.
  assert (E : user_data
                (snd
                   (converse fast_conv_handler 7
                      [(manual_env, Command "fast");
                       (manual_env, CallbackQuery (fast_cat 1));
                       (manual_env, Command "fast");
                       (manual_env, CallbackQuery fast_cancel)] None initial_world))
              !! "fast_category_id"%string = Some (VInt 1))
    by (vm_compute; reflexivity).
  rewrite H in E. discriminate.
Qed.

(** The button leaves the dictionary as it finds it, whatever it holds. *)
Lemma fast_cancel_does_not_clear (w : world) :
  fast_category_callback fast_cancel w = (Next END, reply FastCancelled w)
  /\ user_data (reply FastCancelled w) = user_data w.
Proof. split; reflexivity. Qed.

(** The other handlers that end a conversation with a commit or a cancel
    do clear it: the automatic commit, the confirmed commit (stored or
    not), the cancel button of the text-add flow, the commit of the
    fast-add flow, and the two fallbacks [cancel_add] and
    [cancel_fast_add]. *)
Lemma add_transaction_text_end (e : env) (user_id : Z) (user_text : str) (w w' : world) :
  add_transaction_text e user_id user_text w = (Next END, w') -> user_data w' = ∅.
Proof.
  unfold add_transaction_text.
  destruct (parse_amount user_text) as [[amount description]|]; [|done].
  destruct (classify _ _ _) as [[[[[sc conf] cid] high] w1]|]; [|done].
  cbn [mbind option_bind]. destruct high.
  - destruct (insert_transaction _ _ _ _ _ _ _) as [[id|] d]; now intros [= <-].
  - now destruct (val_truthy _).
Qed.

Lemma confirm_yes_clears (e : env) (user_id : Z) (w : world) :
  exists w', confirm_category_callback e user_id confirm_yes w = (Next END, w')
             /\ user_data w' = ∅.
Proof. eexists. split; reflexivity. Qed.

Lemma cancel_clears (w : world) :
  (exists w', cancel_add w = (Next END, w') /\ user_data w' = ∅)
  /\ (exists w', category_selection_callback cancel_add_data w = (Next END, w')
                 /\ user_data w' = ∅)
  /\ (exists w', cancel_fast_add w = (Next END, w') /\ user_data w' = ∅).
Proof. repeat split; eexists; split; reflexivity. Qed.

Lemma fast_amount_input_end (e : env) (user_id : Z) (user_text : str) (w w' : world) :
  fast_amount_input e user_id user_text w = (Next END, w') -> user_data w' = ∅.
Proof.
  unfold fast_amount_input.
  destruct (validate_amount user_text) as [[[] [amount|]] msg]; try done.
  destruct (user_data w !! "fast_category_id"%string) as [[| |c| |]|];
    try (now intros [= <-]).
  destruct (val_truthy _); [|now intros [= <-]].
  destruct (insert_transaction _ _ _ _ _ _ _) as [[id|] d]; now intros [= <-].
Qed.

(** A commit that the database refuses clears the state as well and
    reports the failure. *)
Example failed_commit_example :
  let failing := {| classifier := None; storage_ok := false; now := 0 |} in
  let run :=
    converse conv_handler 7
      [(manual_env, Command "add"); (manual_env, Message (py "кофе 300"));
       (manual_env, CallbackQuery (select_cat 4));
       (failing, CallbackQuery confirm_yes)] None initial_world in
  fst run = None
  /\ user_data (snd run) = ∅
  /\ transactions (database (snd run)) = []
  /\ head (sent (snd run)) = Some SaveError.
Proof. vm_compute. repeat split; reflexivity. Qed.

(** The run of the cancel button through the application of [main]. *)
Example application_fast_cancel :
  (fun r => (r.1, user_data r.2 !! "fast_category_id"%string)) <$>
    serve 7
      [(manual_env, Command "fast"); (manual_env, CallbackQuery (fast_cat 1));
       (manual_env, Command "fast"); (manual_env, CallbackQuery fast_cancel)]
      no_conversation initial_world
  = Some (no_conversation, Some (VInt 1)).
Proof. vm_compute. reflexivity. Qed.

(** In the application the command "/cancel" does not reach the fallbacks
    [cancel_add] and [cancel_fast_add]: the plain handler [cancel] is
    registered before the two conversations and takes it.  The
    conversations stay where they are, and so does the pending state. *)
Lemma cancel_command_plain_handler (e : env) (user_id : Z) (c : conversations)
    (w : world) :
  application e user_id c (Command "cancel") w = Some (c, reply OperationCancelled w)
  /\ user_data (reply OperationCancelled w) = user_data w.
Proof. split; reflexivity. Qed.

Example cancel_command_example :
  (fun r => (r.1, user_data r.2 !! "amount"%string, head (sent r.2))) <$>
    serve 7
      [(manual_env, Command "add"); (manual_env, Message (py "кофе 300"));
       (manual_env, Command "cancel")] no_conversation initial_world
  = Some ({| add_conversation := Some CONFIRM_CATEGORY; fast_conversation := None |},
          Some (VFloat (of_Z 300)), Some OperationCancelled).
Proof. vm_compute. reflexivity. Qed.

End PendingState.

(** ** What a match of the numeric token consumes *)

Section Inversion.

Lemma star_inv c : forall s prev g (k : cont) m,
  star c prev s g k = Some m ->
  exists run rest p,
    s = run ++ rest /\ Forall (fun x => cclass_match c x = true) run
    /\ k p rest g = Some m.
Proof.
  induction s as [|x s IH]; intros prev g k m H; cbn [star] in H.
  - exists [], [], prev. auto.
  - destruct (cclass_match c x) eqn:Ex.
    + destruct (star c (Some x) s g k) as [r|] eqn:E.
      * injection H as ->. apply IH in E as (run & rest & p & -> & Hrun & Hk).
        exists (x :: run), rest, p. auto.
      * exists [], (x :: s), prev. auto.
    + exists [], (x :: s), prev. auto.
Qed.

Lemma lazy_star_inv c : forall s prev g (k : cont) m,
  lazy_star c prev s g k = Some m -> exists rest p, k p rest g = Some m.
Proof.
  induction s as [|x s IH]; intros prev g k m H; cbn [lazy_star] in H.
  - destruct (k prev [] g) eqn:E; [|done]. injection H as ->. eauto.
  - destruct (k prev (x :: s) g) eqn:E.
    + injection H as ->. eauto.
    + destruct (cclass_match c x); [|done]. eauto.
Qed.

Lemma plus_inv c prev s g (k : cont) m :
  mtch (RPlus c) prev s g k = Some m ->
  exists x run rest p,
    s = (x :: run) ++ rest /\ Forall (fun x => cclass_match c x = true) (x :: run)
    /\ k p rest g = Some m.
Proof.
  destruct s as [|x s]; [done|]. rewrite mtch_plus_cons.
  destruct (cclass_match c x) eqn:Ex; [|done].
  intros (run & rest & p & -> & Hrun & Hk)%star_inv.
  exists x, run, rest, p. auto.
Qed.

Lemma digits_of_Forall (x : char) (l : str) :
  Forall (fun c => cclass_match CDigit c = true) (x :: l) -> digits (x :: l) = true.
Proof. intros H. unfold digits. cbn [truthy andb]. now apply forallb_Forall. Qed.

(** Every match of the numeric token consumes a well-formed number. *)
Lemma number_inv prev s g (k : cont) m :
  mtch NUMBER prev s g k = Some m ->
  exists n rest p,
    well_formed n = true /\ s = token n ++ rest /\ k p rest g = Some m.
Proof.
  assert (Hunsigned : forall p s1,
    mtch (RSeq (RPlus CDigit) (ROpt (RSeq (RCls (CSet [46; 44])) (RPlus CDigit))))
         p s1 g k = Some m ->
    exists ip fp rest q,
      well_formed {| negative := false; int_part := ip; frac_part := fp |} = true
      /\ s1 = unsigned {| negative := false; int_part := ip; frac_part := fp |} ++ rest
      /\ k q rest g = Some m).
  { intros p s1. rewrite mtch_seq.
    intros (x & run & rest1 & q & -> & Hint & H)%plus_inv.
    rewrite mtch_opt, mtch_seq in H.
    destruct (mtch (RCls (CSet [46; 44])) q rest1 g _) as [r|] eqn:E.
    - injection H as ->. destruct rest1 as [|sep rest1]; [done|].
      rewrite mtch_cls_cons, separator_match in E.
      destruct (bool_decide (sep ∈ [46; 44])) eqn:Hsep; [|done].
      apply bool_decide_eq_true in Hsep.
      apply plus_inv in E as (y & run2 & rest2 & q2 & -> & Hfrac & H).
      exists (x :: run), (Some (sep, y :: run2)), rest2, q2.
      unfold well_formed, unsigned. cbn [int_part frac_part].
      rewrite !digits_of_Forall by done.
      repeat split; [|now rewrite <- !app_assoc|done].
      rewrite !elem_of_cons, elem_of_nil in Hsep. cbn [andb]. lia.
    - exists (x :: run), None, rest1, q.
      unfold well_formed, unsigned. cbn [int_part frac_part].
      rewrite digits_of_Forall by done. now rewrite app_nil_r. }
  unfold NUMBER, chr. rewrite mtch_seq, mtch_opt.
  match goal with
  | |- context [mtch (RCls ?c) ?p ?s0 ?g0 ?k0] =>
    destruct (mtch (RCls c) p s0 g0 k0) as [r|] eqn:E
  end.
  - intros [= ->]. destruct s as [|x s]; [done|].
    rewrite mtch_cls_cons, minus_match in E.
    destruct (bool_decide (x ∈ [45])) eqn:Hx; [|done].
    apply bool_decide_eq_true in Hx. rewrite elem_of_cons, elem_of_nil in Hx.
    destruct Hx as [->|[]].
    apply Hunsigned in E as (ip & fp & rest & q & Hwf & -> & H).
    exists {| negative := true; int_part := ip; frac_part := fp |}, rest, q.
    auto.
  - intros (ip & fp & rest & q & Hwf & -> & H)%Hunsigned.
    exists {| negative := false; int_part := ip; frac_part := fp |}, rest, q.
    auto.
Qed.

(** A match reaches its continuation with the groups it does not own
    untouched. *)
Lemma mtch_inv i r : forall prev s g (k : cont) m,
  group_free i r = true ->
  mtch r prev s g k = Some m ->
  exists p s' g', k p s' g' = Some m /\ group i g' = group i g.
Proof.
  induction r as [| | | |c|r1 IH1 r2 IH2|r1 IH1 r2 IH2|r IH|c|c|c|j r IH];
    intros prev s g k m Hfree H; cbn [mtch group_free] in *.
  - eauto.
  - destruct prev; [done|]. eauto.
  - repeat case_match; try done; eauto.
  - destruct (xorb _ _); [|done]. eauto.
  - destruct s as [|x s]; [done|]. destruct (cclass_match c x); [|done]. eauto.
  - apply andb_true_iff in Hfree as [H1 H2].
    apply IH1 in H as (p & s' & g' & H & Hg); [|done].
    apply IH2 in H as (p' & s'' & g'' & H & Hg'); [|done].
    exists p', s'', g''. split; [done|]. congruence.
  - apply andb_true_iff in Hfree as [H1 H2].
    destruct (mtch r1 prev s g k) eqn:E.
    + injection H as ->. eauto.
    + eauto.
  - destruct (mtch r prev s g k) eqn:E.
    + injection H as ->. eauto.
    + eauto.
  - apply star_inv in H as (run & rest & p & _ & _ & H). eauto.
  - apply (plus_inv c prev s g k m) in H as (x & run & rest & p & _ & _ & H). eauto.
  - destruct s as [|x s]; [done|]. destruct (cclass_match c x); [|done].
    apply lazy_star_inv in H as (rest & p & H). eauto.
  - apply andb_true_iff in Hfree as [Hj Hfree].
    apply IH in H as (p & s' & g' & H & Hg); [|done].
    eexists _, _, _. split; [exact H|].
    cbn [group]. apply negb_true_iff in Hj. now rewrite Hj.
Qed.

(** When the pattern of the suffix matches, its first group is a
    well-formed number. *)
Lemma k_pattern_inv (s : str) (m : caps) :
  re_search k_pattern s = Some m ->
  exists n, well_formed n = true /\ group 1 m = Some (token n).
Proof.
  unfold k_pattern. rewrite search_anchored, mtch_seq, mtch_group.
  intros (n & rest & p & Hwf & -> & H)%number_inv.
  rewrite take_prefix in H.
  apply (mtch_inv 1) in H as (p' & s' & g' & [= <-] & Hg); [|reflexivity].
  exists n. split; [done|]. rewrite Hg. cbn. reflexivity.
Qed.

End Inversion.

(** ** The statements about [parse_amount] *)

Section Parser.

Lemma Forall_lstrip (P : char -> Prop) s : Forall P s -> Forall P (lstrip s).
Proof.
  induction 1 as [|x s Hx Hs IH]; cbn [lstrip]; [done|].
  destruct (is_space x); auto.
Qed.

Lemma Forall_strip (P : char -> Prop) s : Forall P s -> Forall P (strip s).
Proof.
  intros H. unfold strip, rstrip.
  apply Forall_rev, Forall_lstrip, Forall_rev, Forall_lstrip, H.
Qed.

Lemma parse_amount_blank (text : str) :
  Forall (fun x => is_space x = true) text -> parse_amount text = None.
Proof.
  intros H. unfold parse_amount. rewrite (strip_blank _ H).
  cbn [truthy negb]. now rewrite orb_true_r.
Qed.

Lemma parse_amount_no_digit (text : str) :
  Forall (fun x => is_digit x = false) text -> parse_amount text = None.
Proof.
  intros H%Forall_strip. unfold parse_amount.
  destruct (_ || _); [done|]. unfold k_branch, re_search.
  rewrite (search_needs_none _ _ needs_digit_k_pattern) by done.
  unfold patterns, try_patterns, try_pattern, re_search. cbn [fst snd].
  rewrite (search_needs_none _ _ needs_digit_pattern_1) by done.
  rewrite (search_needs_none _ _ needs_digit_pattern_2) by done.
  now rewrite (search_needs_none _ _ needs_digit_pattern_3) by done.
Qed.

(** When the pattern of the suffix matches, the result is decided on its
    branch; the three other patterns are not consulted. *)
Lemma suffix_short_circuit (text : str) (m : caps) :
  truthy (strip text) = true ->
  re_search k_pattern (strip text) = Some m ->
  exists n,
    well_formed n = true /\ group 1 m = Some (token n)
    /\ parse_amount text =
       let amount := fmul (value n) (of_Z 1000) in
       if fleb amount (of_Z 0) then None
       else Some (amount, strip (default [] (group 2 m))).
Proof.
  intros Ht Hm. destruct (k_pattern_inv _ _ Hm) as (n & Hwf & Hg).
  exists n. split; [done|]. split; [done|].
  unfold parse_amount. rewrite Ht.
  assert (truthy text = true) as ->.
  { destruct text; [done|reflexivity]. }
  cbn [negb orb]. unfold k_branch. rewrite Hm, Hg.
  cbn [default from_option id]. rewrite (py_float_token n Hwf).
  cbv zeta. now destruct (fleb _ _).
Qed.

Lemma negative_value_sign (n : number) :
  negative n = true -> has_sign true (value n).
Proof.
  intros Hn. unfold value. rewrite Hn.
  apply (fneg_sign false), of_decimal_sign.
Qed.

Lemma negative_nonzero_below_zero (x : float) :
  has_sign true x -> feqb x (of_Z 0) = false -> fltb x (of_Z 0) = true.
Proof.
  change (of_Z 0) with (S754_zero false).
  destruct x as [[]|[]| |[] ? ?]; cbn; intros; done.
Qed.

End Parser.

Section ParserStatements.

(** C4 as stated fails: with the suffix a negative number is a parse
    failure, not the negative amount -2000. *)
Lemma negative_suffix_counterexample :
  py "-2к" = token minus_2 ++ py "к"
  /\ well_formed minus_2 = true
  /\ value minus_2 = of_Z (-2)
  /\ parse_amount (py "-2к") = None.
Proof. vm_compute. repeat split; reflexivity. Qed.

Example negative_examples :
  parse_amount (py "-200") = Some (of_Z (-200), [])
  /\ parse_amount (py "кофе -200") = Some (of_Z (-200), py "кофе")
  /\ parse_amount (py "-200к") = None
  /\ validate_amount (py "-200") = (false, None, msg_must_be_positive).
Proof. vm_compute. repeat split; reflexivity. Qed.

(** C5 as stated fails on the numeric strings that are not positive: "-1.5"
    times 1000 is -1500, and the parser fails. *)
Lemma thousand_suffix_counterexample :
  py "-1.5к" = token minus_1_5 ++ py "к"
  /\ well_formed minus_1_5 = true
  /\ fmul (value minus_1_5) (of_Z 1000) = of_Z (-1500)
  /\ parse_amount (py "-1.5к") = None.
Proof. vm_compute. repeat split; reflexivity. Qed.

(** C5, amended.  A numeric token followed at once by the suffix letter (in
    either case, Cyrillic or Latin) parses to its value times 1000 with an
    empty description when the product is greater than zero, and fails
    otherwise.  Whenever the pattern of the suffix matches the stripped
    input, the result is the one of its branch, whatever the other patterns
    would find; on "1.5к" it is 1500.0 with an empty description. *)
Theorem thousand_suffix (n : number) (kc : char) :
  well_formed n = true -> kc ∈ k_letters ->
  parse_amount (token n ++ [kc]) =
    (let amount := fmul (value n) (of_Z 1000) in
     if fleb amount (of_Z 0) then None else Some (amount, []))
  /\ (forall (text : str) (m : caps),
        truthy (strip text) = true ->
        re_search k_pattern (strip text) = Some m ->
        exists n',
          well_formed n' = true /\ group 1 m = Some (token n')
          /\ parse_amount text =
             let amount := fmul (value n') (of_Z 1000) in
             if fleb amount (of_Z 0) then None
             else Some (amount, strip (default [] (group 2 m))))
  /\ parse_amount (py "1.5к") = Some (of_Z 1500, []).
Proof.
  intros Hwf Hkc. split; [now apply parse_amount_suffixed|].
  split; [apply suffix_short_circuit|]. vm_compute. reflexivity.
Qed.

Lemma thousand_suffix_witness :
  parse_amount (token plus_1_5 ++ [1082]) =
    (let amount := fmul (value plus_1_5) (of_Z 1000) in
     if fleb amount (of_Z 0) then None else Some (amount, []))
  /\ (forall (text : str) (m : caps),
        truthy (strip text) = true ->
        re_search k_pattern (strip text) = Some m ->
        exists n',
          well_formed n' = true /\ group 1 m = Some (token n')
          /\ parse_amount text =
             let amount := fmul (value n') (of_Z 1000) in
             if fleb amount (of_Z 0) then None
             else Some (amount, strip (default [] (group 2 m))))
  /\ parse_amount (py "1.5к") = Some (of_Z 1500, []).
Proof.
  apply (thousand_suffix plus_1_5 1082); [vm_compute; reflexivity|].
  unfold k_letters. vm_compute py. apply elem_of_cons. now left.
Defined.

(** The suffix pattern wins over a later number: "5 кофе 300" is 5000 with
    the description "офе 300", although the first pattern would read the
    amount 300. *)
Example suffix_first_example :
  parse_amount (py "5 кофе 300") = Some (of_Z 5000, py "офе 300")
  /\ try_patterns patterns (py "5 кофе 300") = Some (of_Z 300, py "5 кофе")
  /\ parse_amount (py "2K рублей обед") = Some (of_Z 2000, py "обед").
Proof. vm_compute. repeat split; reflexivity. Qed.

(** A currency word after the suffix is skipped only when it ends at a word
    boundary: "руб" before a blank is a currency word, "руб" before a
    letter is the start of the description. *)
Example word_boundary_example :
  parse_amount (py "5к руб обед") = Some (of_Z 5000, py "обед")
  /\ parse_amount (py "5к рубα") = Some (of_Z 5000, py "рубα")
  /\ parse_amount (py "обед 450р") = Some (of_Z 450, py "обед")
  /\ parse_amount (py "обед 450рα") = None.
Proof. vm_compute. repeat split; reflexivity. Qed.

(** The grammar takes a number only at the end of the input, or at its
    start before the suffix: the "450" of "taxi 450 home" is not a numeric
    token of the grammar. *)
Example number_in_the_middle :
  parse_amount (py "taxi 450 home") = None
  /\ parse_amount (py "450") = Some (of_Z 450, [])
  /\ parse_amount (py "taxi 450") = Some (of_Z 450, py "taxi").
Proof. vm_compute. repeat split; reflexivity. Qed.

(** Decimal digits of other scripts count as digits, for the patterns and
    for [float]: the amount below is written with Arabic-Indic digits. *)
Example unicode_digits_example :
  parse_amount (py "кофе ٣٠٠") = Some (of_Z 300, py "кофе").
Proof. vm_compute. reflexivity. Qed.

Example parse_examples :
  parse_amount (py "кофе 300") = Some (of_Z 300, py "кофе")
  /\ parse_amount (py "такси 450 руб") = Some (of_Z 450, py "такси")
  /\ parse_amount (py "5000,50") = Some (of_decimal 500050 2, [])
  /\ parse_amount (py "0") = None
  /\ parse_amount (py "кофе 0,00") = None
  /\ parse_amount [] = None
  /\ parse_amount (py "   ") = None
  /\ parse_amount (py "кофе") = None.
Proof. vm_compute. repeat split; reflexivity. Qed.

End ParserStatements.

(* ================================================================== *)
(** * Further properties of the code *)
(* ================================================================== *)

Import Grammar Advice Ledger Situations.

(** ** [str.strip] *)

Section Strip.

Lemma lstrip_app_blank l s :
  Forall (fun x => is_space x = true) l -> lstrip (l ++ s) = lstrip s.
Proof. induction 1 as [|x l Hx _ IH]; cbn [app lstrip]; [done|]. now rewrite Hx. Qed.

Lemma lstrip_app_nonblank s r :
  Exists (fun x => is_space x = false) s -> lstrip (s ++ r) = lstrip s ++ r.
Proof.
  induction s as [|x s IH]; intros H; [now apply Exists_nil in H|].
  cbn [app lstrip]. destruct (is_space x) eqn:Ex; [|done].
  apply IH. apply Exists_cons in H as [H|H]; [congruence|done].
Qed.

Lemma lstrip_cases s :
  (Forall (fun x => is_space x = true) s /\ lstrip s = [])
  \/ exists l c t, s = l ++ c :: t /\ Forall (fun x => is_space x = true) l
                   /\ is_space c = false /\ lstrip s = c :: t.
Proof.
  induction s as [|x s IH]; [left; auto|].
  cbn [lstrip]. destruct (is_space x) eqn:Ex.
  - destruct IH as [[H E]|(l & c & t & -> & Hl & Hc & E)].
    + left. auto.
    + right. exists (x :: l), c, t. auto.
  - right. exists [], x, s. auto.
Qed.

Lemma rstrip_app_blank s r :
  Forall (fun x => is_space x = true) r -> rstrip (s ++ r) = rstrip s.
Proof.
  intros H. unfold rstrip. rewrite rev_app_distr, lstrip_app_blank; [done|].
  now apply Forall_rev.
Qed.

Lemma rstrip_cons c t : is_space c = false -> rstrip (c :: t) = c :: rstrip t.
Proof.
  intros Hc. unfold rstrip. cbn [rev].
  destruct (lstrip_cases (rev t)) as [[H E]|(l & x & u & E0 & Hl & Hx & E)].
  - rewrite lstrip_app_blank by done. cbn [lstrip]. now rewrite Hc, E.
  - rewrite lstrip_app_nonblank.
    + now rewrite rev_app_distr.
    + rewrite E0. apply Exists_app. right. now constructor.
Qed.

Lemma rstrip_last c t :
  is_space c = false -> exists z, last (rstrip (c :: t)) = Some z /\ is_space z = false.
Proof.
  intros Hc. unfold rstrip. cbn [rev].
  destruct (lstrip_cases (rev t ++ [c])) as [[H E]|(l & x & u & E0 & Hl & Hx & E)].
  - apply Forall_app in H as [_ [H _]%Forall_cons]. congruence.
  - rewrite E. cbn [rev]. rewrite last_snoc. eauto.
Qed.

Lemma strip_cases s :
  (Forall (fun x => is_space x = true) s /\ strip s = [])
  \/ exists c t z, strip s = c :: t /\ last (c :: t) = Some z
                   /\ is_space c = false /\ is_space z = false.
Proof.
  unfold strip.
  destruct (lstrip_cases s) as [[H E]|(l & c & t & -> & Hl & Hc & E)].
  - left. now rewrite E.
  - right. rewrite E. destruct (rstrip_last c t Hc) as (z & Hz & Hs).
    rewrite rstrip_cons in Hz |- * by done.
    exists c, (rstrip t), z. auto.
Qed.

Lemma strip_idemp s : strip (strip s) = strip s.
Proof.
  destruct (strip_cases s) as [[_ ->]|(c & t & z & -> & Hl & Hc & Hz)]; [done|].
  now apply (strip_id c t z).
Qed.

Lemma strip_padded l s r :
  Forall (fun x => is_space x = true) l -> Forall (fun x => is_space x = true) r ->
  strip (l ++ s ++ r) = strip s.
Proof.
  intros Hl Hr. unfold strip. rewrite lstrip_app_blank by done.
  destruct (lstrip_cases s) as [[H E]|(l' & c & t & -> & Hl' & Hc & E)].
  - rewrite E, lstrip_app_blank by done. rewrite (lstrip_blank r Hr). done.
  - rewrite lstrip_app_nonblank.
    + now rewrite rstrip_app_blank.
    + apply Exists_app. right. now constructor.
Qed.

End Strip.

(** ** The matcher: where a match can lie, and when one exists *)

Section Positions.

Lemma lazy_star_inv_pos c : forall s prev g (k : cont) m,
  lazy_star c prev s g k = Some m ->
  exists run rest p,
    s = run ++ rest /\ Forall (fun x => cclass_match c x = true) run
    /\ k p rest g = Some m.
Proof.
  induction s as [|x s IH]; intros prev g k m H; cbn [lazy_star] in H.
  - destruct (k prev [] g) eqn:E; [|done]. injection H as ->.
    exists [], [], prev. auto.
  - destruct (k prev (x :: s) g) eqn:E.
    + injection H as ->. exists [], (x :: s), prev. auto.
    + destruct (cclass_match c x) eqn:Ex; [|done].
      apply IH in H as (run & rest & p & -> & Hrun & Hk).
      exists (x :: run), rest, p. auto.
Qed.

Lemma lazy_plus_inv c prev s g (k : cont) m :
  mtch (RLazyPlus c) prev s g k = Some m ->
  exists x run rest p,
    s = (x :: run) ++ rest /\ Forall (fun x => cclass_match c x = true) (x :: run)
    /\ k p rest g = Some m.
Proof.
  destruct s as [|x s]; [done|]. cbn [mtch].
  destruct (cclass_match c x) eqn:Ex; [|done].
  intros (run & rest & p & -> & Hrun & Hk)%lazy_star_inv_pos.
  exists x, run, rest, p. auto.
Qed.

Lemma eol_inv prev s g (k : cont) m :
  mtch REol prev s g k = Some m -> (s = [] \/ s = [10]) /\ k prev s g = Some m.
Proof.
  cbn [mtch]. destruct s as [|x [|y s]]; [auto| |].
  - destruct x; try done. repeat (destruct p; try done). auto.
  - destruct x; try done. repeat (destruct p; try done).
Qed.

Lemma star_some c prev s g (K : cont) :
  is_Some (K prev s g) -> is_Some (star c prev s g K).
Proof.
  intros H. destruct s as [|x s]; [done|]. cbn [star].
  destruct (cclass_match c x); [|done]. now destruct (star c (Some x) s g K).
Qed.

Lemma star_complete c (rest : str) g (K : cont) :
  (forall p, is_Some (K p rest g)) ->
  forall run prev, Forall (fun x => cclass_match c x = true) run ->
  is_Some (star c prev (run ++ rest) g K).
Proof.
  intros HK. induction run as [|x run IH]; intros prev Hrun.
  - apply star_some, HK.
  - apply Forall_cons in Hrun as [Hx Hrun]. cbn [app star]. rewrite Hx.
    destruct (IH (Some x) Hrun) as [r ->]. eauto.
Qed.

Lemma plus_complete c (x : char) (run rest : str) g (K : cont) prev :
  (forall p, is_Some (K p rest g)) ->
  Forall (fun x => cclass_match c x = true) (x :: run) ->
  is_Some (mtch (RPlus c) prev ((x :: run) ++ rest) g K).
Proof.
  intros HK [Hx Hrun]%Forall_cons. cbn [app]. rewrite mtch_plus_cons, Hx.
  now apply star_complete.
Qed.

Lemma lazy_star_complete c (rest : str) g (K : cont) :
  (forall p, is_Some (K p rest g)) ->
  forall run prev, Forall (fun x => cclass_match c x = true) run ->
  is_Some (lazy_star c prev (run ++ rest) g K).
Proof.
  intros HK. induction run as [|x run IH]; intros prev Hrun.
  - cbn [app]. destruct rest as [|y rest]; cbn [lazy_star];
      destruct (HK prev) as [r ->]; eauto.
  - apply Forall_cons in Hrun as [Hx Hrun]. cbn [app lazy_star]. rewrite Hx.
    destruct (K prev (x :: run ++ rest) g); [eauto|]. now apply IH.
Qed.

Lemma lazy_plus_complete c (x : char) (run rest : str) g (K : cont) prev :
  (forall p, is_Some (K p rest g)) ->
  Forall (fun x => cclass_match c x = true) (x :: run) ->
  is_Some (mtch (RLazyPlus c) prev ((x :: run) ++ rest) g K).
Proof.
  intros HK [Hx Hrun]%Forall_cons. cbn [app mtch]. rewrite Hx.
  now apply lazy_star_complete.
Qed.

End Positions.

(** ** The patterns of [parse_amount], read backwards *)

Section PatternInversion.

Lemma pattern_1_inv (s : str) (m : caps) :
  re_search pattern_1 s = Some m ->
  exists n x run sp sps rest p,
    well_formed n = true
    /\ s = (x :: run) ++ (sp :: sps) ++ token n ++ rest
    /\ Forall (fun c => cclass_match CDot c = true) (x :: run)
    /\ Forall (fun c => is_space c = true) (sp :: sps)
    /\ mtch END_1 p rest [(2%nat, token n); (1%nat, x :: run)] accept = Some m
    /\ group 1 m = Some (x :: run) /\ group 2 m = Some (token n).
Proof.
  unfold pattern_1. rewrite search_anchored, mtch_seq, mtch_group.
  intros (x & run & rest1 & p & -> & Hrun & H)%lazy_plus_inv.
  rewrite take_prefix, mtch_seq in H.
  apply plus_inv in H as (sp & sps & rest2 & q & -> & Hsp & H).
  rewrite mtch_seq, mtch_group in H.
  apply number_inv in H as (n & rest & p' & Hwf & -> & H).
  rewrite take_prefix in H. fold END_1 in H.
  exists n, x, run, sp, sps, rest, p'.
  repeat split; try done.
  - apply (mtch_inv 1) in H as (p1 & s1 & g1 & [= <-] & Hg); [|reflexivity].
    rewrite Hg. reflexivity.
  - apply (mtch_inv 2) in H as (p1 & s1 & g1 & [= <-] & Hg); [|reflexivity].
    rewrite Hg. reflexivity.
Qed.

Lemma pattern_3_inv (s : str) (m : caps) :
  re_search pattern_3 s = Some m ->
  exists n rest, well_formed n = true /\ s = token n ++ rest
                 /\ group 1 m = Some (token n).
Proof.
  unfold pattern_3. rewrite search_anchored, mtch_seq, mtch_group.
  intros (n & rest & p & Hwf & -> & H)%number_inv.
  rewrite take_prefix in H.
  apply (mtch_inv 1) in H as (p' & s' & g' & [= <-] & Hg); [|reflexivity].
  exists n, rest. repeat split; [done|]. rewrite Hg. reflexivity.
Qed.


Lemma pattern_2_inv (s : str) (m : caps) :
  re_search pattern_2 s = Some m ->
  exists n x run sp sps rest,
    well_formed n = true
    /\ s = (x :: run) ++ (sp :: sps) ++ token n ++ rest
    /\ Forall (fun c => cclass_match CDot c = true) (x :: run)
    /\ Forall (fun c => cclass_match CSpace c = true) (sp :: sps)
    /\ (rest = [] \/ rest = [10]).
Proof.
  unfold pattern_2. rewrite search_anchored, mtch_seq, mtch_group.
  intros (x & run & rest1 & p & -> & Hrun & H)%lazy_plus_inv.
  rewrite take_prefix, mtch_seq in H.
  apply plus_inv in H as (sp & sps & rest2 & q & -> & Hsp & H).
  rewrite mtch_seq, mtch_group in H.
  apply number_inv in H as (n & rest & p' & Hwf & -> & H).
  apply eol_inv in H as [Hrest _].
  exists n, x, run, sp, sps, rest. auto.
Qed.

Lemma end_1_at_end (rest : str) p g :
  rest = [] \/ rest = [10] -> mtch END_1 p rest g accept = Some g.
Proof. intros [-> | ->]; reflexivity. Qed.

Lemma no_number_ahead_end (rest : str) :
  rest = [] \/ rest = [10] -> no_number_ahead rest.
Proof. intros [-> | ->] x rest' [= <- _]. vm_compute. repeat split; congruence. Qed.

(** Whenever the second pattern matches, so does the first. *)
Lemma pattern_2_implies_1 (s : str) (m : caps) :
  re_search pattern_2 s = Some m -> is_Some (re_search pattern_1 s).
Proof.
  intros (n & x & run & sp & sps & rest & Hwf & -> & Hrun & Hsp & Hrest)%pattern_2_inv.
  unfold pattern_1. rewrite search_anchored, mtch_seq, mtch_group.
  apply lazy_plus_complete; [|done].
  intros p. rewrite take_prefix, mtch_seq.
  apply plus_complete; [|done].
  intros q. rewrite mtch_seq, mtch_group.
  erewrite number_match; eauto using no_number_ahead_end.
  intros r. rewrite take_prefix. fold END_1. now apply end_1_at_end.
Qed.

End PatternInversion.

(** ** Which pattern decides *)

Section Decisions.

Lemma groups_3 (m : caps) :
  groups 3 m = [group 1 m; group 2 m; group 3 m].
Proof. reflexivity. Qed.

Lemma groups_2 (m : caps) : groups 2 m = [group 1 m; group 2 m].
Proof. reflexivity. Qed.

(** A match of the first pattern always decides the result. *)
Lemma pattern_1_return (s : str) (m : caps) :
  re_search pattern_1 s = Some m ->
  exists n x run sps rest,
    well_formed n = true /\ s = (x :: run) ++ sps ++ token n ++ rest
    /\ try_pattern (pattern_1, 3%nat) s =
       Return (if feqb (value n) (of_Z 0) then None
               else Some (value n, strip (x :: run))).
Proof.
  intros Hm.
  destruct (pattern_1_inv s m Hm)
    as (n & x & run & sp & sps & rest & p & Hwf & E & _ & _ & _ & H1 & H2).
  exists n, x, run, (sp :: sps), rest. repeat split; [done|done|].
  unfold try_pattern. cbn [fst snd]. rewrite Hm, groups_3. cbn [length].
  unfold grp. cbn [lookup list_lookup]. rewrite H1, H2.
  cbn [default from_option id]. now rewrite amount_of_token.
Qed.

Lemma pattern_3_return (s : str) (m : caps) :
  re_search pattern_3 s = Some m ->
  exists n rest,
    well_formed n = true /\ s = token n ++ rest
    /\ try_pattern (pattern_3, 2%nat) s =
       Return (if feqb (value n) (of_Z 0) then None else Some (value n, [])).
Proof.
  intros Hm. destruct (pattern_3_inv s m Hm) as (n & rest & Hwf & E & H1).
  exists n, rest. repeat split; [done|done|].
  unfold try_pattern. cbn [fst snd]. rewrite Hm, groups_2. cbn [length].
  unfold grp. cbn [lookup list_lookup]. rewrite H1.
  cbn [default from_option id].
  destruct (starts_number_token n Hwf) as [m' ->].
  now rewrite amount_of_token.
Qed.

Lemma try_pattern_none p s : re_search (fst p) s = None -> try_pattern p s = Continue.
Proof. intros H. unfold try_pattern. now rewrite H. Qed.

Lemma pattern_2_continue (s : str) :
  re_search pattern_1 s = None -> try_pattern (pattern_2, 2%nat) s = Continue.
Proof.
  intros H1. unfold try_pattern. cbn [fst].
  destruct (re_search pattern_2 s) as [m|] eqn:E; [|done].
  apply pattern_2_implies_1 in E as [m1 E1]. congruence.
Qed.

(** X1.  The second pattern of [parse_amount], a description and a number,
    never decides: whenever it matches, the first pattern matches too, is
    tried before it and returns.  The loop over the patterns gives the same
    result without it. *)
Theorem second_pattern_redundant (s : str) :
  try_patterns patterns s = try_patterns [(pattern_1, 3%nat); (pattern_3, 2%nat)] s.
Proof.
  unfold patterns. cbn [try_patterns].
  destruct (re_search pattern_1 s) as [m|] eqn:E1.
  - destruct (pattern_1_return s m E1) as (n & x & run & sps & rest & _ & _ & ->).
    reflexivity.
  - assert (try_pattern (pattern_1, 3%nat) s = Continue) as ->.
    { unfold try_pattern. cbn [fst]. now rewrite E1. }
    now rewrite pattern_2_continue.
Qed.

End Decisions.

(** ** What [parse_amount] returns *)

Section Sound.

Lemma has_sign_not_nan b x : has_sign b x -> is_nan x = false.
Proof. now destruct x. Qed.

Lemma value_sign (n : number) : has_sign (negative n) (value n).
Proof.
  unfold value. destruct (negative n).
  - apply (fneg_sign false), of_decimal_sign.
  - apply of_decimal_sign.
Qed.

Lemma above_zero_nonzero (x : float) :
  fleb x (of_Z 0) = false -> feqb x (of_Z 0) = false.
Proof. now destruct x as [[]|[]| |[] ? ?]. Qed.

Lemma k_pattern_inv_suffix (s : str) (m : caps) :
  re_search k_pattern s = Some m ->
  exists n sps kc post,
    well_formed n = true /\ s = token n ++ sps ++ kc :: post
    /\ Forall (fun c => is_space c = true) sps
    /\ cclass_match (CSet (py "кkK")) kc = true
    /\ group 1 m = Some (token n).
Proof.
  unfold k_pattern. rewrite search_anchored, mtch_seq, mtch_group.
  intros (n & rest & p & Hwf & -> & H)%number_inv.
  rewrite take_prefix in H.
  pose proof H as H'.
  apply (mtch_inv 1) in H' as (p' & s' & g' & Hacc & Hg'); [|reflexivity].
  unfold accept in Hacc. injection Hacc as ->.
  rewrite mtch_seq in H.
  apply star_inv in H as (sps & rest' & q & -> & Hsps & H).
  rewrite mtch_seq in H. destruct rest' as [|kc post]; [done|].
  rewrite mtch_cls_cons in H.
  destruct (cclass_match (CSet (py "кkK")) kc) eqn:Ek; [|done].
  exists n, sps, kc, post. rewrite Hg'. repeat split; done.
Qed.

Lemma parse_amount_unfold (text : str) :
  parse_amount text =
  if truthy (strip text) then
    match k_branch (strip text) with
    | Return r => r
    | Continue => try_patterns patterns (strip text)
    end
  else None.
Proof.
  unfold parse_amount. destruct text as [|c text]; [reflexivity|].
  cbn [truthy negb orb]. now destruct (truthy (strip (c :: text))).
Qed.

(** A parsed amount is a number other than zero. *)
Lemma parse_amount_number (text : str) (a : float) (d : str) :
  parse_amount text = Some (a, d) ->
  feqb a (of_Z 0) = false /\ is_nan a = false.
Proof.
  rewrite parse_amount_unfold. destruct (truthy (strip text)); [|done].
  set (s := strip text). unfold k_branch.
  destruct (re_search k_pattern s) as [m|] eqn:Ek.
  - destruct (k_pattern_inv_suffix s m Ek) as (n & sps & kc & post & Hwf & _ & _ & _ & Hg).
    rewrite Hg. cbn [default from_option id]. rewrite (py_float_token n Hwf).
    cbv zeta. remember (fmul (value n) (of_Z 1000)) as amount eqn:Ea.
    assert (Hsign : has_sign (negative n) amount).
    { rewrite Ea. apply fmul_1000_sign, value_sign. }
    destruct (fleb amount (of_Z 0)) eqn:Hpos; [done|]. intros [= <- <-].
    split; [now apply above_zero_nonzero|]. eapply has_sign_not_nan, Hsign.
  - cbn [patterns try_patterns].
    destruct (re_search pattern_1 s) as [m|] eqn:E1.
    + destruct (pattern_1_return s m E1) as (n & x & run & sps & rest & Hwf & _ & ->).
      destruct (feqb (value n) (of_Z 0)) eqn:Hz; [done|]. intros [= <- <-].
      split; [done|]. eapply has_sign_not_nan, value_sign.
    + rewrite (try_pattern_none (pattern_1, 3%nat)) by done.
      rewrite (pattern_2_continue s E1).
      destruct (re_search pattern_3 s) as [m|] eqn:E3.
      * destruct (pattern_3_return s m E3) as (n & rest & Hwf & _ & ->).
        destruct (feqb (value n) (of_Z 0)) eqn:Hz; [done|]. intros [= <- <-].
        split; [done|]. eapply has_sign_not_nan, value_sign.
      * now rewrite (try_pattern_none (pattern_3, 2%nat)).
Qed.

(** X2.  What [parse_amount] returns comes from the text.  When it returns
    an amount and a description, the stripped text holds a well-formed
    numeric token, and the amount is the value of the token, or 1000 times
    the value for a token at the start that white space and a letter к or k
    follow.  The amount is a number other than zero, and the description has
    no white space at either end. *)
Theorem parse_amount_sound (text : str) (a : float) (d : str) :
  parse_amount text = Some (a, d) ->
  exists (n : number) (pre post : str),
    well_formed n = true
    /\ strip text = pre ++ token n ++ post
    /\ (a = value n
        \/ a = fmul (value n) (of_Z 1000) /\ pre = []
           /\ exists sps kc post',
                post = sps ++ kc :: post'
                /\ Forall (fun c => is_space c = true) sps
                /\ cclass_match (CSet (py "кkK")) kc = true)
    /\ feqb a (of_Z 0) = false /\ is_nan a = false /\ strip d = d.
Proof.
  rewrite parse_amount_unfold. destruct (truthy (strip text)); [|done].
  set (s := strip text). unfold k_branch.
  destruct (re_search k_pattern s) as [m|] eqn:Ek.
  - destruct (k_pattern_inv_suffix s m Ek) as (n & sps & kc & post & Hwf & E & Hs & Hk & Hg).
    rewrite Hg. cbn [default from_option id]. rewrite (py_float_token n Hwf).
    cbv zeta. remember (fmul (value n) (of_Z 1000)) as amount eqn:Ea.
    assert (Hsign : has_sign (negative n) amount).
    { rewrite Ea. apply fmul_1000_sign, value_sign. }
    destruct (fleb amount (of_Z 0)) eqn:Hpos; [done|]. intros [= <- <-].
    exists n, [], (sps ++ kc :: post).
    split; [done|]. split; [done|].
    split.
    { right. split; [done|]. split; [done|]. exists sps, kc, post. auto. }
    split; [now apply above_zero_nonzero|].
    split; [|apply strip_idemp].
    eapply has_sign_not_nan, Hsign.
  - cbn [patterns try_patterns].
    destruct (re_search pattern_1 s) as [m|] eqn:E1.
    + destruct (pattern_1_return s m E1) as (n & x & run & sps & rest & Hwf & E & ->).
      destruct (feqb (value n) (of_Z 0)) eqn:Hz; [done|]. intros [= <- <-].
      exists n, ((x :: run) ++ sps), rest. rewrite <- app_assoc.
      split; [done|]. split; [done|]. split; [now left|]. split; [done|].
      split; [|apply strip_idemp].
      eapply has_sign_not_nan, value_sign.
    + assert (try_pattern (pattern_1, 3%nat) s = Continue) as ->.
      { unfold try_pattern. cbn [fst]. now rewrite E1. }
      rewrite (pattern_2_continue s E1).
      destruct (re_search pattern_3 s) as [m|] eqn:E3.
      * destruct (pattern_3_return s m E3) as (n & rest & Hwf & E & ->).
        destruct (feqb (value n) (of_Z 0)) eqn:Hz; [done|]. intros [= <- <-].
        exists n, [], rest.
        split; [done|]. split; [done|]. split; [now left|]. split; [done|].
        split; [|done].
        eapply has_sign_not_nan, value_sign.
      * unfold try_pattern. cbn [fst]. now rewrite E3.
Qed.

Lemma parse_amount_sound_witness :
  exists (n : number) (pre post : str),
    well_formed n = true
    /\ strip (py "кофе 300") = pre ++ token n ++ post
    /\ (of_Z 300 = value n
        \/ of_Z 300 = fmul (value n) (of_Z 1000) /\ pre = []
           /\ exists sps kc post',
                post = sps ++ kc :: post'
                /\ Forall (fun c => is_space c = true) sps
                /\ cclass_match (CSet (py "кkK")) kc = true)
    /\ feqb (of_Z 300) (of_Z 0) = false /\ is_nan (of_Z 300) = false
    /\ strip (py "кофе") = py "кофе".
Proof.
  apply (parse_amount_sound (py "кофе 300") (of_Z 300) (py "кофе")).
  vm_compute. reflexivity.
Defined.

(** X3.  White space before and after the text does not change what
    [parse_amount] returns. *)
Theorem parse_amount_padded (l text r : str) :
  Forall (fun c => is_space c = true) l -> Forall (fun c => is_space c = true) r ->
  parse_amount (l ++ text ++ r) = parse_amount text.
Proof. intros Hl Hr. now rewrite !parse_amount_unfold, strip_padded. Qed.

Lemma parse_amount_padded_witness :
  parse_amount (py "  " ++ py "кофе 300" ++ py " ") = parse_amount (py "кофе 300").
Proof.
  apply (parse_amount_padded (py "  ") (py "кофе 300") (py " "));
    vm_compute py; repeat constructor.
Defined.

End Sound.

(** ** The currency words *)

Section CurrencyInversion.

Lemma alt_inv r1 r2 p s g (K : cont) m :
  mtch (RAlt r1 r2) p s g K = Some m ->
  mtch r1 p s g K = Some m \/ mtch r2 p s g K = Some m.
Proof. rewrite mtch_alt. destruct (mtch r1 p s g K); [intros [= ->]|]; auto. Qed.

Lemma opt_inv r p s g (K : cont) m :
  mtch (ROpt r) p s g K = Some m -> mtch r p s g K = Some m \/ K p s g = Some m.
Proof. rewrite mtch_opt. destruct (mtch r p s g K); [intros [= ->]|]; auto. Qed.

Lemma word_b_inv p s g (K : cont) m :
  mtch RWordB p s g K = Some m ->
  xorb (is_word_opt p) (is_word_opt (head s)) = true /\ K p s g = Some m.
Proof. cbn [mtch]. now destruct (xorb _ _). Qed.

Lemma chr_inv c p s g (K : cont) m :
  mtch (chr c) p s g K = Some m ->
  exists x rest, s = x :: rest /\ lower c = lower x /\ K (Some x) rest g = Some m.
Proof.
  unfold chr. destruct s as [|x s]; [done|]. rewrite mtch_cls_cons.
  cbn [cclass_match existsb]. rewrite orb_false_r.
  destruct (lower c =? lower x) eqn:E; [|done]. intros H.
  exists x, s. repeat split; [lia|done].
Qed.

Lemma lit_inv : forall w p s g (K : cont) m,
  w <> [] -> mtch (lit w) p s g K = Some m ->
  exists w' rest,
    s = w' ++ rest /\ Forall2 (fun c x => lower c = lower x) w w'
    /\ K (last w') rest g = Some m.
Proof.
  induction w as [|c w IH]; intros p s g K m Hne H; [done|].
  destruct w as [|c2 w].
  - cbn [lit] in H. apply chr_inv in H as (x & rest & -> & Hx & H).
    exists [x], rest. repeat split; [|done]. now repeat constructor.
  - change (lit (c :: c2 :: w)) with (RSeq (chr c) (lit (c2 :: w))) in H.
    rewrite mtch_seq in H. apply chr_inv in H as (x & rest & -> & Hx & H).
    apply IH in H as (w' & rest' & -> & Hw & H); [|done].
    exists (x :: w'), rest'. repeat split; [now constructor|].
    destruct w' as [|y w']; [now apply Forall2_nil_inv_r in Hw|]. exact H.
Qed.

(** A match of a currency word: the word, up to case, then a word
    boundary. *)
Lemma currency_b_inv p s g (K : cont) m :
  mtch CURRENCY_B p s g K = Some m ->
  exists w w' rest,
    w ∈ currency_words /\ s = w' ++ rest
    /\ Forall2 (fun c x => lower c = lower x) w w'
    /\ xorb (is_word_opt (last w')) (is_word_opt (head rest)) = true
    /\ K (last w') rest g = Some m.
Proof.
  unfold CURRENCY_B, currency_words.
  assert (Hone : forall w,
            w <> [] -> mtch (RSeq (lit w) RWordB) p s g K = Some m ->
            exists w' rest,
              s = w' ++ rest /\ Forall2 (fun c x => lower c = lower x) w w'
              /\ xorb (is_word_opt (last w')) (is_word_opt (head rest)) = true
              /\ K (last w') rest g = Some m).
  { intros w Hne H. rewrite mtch_seq in H.
    apply lit_inv in H as (w' & rest & -> & Hw & H); [|done].
    apply word_b_inv in H as [Hb H]. eauto 10. }
  intros H.
  apply alt_inv in H as [H|H];
    [|apply alt_inv in H as [H|H];
      [|apply alt_inv in H as [H|H]; [|apply alt_inv in H as [H|H]]]];
    (apply Hone in H; [|done]);
    destruct H as (w' & rest & E & Hw & Hb & H);
    eexists _, w', rest; (split; [|done]);
    rewrite !elem_of_cons; tauto.
Qed.

Lemma lower_rouble c : lower c = 8381 -> c = 8381.
Proof. unfold lower. repeat case_match; lia. Qed.

Lemma last_Forall2 {A B} (R : A -> B -> Prop) (l : list A) (k : list B) z :
  Forall2 R l k -> last k = Some z -> exists y, last l = Some y /\ R y z.
Proof.
  induction 1 as [|a b l k Hab Hlk IH]; [done|].
  destruct Hlk as [|a' b' l k Hab' Hlk].
  - intros [= <-]. eauto.
  - intros Hl. apply IH. exact Hl.
Qed.

(** The end of a match of a currency word that the end of the line
    follows is a letter. *)
Lemma currency_b_at_end p s g (K : cont) m :
  mtch CURRENCY_B p s g (fun p' s' g' => mtch REol p' s' g' K) = Some m ->
  last s <> Some 8381.
Proof.
  intros (w & w' & rest & Hw & -> & HF & Hb & H)%currency_b_inv.
  apply eol_inv in H as [Hrest _].
  assert (Hw' : exists z, last w' = Some z).
  { destruct w' as [|x w'].
    - apply Forall2_nil_inv_r in HF. subst w. revert Hw. unfold currency_words.
      rewrite !elem_of_cons, elem_of_nil. vm_compute. intuition congruence.
    - destruct (last (x :: w')) eqn:E; [eauto|]. now apply last_None in E. }
  destruct Hw' as (z & Hz).
  destruct (last_Forall2 _ _ _ _ HF Hz) as (y & Hy & Hlow).
  destruct Hrest as [-> | ->].
  - rewrite app_nil_r, Hz. intros [= ->].
    rewrite Hz in Hb. cbn in Hb. revert Hb. vm_compute. congruence.
  - rewrite last_app. cbn. congruence.
Qed.

Lemma end_1_last p rest g m :
  mtch END_1 p rest g accept = Some m -> last rest <> Some 8381.
Proof.
  unfold END_1. rewrite mtch_seq.
  intros (sps & tail & q & -> & Hsps & H)%star_inv.
  rewrite mtch_seq in H.
  assert (Hs : forall z, last sps = Some z -> z <> 8381).
  { intros z Hz ->. apply last_Some_elem_of in Hz.
    rewrite Forall_forall in Hsps. apply Hsps in Hz. cbn in Hz. done. }
  apply opt_inv in H as [H|H].
  - rewrite mtch_group in H. apply currency_b_at_end in H.
    rewrite last_app. destruct (last tail); [exact H|].
    intros Hl. now apply (Hs _ Hl).
  - apply eol_inv in H as [[-> | ->] _].
    + rewrite app_nil_r. intros Hl. now apply (Hs _ Hl).
    + rewrite last_app. cbn. congruence.
Qed.

End CurrencyInversion.

(** ** The rouble sign at the end *)

Section Rouble.

Lemma k_pattern_not_number c s :
  is_digit c = false -> c <> 45 -> re_search k_pattern (c :: s) = None.
Proof.
  intros H1 H2. unfold k_pattern. rewrite search_anchored, mtch_seq, mtch_group.
  now apply number_fails.
Qed.

Lemma pattern_3_not_number c s :
  is_digit c = false -> c <> 45 -> re_search pattern_3 (c :: s) = None.
Proof.
  intros H1 H2. unfold pattern_3. rewrite search_anchored, mtch_seq, mtch_group.
  now apply number_fails.
Qed.

(** X4.  A text that, once stripped, starts with a character other than a
    digit or a minus sign and ends with the rouble sign is rejected, as
    "кофе 300₽" is: the first pattern wants a word boundary after the sign,
    which the end of the text is not, and the third pattern wants the number
    at the start. *)
Theorem rouble_sign_after_text (text : str) (c : char) (s : str) :
  strip text = c :: s -> is_digit c = false -> c <> 45 ->
  last (c :: s) = Some 8381 ->
  parse_amount text = None.
Proof.
  intros E Hc1 Hc2 Hl. rewrite parse_amount_unfold, E. cbn [truthy].
  unfold k_branch. rewrite k_pattern_not_number by done.
  cbn [patterns try_patterns].
  assert (H1 : re_search pattern_1 (c :: s) = None).
  { destruct (re_search pattern_1 (c :: s)) as [m|] eqn:E1; [exfalso|done].
    apply pattern_1_inv in E1
      as (n & x & run & sp & sps & rest & p & Hwf & E' & _ & _ & H & _).
    apply end_1_last in H. rewrite E' in Hl.
    rewrite !app_assoc, last_app in Hl.
    destruct (last rest) as [z|] eqn:Er; [congruence|].
    rewrite last_app in Hl.
    destruct (token_last n Hwf) as (y & Hy1 & Hy). rewrite Hy1 in Hl.
    injection Hl as ->.
    revert Hy. vm_compute. congruence. }
  rewrite (try_pattern_none (pattern_1, 3%nat)) by done.
  rewrite pattern_2_continue by done.
  rewrite (try_pattern_none (pattern_3, 2%nat)); [done|].
  now apply pattern_3_not_number.
Qed.

Lemma rouble_sign_after_text_witness :
  parse_amount (py "кофе 300₽") = None.
Proof.
  apply (rouble_sign_after_text (py "кофе 300₽") 1082 (py "офе 300₽"));
    [vm_compute; reflexivity | vm_compute; reflexivity | lia | vm_compute; reflexivity].
Defined.

End Rouble.

(** ** A number and a currency word *)

Section Characters.

Lemma space_outside_number c : is_space c = true -> outside_number c.
Proof.
  intros H. unfold outside_number.
  assert (Hd : is_digit c = false).
  { destruct (is_digit c) eqn:E; [|done]. apply is_digit_range in E.
    unfold is_space in H. lia. }
  split; [done|]. unfold is_space in H.
  split; [lia|]. split; [lia|]. split; [lia|].
  apply set_no_match.
  - unfold lower. repeat case_match; lia.
  - eval_py. repeat constructor; vm_compute; lia.
Qed.

Lemma currency_word_chars cur :
  cur ∈ currency_words ->
  Forall (fun c => outside_number c /\ is_space c = false) cur
  /\ exists c tl z, cur = c :: tl /\ last cur = Some z.
Proof.
  unfold currency_words. rewrite !elem_of_cons, elem_of_nil.
  intros [-> | [-> | [-> | [-> | [-> | []]]]]]; eval_py;
    (split; [|eexists _, _, _; split; reflexivity]);
    repeat constructor; vm_compute; congruence.
Qed.

Lemma snoc_inv {A} (l : list A) : l <> [] -> exists l' z, l = l' ++ [z].
Proof.
  induction l as [|x l IH]; [done|]. intros _.
  destruct l as [|y l].
  - exists [], x. done.
  - destruct IH as (l' & z & E); [done|]. exists (x :: l'), z. now rewrite E.
Qed.

Lemma space_before (t W A B : str) (z c : char) :
  t ++ W = A ++ z :: c :: B ->
  Forall (fun x => is_space x = false) t -> is_space z = true -> c ∈ W.
Proof.
  revert A. induction t as [|y t IH]; intros A E Ht Hz.
  - cbn in E. rewrite E. rewrite elem_of_app, !elem_of_cons. auto.
  - apply Forall_cons in Ht as [Hy Ht]. destruct A as [|a A].
    + injection E as -> _. congruence.
    + injection E as _ E. now apply (IH A).
Qed.

Lemma token_start (n : number) :
  well_formed n = true ->
  exists c s, token n = c :: s /\ (is_digit c = true \/ c = 45).
Proof.
  intros Hwf. destruct (well_formed_int n Hwf) as (x & l & Ei & Hi).
  apply Forall_cons in Hi as [Hx _].
  unfold token, unsigned. rewrite Ei. destruct (negative n); cbn [app]; eauto.
Qed.

(** The first pattern needs white space with a number right after it. *)
Lemma pattern_1_needs_gap (t W : str) :
  Forall (fun x => is_space x = false) t ->
  Forall (fun c => is_digit c = false /\ c <> 45) W ->
  re_search pattern_1 (t ++ W) = None.
Proof.
  intros Ht HW.
  destruct (re_search pattern_1 (t ++ W)) as [m|] eqn:E1; [exfalso|done].
  apply pattern_1_inv in E1
    as (n & x & run & sp & sps & rest & p & Hwf & E & _ & Hsp & _).
  destruct (snoc_inv (sp :: sps)) as (sps' & z & Es); [done|].
  destruct (token_start n Hwf) as (c & tk & Et & Hc).
  rewrite Es, Et in E. rewrite Es in Hsp.
  apply Forall_app in Hsp as [_ [Hz _]%Forall_cons].
  assert (E' : t ++ W = ((x :: run) ++ sps') ++ z :: c :: (tk ++ rest)).
  { rewrite E. now rewrite <- !app_assoc. }
  apply space_before in E'; [|done|done].
  rewrite Forall_forall in HW. destruct (HW c E') as [H1 H2].
  destruct Hc; congruence.
Qed.

End Characters.

Section NumberCurrency.

Variable n : number.
Hypothesis Hwf : well_formed n = true.
Variables ws cur : str.
Hypothesis Hws : Forall (fun c => is_space c = true) ws.
Hypothesis Hcur : cur ∈ currency_words.

Let text : str := token n ++ ws ++ cur.

Lemma tail_chars :
  Forall (fun c => outside_number c) (ws ++ cur).
Proof.
  apply Forall_app. split.
  - eapply Forall_impl; [exact Hws|]. apply space_outside_number.
  - destruct (currency_word_chars cur Hcur) as [H _].
    eapply Forall_impl; [exact H|]. now intros c [? _].
Qed.

Lemma strip_number_currency : strip text = text.
Proof.
  destruct (token_head n Hwf) as (c & s & E & Hc).
  destruct (currency_word_chars cur Hcur) as [H (c0 & tl & z & Ec & Hl)].
  unfold text. rewrite E. cbn [app]. apply (strip_id c _ z); auto.
  - rewrite app_comm_cons, !last_app, Hl. done.
  - apply last_Some_elem_of in Hl. rewrite Forall_forall in H.
    now destruct (H z Hl).
Qed.

Lemma k_pattern_number_currency : re_search k_pattern text = None.
Proof.
  apply (search_needs_none _ _ needs_letter_k_pattern).
  unfold text. apply Forall_app. split; [now apply token_no_k|].
  eapply Forall_impl; [exact tail_chars|]. now intros c (_ & _ & _ & _ & H).
Qed.

Lemma pattern_1_number_currency : re_search pattern_1 text = None.
Proof.
  apply pattern_1_needs_gap; [now apply token_no_space|].
  eapply Forall_impl; [exact tail_chars|]. now intros c (H1 & H2 & _).
Qed.

Lemma pattern_3_number_currency :
  re_search pattern_3 text = Some [(2%nat, cur); (1%nat, token n)].
Proof.
  unfold pattern_3, text. rewrite search_anchored, mtch_seq, mtch_group.
  apply number_match; [done| |].
  - intros x rest' Ex. pose proof tail_chars as H. rewrite Ex in H.
    apply Forall_cons in H as [(H1 & _ & H2 & H3 & _) _]. auto.
  - intros p. rewrite take_prefix, mtch_seq, mtch_star.
    destruct (currency_word_chars cur Hcur) as [H (c0 & tl & z & Ec & Hl)].
    apply star_run; [done| |].
    + intros x rest' Ex. rewrite Ex in H.
      now apply Forall_cons in H as [[_ H] _].
    + clear H Ec Hl. revert Hcur. unfold currency_words.
      rewrite !elem_of_cons, elem_of_nil.
      intros [-> | [-> | [-> | [-> | [-> | []]]]]] q; vm_compute; reflexivity.
Qed.

Lemma number_currency_parse :
  parse_amount (token n ++ ws ++ cur) =
  if feqb (value n) (of_Z 0) then None else Some (value n, []).
Proof.
  fold text. rewrite parse_amount_unfold, strip_number_currency.
  assert (truthy text = true) as ->.
  { unfold text. destruct (token_head n Hwf) as (c & s & -> & _). done. }
  unfold k_branch. rewrite k_pattern_number_currency.
  cbn [patterns try_patterns].
  rewrite (try_pattern_none (pattern_1, 3%nat)) by apply pattern_1_number_currency.
  rewrite pattern_2_continue by apply pattern_1_number_currency.
  unfold try_pattern. cbn [fst snd]. rewrite pattern_3_number_currency.
  rewrite groups_2. cbn [length group Nat.eqb]. unfold grp.
  cbn [lookup list_lookup default from_option id].
  destruct (starts_number_token n Hwf) as [m' ->].
  now rewrite amount_of_token.
Qed.

End NumberCurrency.

(** X5.  A numeric token, white space or none, and one of the currency
    words "руб", "рублей", "рубля", "р", "₽": the result is the value of the
    token with an empty description, and a failure when the value is
    zero. *)
Theorem parse_amount_number_currency (n : number) (ws cur : str) :
  well_formed n = true ->
  Forall (fun c => is_space c = true) ws -> cur ∈ currency_words ->
  parse_amount (token n ++ ws ++ cur) =
  if feqb (value n) (of_Z 0) then None else Some (value n, []).
Proof. intros. now apply number_currency_parse. Qed.

Lemma parse_amount_number_currency_witness :
  parse_amount (token plus_1_5 ++ py " " ++ py "руб") =
  if feqb (value plus_1_5) (of_Z 0) then None else Some (value plus_1_5, []).
Proof.
  apply (parse_amount_number_currency plus_1_5 (py " ") (py "руб"));
    [vm_compute; reflexivity | vm_compute py; repeat constructor
    | apply elem_of_cons; now left].
Defined.

(** ** A description, a number and a currency word *)

Section DescribedCurrency.

Variable n : number.
Hypothesis Hwf : well_formed n = true.
Variables d ws ws2 cur : str.
Hypothesis Hd : plain_description d = true.
Hypothesis Hws : blanks ws = true.
Hypothesis Hws2 : Forall (fun c => is_space c = true) ws2.
Hypothesis Hcur : cur ∈ currency_words.
Hypothesis Hletters : cur <> py "₽".

Let rest : str := ws2 ++ cur.
Let text : str := d ++ ws ++ token n ++ rest.

Lemma plain_inv :
  exists c d' z,
    d = c :: d' /\ last d = Some z /\ is_space c = false /\ is_space z = false /\
    Forall (fun x => x <> 10 /\ is_digit x = false /\ x <> 45) d.
Proof.
  clear Hws Hwf Hws2 Hcur Hletters. revert Hd. unfold plain_description.
  destruct d as [|c d']; [done|].
  destruct (last (c :: d')) as [z|]; [|done].
  intros [[Hc Hz]%andb_true_iff Hall]%andb_true_iff.
  exists c, d', z. repeat split; try (now apply negb_true_iff).
  apply forallb_Forall in Hall.
  eapply Forall_impl; [exact Hall|]. intros x. cbn beta.
  rewrite !andb_true_iff, !negb_true_iff. intros [[H1 H2] H3].
  repeat split; [lia|done|lia].
Qed.

Lemma blanks_cons :
  exists w ws', ws = w :: ws' /\ Forall (fun x => is_space x = true) (w :: ws').
Proof.
  unfold blanks in Hws. apply andb_true_iff in Hws as [Ht Hall].
  destruct ws as [|w ws']; [done|]. exists w, ws'. split; [done|].
  now apply forallb_Forall.
Qed.

Lemma strip_described_currency : strip text = text.
Proof.
  destruct plain_inv as (c & d' & z & E & _ & Hc & _).
  destruct (currency_word_chars cur Hcur) as [H (c0 & tl & y & Ec & Hl)].
  unfold text, rest. rewrite E. cbn [app]. apply (strip_id c _ y); auto.
  - rewrite app_comm_cons, !last_app, Hl. done.
  - apply last_Some_elem_of in Hl. rewrite Forall_forall in H.
    now destruct (H y Hl).
Qed.

Lemma end_1_currency p g :
  mtch END_1 p rest g accept = Some ((3%nat, cur) :: g).
Proof.
  unfold END_1, rest. rewrite mtch_seq, mtch_star.
  destruct (currency_word_chars cur Hcur) as [H (c0 & tl & z & Ec & Hl)].
  apply star_run; [done| |].
  - intros x rest' Ex. rewrite Ex in H. now apply Forall_cons in H as [[_ H] _].
  - clear H Ec Hl. revert Hcur Hletters. unfold currency_words.
    rewrite !elem_of_cons, elem_of_nil.
    intros [-> | [-> | [-> | [-> | [-> | []]]]]] Hne q;
      try (vm_compute; reflexivity). done.
Qed.

Lemma tail_1_match p g :
  mtch TAIL_1 p (ws ++ token n ++ rest) g accept
  = Some ((3%nat, cur) :: (2%nat, token n) :: g).
Proof.
  destruct blanks_cons as (w & ws' & E & Hall).
  destruct (token_head n Hwf) as (c & s & Et & Hc).
  unfold TAIL_1. rewrite mtch_seq, E. apply plus_run; auto.
  - intros x rest' Ex. rewrite Et in Ex. injection Ex as <- _. exact Hc.
  - intros q. rewrite mtch_seq, mtch_group.
    apply number_match; [done| |].
    + intros x rest' Ex. pose proof (tail_chars ws2 cur Hws2 Hcur) as H.
      fold rest in H. rewrite Ex in H.
      apply Forall_cons in H as [(H1 & _ & H2 & H3 & _) _]. auto.
    + intros r. rewrite take_prefix. apply end_1_currency.
Qed.

Lemma tail_1_inside d1 d2 p g :
  d = d1 ++ d2 -> d2 <> [] ->
  mtch TAIL_1 p (d2 ++ ws ++ token n ++ rest) g accept = None.
Proof.
  intros E Hne.
  destruct plain_inv as (c & d' & z & _ & Hl & _ & Hz & Hall).
  rewrite E in Hall, Hl. apply Forall_app in Hall as [_ Hall].
  assert (Hl2 : last d2 = Some z).
  { rewrite last_app in Hl. destruct (last d2) eqn:El; [done|].
    now apply last_None in El. }
  assert (HK : forall q (x : char) (s : str) g',
             x ∈ d2 -> mtch (RSeq (RGroup 2 NUMBER) END_1) q (x :: s) g' accept = None).
  { intros q x s g' Hx. rewrite Forall_forall in Hall.
    destruct (Hall x Hx) as (_ & H1 & H2).
    rewrite mtch_seq, mtch_group. now apply number_fails. }
  unfold TAIL_1. rewrite mtch_seq.
  destruct d2 as [|x d2]; [done|]. cbn [app]. rewrite mtch_plus_cons.
  destruct (cclass_match CSpace x) eqn:Ex; [|done].
  destruct d2 as [|y d2].
  - injection Hl2 as ->. cbn in Ex. congruence.
  - apply (star_blocked CSpace _ _ (y :: d2) z); auto.
    intros. apply HK. apply elem_of_cons. now right.
Qed.

Lemma pattern_1_described_currency :
  re_search pattern_1 text = Some [(3%nat, cur); (2%nat, token n); (1%nat, d)].
Proof.
  destruct plain_inv as (c & d' & z & E & _ & _ & _ & Hall).
  unfold pattern_1. rewrite search_anchored, mtch_seq, mtch_group.
  fold END_1. fold TAIL_1. unfold text. rewrite E in Hall |- *.
  apply lazy_plus_run.
  - eapply Forall_impl; [exact Hall|]. intros x (H & _). cbn. lia.
  - intros d1 d2 p E' H1 H2. apply (tail_1_inside d1 d2); auto. congruence.
  - intros p. rewrite take_prefix. apply tail_1_match.
Qed.

Lemma described_currency_parse :
  parse_amount (d ++ ws ++ token n ++ ws2 ++ cur) =
  if feqb (value n) (of_Z 0) then None else Some (value n, d).
Proof.
  fold rest. fold text.
  destruct plain_inv as (c & d' & z & E & Hl & Hc & Hz & Hall).
  rewrite parse_amount_unfold, strip_described_currency.
  assert (truthy text = true) as -> by (unfold text; now rewrite E).
  unfold k_branch.
  assert (re_search k_pattern text = None) as ->.
  { unfold text. rewrite E. rewrite E in Hall.
    apply Forall_cons in Hall as [(_ & H1 & H2) _].
    now apply k_pattern_not_number. }
  cbn [patterns try_patterns]. unfold try_pattern at 1. cbn [fst snd].
  rewrite pattern_1_described_currency, groups_3.
  cbn [length group Nat.eqb]. unfold grp.
  cbn [lookup list_lookup default from_option id].
  rewrite (amount_of_token n Hwf).
  rewrite E. rewrite E in Hl. now rewrite (strip_id c d' z).
Qed.

End DescribedCurrency.

(** X6.  A description without digits, minus signs and newlines, white
    space, a numeric token, white space or none, and one of the currency
    words "руб", "рублей", "рубля", "р": the result is the value of the
    token and the description, and a failure when the value is zero. *)
Theorem parse_amount_described_currency (n : number) (d ws ws2 cur : str) :
  well_formed n = true -> plain_description d = true -> blanks ws = true ->
  Forall (fun c => is_space c = true) ws2 ->
  cur ∈ currency_words -> cur <> py "₽" ->
  parse_amount (d ++ ws ++ token n ++ ws2 ++ cur) =
  if feqb (value n) (of_Z 0) then None else Some (value n, d).
Proof. intros. now apply described_currency_parse. Qed.

Lemma parse_amount_described_currency_witness :
  parse_amount (py "такси" ++ py " " ++ token plus_1_5 ++ py " " ++ py "руб") =
  if feqb (value plus_1_5) (of_Z 0) then None else Some (value plus_1_5, py "такси").
Proof.
  apply (parse_amount_described_currency plus_1_5 (py "такси") (py " ") (py " ")
           (py "руб"));
    [vm_compute; reflexivity | vm_compute; reflexivity | vm_compute; reflexivity
    | vm_compute py; repeat constructor
    | apply elem_of_cons; now left
    | vm_compute; discriminate].
Defined.

Lemma strip_id_ends (s : str) (c z : char) :
  head s = Some c -> last s = Some z -> is_space c = false -> is_space z = false ->
  strip s = s.
Proof.
  destruct s as [|x s]; [done|]. intros [= ->] Hl Hc Hz. now apply (strip_id c s z).
Qed.

(** ** A number with the suffix, then a description *)

Section SuffixDescription.

Variable n : number.
Hypothesis Hwf : well_formed n = true.
Variable kc : char.
Hypothesis Hkc : kc ∈ k_letters.
Variables ws d : str.
Hypothesis Hws : Forall (fun c => is_space c = true) ws.
Hypothesis Hd : suffix_description d = true.

Let text : str := token n ++ [kc] ++ ws ++ d.

Lemma suffix_description_inv :
  exists c d' z,
    d = c :: d' /\ last d = Some z /\ is_space c = false /\ is_space z = false
    /\ lower c <> 1088 /\ c <> 8381 /\ Forall (fun x => cclass_match CDot x = true) d.
Proof.
  clear Hws Hwf Hkc. revert Hd. unfold suffix_description.
  destruct d as [|c d']; [done|].
  destruct (last (c :: d')) as [z|]; [|done].
  rewrite !andb_true_iff, !negb_true_iff.
  intros [[[[Hc Hz] H1] H2] Hall].
  exists c, d', z. repeat split; try done; try lia.
  now apply forallb_Forall in Hall.
Qed.

Lemma after_blank_run (c x : char) (d' run tl : str) :
  forall ws0, Forall (fun c => is_space c = true) ws0 ->
  ws0 ++ c :: d' = run ++ x :: tl ->
  Forall (fun c => cclass_match CSpace c = true) run -> is_space c = false ->
  is_space x = true \/ x = c.
Proof.
  intros ws0 H. revert run. induction H as [|w ws0 Hw _ IH]; intros run E Hrun Hc.
  - destruct run as [|r run]; cbn in E.
    + injection E as -> _. now right.
    + injection E as <- _. apply Forall_cons in Hrun as [Hr _]. cbn in Hr. congruence.
  - destruct run as [|r run]; cbn in E.
    + injection E as <- _. now left.
    + injection E as _ E. apply Forall_cons in Hrun as [_ Hrun]. now apply (IH run).
Qed.

Lemma currency_word_head w :
  w ∈ currency_words -> exists c tl, w = c :: tl /\ (c = 1088 \/ c = 8381).
Proof.
  unfold currency_words. rewrite !elem_of_cons, elem_of_nil.
  intros [-> | [-> | [-> | [-> | [-> | []]]]]]; eval_py; eauto.
Qed.

(** No currency word starts in the white space or at the description. *)
Lemma currency_not_ahead p g (K : cont) :
  mtch (RSeq (RStar CSpace) CURRENCY_B) p (ws ++ d) g K = None.
Proof.
  destruct suffix_description_inv as (c & d' & z & E & _ & Hc & _ & H1 & H2 & _).
  destruct (mtch _ p (ws ++ d) g K) as [m|] eqn:Em; [exfalso|done].
  rewrite mtch_seq in Em.
  apply star_inv in Em as (run & rest' & q & Es & Hrun & Em).
  apply currency_b_inv in Em as (w & w' & rest'' & Hw & -> & HF & _ & _).
  destruct (currency_word_head w Hw) as (c0 & tl & -> & Hc0).
  destruct w' as [|x w']; [now apply Forall2_nil_inv_r in HF|].
  apply Forall2_cons in HF as [Hx _].
  rewrite E in Es. cbn [app] in Es.
  apply after_blank_run in Es as [Hs | ->]; auto.
  - assert (lower x = x) as Hlow.
    { unfold lower. unfold is_space in Hs. repeat case_match; lia. }
    rewrite Hlow in Hx. unfold is_space in Hs.
    destruct Hc0 as [-> | ->]; vm_compute in Hx; lia.
  - destruct Hc0 as [-> | ->].
    + change (lower 1088) with 1088 in Hx. congruence.
    + change (lower 8381) with 8381 in Hx. symmetry in Hx.
      now apply lower_rouble in Hx.
Qed.

Lemma k_pattern_suffix_description :
  re_search k_pattern text = Some [(2%nat, d); (1%nat, token n)].
Proof.
  destruct suffix_description_inv as (c & d' & z & E & Hl & Hc & Hz & _ & _ & Hdot).
  unfold k_pattern, text. rewrite search_anchored, mtch_seq, mtch_group.
  apply number_match; [done| |].
  - intros x rest' [= <- _].
    destruct (k_letter_cases kc Hkc) as [-> | [-> | [-> | ->]]]; split; done.
  - intros p. rewrite take_prefix, mtch_seq, mtch_star. cbn [app].
    rewrite star_stop
      by (destruct (k_letter_cases kc Hkc) as [-> | [-> | [-> | ->]]]; reflexivity).
    rewrite mtch_seq, mtch_cls_cons.
    assert (cclass_match (CSet (py "кkK")) kc = true) as ->.
    { destruct (k_letter_cases kc Hkc) as [-> | [-> | [-> | ->]]]; reflexivity. }
    rewrite mtch_seq, mtch_opt, currency_not_ahead.
    rewrite mtch_seq, mtch_star.
    apply star_run; [done| |].
    + intros x rest' Ex. rewrite E in Ex. injection Ex as <- _. exact Hc.
    + intros q. rewrite mtch_seq, mtch_group, mtch_star.
      rewrite <- (app_nil_r d) at 1 2.
      apply star_run; [done|done|].
      intros r. rewrite mtch_eol_nil. unfold accept.
      rewrite app_nil_r. cbn [length]. now rewrite Nat.sub_0_r, firstn_all.
Qed.

Lemma strip_suffix_description : strip text = text.
Proof.
  destruct suffix_description_inv as (c & d' & z & E & Hl & Hc & Hz & _).
  destruct (token_head n Hwf) as (c0 & s & Et & Hc0).
  apply (strip_id_ends _ c0 z); auto.
  - unfold text. now rewrite Et.
  - unfold text. rewrite !app_assoc, last_app, Hl. done.
Qed.

Lemma suffix_description_parse :
  parse_amount (token n ++ [kc] ++ ws ++ d) =
  let amount := fmul (value n) (of_Z 1000) in
  if fleb amount (of_Z 0) then None else Some (amount, d).
Proof.
  fold text.
  destruct suffix_description_inv as (c & d' & z & E & Hl & Hc & Hz & _).
  rewrite parse_amount_unfold, strip_suffix_description.
  assert (truthy text = true) as ->.
  { unfold text. destruct (token_head n Hwf) as (c0 & s & -> & _). done. }
  unfold k_branch. rewrite k_pattern_suffix_description.
  cbn [group Nat.eqb default from_option id].
  rewrite (py_float_token n Hwf). cbv zeta.
  rewrite E in Hl |- *. rewrite (strip_id c d' z) by done.
  now destruct (fleb _ _).
Qed.

End SuffixDescription.

(** X7.  A numeric token, a letter к or k in either case, white space or
    none, and a description on one line that does not start with "р", "Р"
    or "₽": the result is 1000 times the value of the token and the
    description when the product is greater than zero, and a failure
    otherwise. *)
Theorem parse_amount_suffix_description (n : number) (kc : char) (ws d : str) :
  well_formed n = true -> kc ∈ k_letters ->
  Forall (fun c => is_space c = true) ws -> suffix_description d = true ->
  parse_amount (token n ++ [kc] ++ ws ++ d) =
  let amount := fmul (value n) (of_Z 1000) in
  if fleb amount (of_Z 0) then None else Some (amount, d).
Proof. intros. now apply suffix_description_parse. Qed.

Lemma parse_amount_suffix_description_witness :
  parse_amount (token plus_1_5 ++ [1082] ++ py " " ++ py "на продукты") =
  let amount := fmul (value plus_1_5) (of_Z 1000) in
  if fleb amount (of_Z 0) then None else Some (amount, py "на продукты").
Proof.
  apply (parse_amount_suffix_description plus_1_5 1082 (py " ") (py "на продукты"));
    [vm_compute; reflexivity
    | unfold k_letters; vm_compute py; apply elem_of_cons; now left
    | vm_compute py; repeat constructor
    | vm_compute; reflexivity].
Defined.

(** ** The contract of [parse_amount]

    The numeric token that the grammar finds, and what the parser returns
    for it. *)

Section Unique.

(** Two ways to cut a string after its last character of a kind are the
    same way. *)
Lemma cut_unique (Q : char -> bool) (a b a' b' : str) (z z' : char) :
  a ++ b = a' ++ b' ->
  last a = Some z -> Q z = true -> last a' = Some z' -> Q z' = true ->
  Forall (fun x => Q x = false) b -> Forall (fun x => Q x = false) b' ->
  a = a' /\ b = b'.
Proof.
  intros E Ha Hz Ha' Hz' Hb Hb'.
  assert (Hone : forall (a b a' b' : str) (z : char) l,
            a = a' ++ l -> b' = l ++ b -> last a = Some z -> Q z = true ->
            Forall (fun x => Q x = false) b' -> l = []).
  { clear. intros a b a' b' z l -> -> Hl Hz Hb'.
    destruct l as [|x l] using rev_ind; [done|]. clear IHl.
    rewrite app_assoc, last_snoc in Hl. injection Hl as ->.
    apply Forall_app in Hb' as [Hb' _]. apply Forall_app in Hb' as [_ Hb'].
    apply Forall_cons in Hb' as [Hb' _]. congruence. }
  apply app_eq_app in E as [l [[E1 E2]|[E1 E2]]].
  - pose proof (Hone _ _ _ _ _ _ E1 E2 Ha Hz Hb') as ->.
    rewrite app_nil_r in E1. now subst.
  - pose proof (Hone _ _ _ _ _ _ E1 E2 Ha' Hz' Hb) as ->.
    rewrite app_nil_r in E1. now subst.
Qed.

Lemma last_app_cons {A} (l : list A) (x : A) (k : list A) :
  last (l ++ x :: k) = last (x :: k).
Proof. rewrite last_app. destruct (last (x :: k)) eqn:E; [done|]. now apply last_None in E. Qed.

Lemma currency_letter_digit w :
  w ∈ currency_words -> Forall (fun c => is_digit (lower c) = false) w.
Proof.
  unfold currency_words. rewrite !elem_of_cons, elem_of_nil.
  intros [-> | [-> | [-> | [-> | [-> | []]]]]]; eval_py;
    repeat constructor.
Qed.

Lemma forall2_no_digit (w w' : str) :
  Forall (fun c => is_digit (lower c) = false) w ->
  Forall2 (fun c x => lower c = lower x) w w' ->
  Forall (fun x => is_digit x = false) w'.
Proof.
  intros Hw HF. induction HF as [|c x w w' Hcx HF IH]; [constructor|].
  apply Forall_cons in Hw as [Hc Hw]. constructor; [|now apply IH].
  destruct (is_digit x) eqn:Ex; [|done].
  rewrite (lower_digit x Ex) in Hcx. congruence.
Qed.

(** What the end of the first pattern matches holds no digit. *)
Lemma end_1_no_digit p rest g m :
  mtch END_1 p rest g accept = Some m -> Forall (fun x => is_digit x = false) rest.
Proof.
  unfold END_1. rewrite mtch_seq.
  intros (sps & tail & q & -> & Hsps & H)%star_inv.
  apply Forall_app. split.
  { eapply Forall_impl; [exact Hsps|]. intros x Hx.
    now destruct (space_outside_number x Hx). }
  rewrite mtch_seq in H. apply opt_inv in H as [H|H].
  - rewrite mtch_group in H.
    apply currency_b_inv in H as (w & w' & rest' & Hw & -> & HF & _ & H).
    apply eol_inv in H as [Hrest _].
    apply Forall_app. split.
    + eapply forall2_no_digit; [|exact HF]. now apply currency_letter_digit.
    + destruct Hrest as [-> | ->]; repeat constructor.
  - apply eol_inv in H as [[-> | ->] _]; repeat constructor.
Qed.

Lemma currency_tail_chars words tail :
  (forall w, w ∈ words -> w ∈ currency_words) ->
  currency_tail words tail -> Forall (fun c => outside_number c) tail.
Proof.
  intros Hsub [-> | (ws & cur & -> & Hws & Hcur)]; [constructor|].
  apply tail_chars; auto.
Qed.

Lemma currency_letters_words w : w ∈ currency_letters -> w ∈ currency_words /\ w <> py "₽".
Proof.
  unfold currency_letters, currency_words. rewrite !elem_of_cons, elem_of_nil.
  intros [-> | [-> | [-> | [-> | []]]]]; (split; [tauto|vm_compute; discriminate]).
Qed.

Lemma any_description_inv d :
  any_description d = true ->
  exists c d' z,
    d = c :: d' /\ last d = Some z /\ is_space c = false /\ is_space z = false
    /\ Forall (fun x => cclass_match CDot x = true) d.
Proof.
  unfold any_description. destruct d as [|c d']; [done|].
  destruct (last (c :: d')) as [z|]; [|done].
  rewrite !andb_true_iff, !negb_true_iff. intros [[Hc Hz] Hall].
  exists c, d', z. repeat split; try done.
  now apply forallb_Forall in Hall.
Qed.

Lemma blanks_run ws :
  blanks ws = true ->
  exists w ws', ws = w :: ws' /\ Forall (fun x => is_space x = true) (w :: ws').
Proof.
  unfold blanks. intros [Ht Hall]%andb_true_iff.
  destruct ws as [|w ws']; [done|]. exists w, ws'. split; [done|].
  now apply forallb_Forall.
Qed.

End Unique.

Section DescribedGeneral.

Variable n : number.
Hypothesis Hwf : well_formed n = true.
Variables d ws tail : str.
Hypothesis Hd : any_description d = true.
Hypothesis Hws : blanks ws = true.
Hypothesis Htail : currency_tail currency_letters tail.

Let text : str := d ++ ws ++ token n ++ tail.

Lemma tail_outside : Forall (fun c => outside_number c) tail.
Proof.
  apply (currency_tail_chars currency_letters); [|exact Htail].
  intros w Hw. now apply currency_letters_words.
Qed.

Lemma end_1_tail p g : is_Some (mtch END_1 p tail g accept).
Proof.
  destruct Htail as [-> | (ws2 & cur & -> & Hws2 & Hcur)].
  - rewrite end_1_at_end by now left. eauto.
  - apply currency_letters_words in Hcur as [Hcur Hne].
    rewrite (end_1_currency n d ws ws2 cur Hws2 Hcur Hne). eauto.
Qed.

Lemma end_1_tail_fixed g : exists res, forall p, mtch END_1 p tail g accept = Some res.
Proof.
  destruct Htail as [-> | (ws2 & cur & -> & Hws2 & Hcur)].
  - exists g. intros p. apply end_1_at_end. now left.
  - apply currency_letters_words in Hcur as [Hcur Hne].
    eexists. intros p. apply (end_1_currency n d ws ws2 cur Hws2 Hcur Hne).
Qed.

Lemma pattern_1_matches : is_Some (re_search pattern_1 text).
Proof.
  destruct (any_description_inv d Hd) as (c & d' & z & E & _ & _ & _ & Hdot).
  destruct (blanks_run ws Hws) as (w & ws' & Ew & Hall).
  unfold pattern_1, text. rewrite search_anchored, mtch_seq, mtch_group.
  rewrite E in Hdot |- *.
  apply lazy_plus_complete; [|done].
  intros p. rewrite take_prefix, mtch_seq. rewrite Ew.
  apply plus_complete; [|done].
  intros q. rewrite mtch_seq, mtch_group.
  destruct (end_1_tail_fixed [(2%nat, token n); (1%nat, c :: d')]) as (res & Hres).
  erewrite (number_match n Hwf tail _ _ res); [eauto| |].
  - intros x rest' Ex. pose proof tail_outside as H. rewrite Ex in H.
    apply Forall_cons in H as [(H1 & _ & H2 & H3 & _) _]. auto.
  - intros r. rewrite take_prefix. fold END_1. apply Hres.
Qed.

(** Whatever match the first pattern finds, it reads this number and this
    description. *)
Lemma pattern_1_reads (m : caps) :
  re_search pattern_1 text = Some m ->
  group 2 m = Some (token n)
  /\ exists g1, group 1 m = Some g1 /\ strip g1 = d.
Proof.
  intros Hm.
  destruct (any_description_inv d Hd) as (c & d' & z & E & Hl & Hc & Hz & _).
  destruct (blanks_run ws Hws) as (w & ws' & Ew & Hall).
  destruct (pattern_1_inv _ _ Hm)
    as (n' & x & run & sp & sps & rest & p & Hwf' & Es & _ & Hsp & Hend & H1 & H2).
  apply end_1_no_digit in Hend.
  destruct (token_last n Hwf) as (y & Hy & Hyd).
  destruct (token_last n' Hwf') as (y' & Hy' & Hyd').
  destruct (token_head n Hwf) as (t & tk & Et & _).
  destruct (token_head n' Hwf') as (t' & tk' & Et' & _).
  (* the tails are the same *)
  assert (E1 : (d ++ ws ++ token n) ++ tail
               = ((x :: run) ++ (sp :: sps) ++ token n') ++ rest).
  { unfold text in Es. rewrite <- !app_assoc. exact Es. }
  apply (cut_unique is_digit _ _ _ _ y y') in E1 as [E1 _]; auto.
  2: { rewrite !app_assoc, Et, last_app_cons, <- Et. exact Hy. }
  2: { rewrite !app_assoc, Et', last_app_cons, <- Et'. exact Hy'. }
  2: { eapply Forall_impl; [exact tail_outside|]. now intros a (Ha & _). }
  (* the numbers are the same *)
  rewrite !app_assoc in E1.
  assert (Hlw : exists v, last (d ++ ws) = Some v /\ is_space v = true).
  { rewrite Ew. destruct (last (w :: ws')) as [v|] eqn:Ev.
    - exists v. split; [now rewrite last_app_cons|].
      apply last_Some_elem_of in Ev. rewrite Forall_forall in Hall. auto.
    - now apply last_None in Ev. }
  assert (Hlw' : exists v, last ((x :: run) ++ sp :: sps) = Some v /\ is_space v = true).
  { destruct (last (sp :: sps)) as [v|] eqn:Ev.
    - exists v. split; [now rewrite last_app_cons|].
      apply last_Some_elem_of in Ev. rewrite Forall_forall in Hsp. auto.
    - now apply last_None in Ev. }
  destruct Hlw as (v & Hv & Hvs). destruct Hlw' as (v' & Hv' & Hvs').
  apply (cut_unique is_space _ _ _ _ v v') in E1 as [E1 E2]; auto using token_no_space.
  rewrite <- E2 in H2. split; [exact H2|].
  exists (x :: run). split; [exact H1|].
  (* the descriptions are the same up to white space *)
  apply app_eq_app in E1 as [l [[E3 E4]|[E3 E4]]].
  - assert (l = []) as ->.
    { destruct l as [|a l] using rev_ind; [done|]. clear IHl.
      rewrite E3, app_assoc, last_snoc in Hl. injection Hl as ->.
      assert (Ha : z ∈ sp :: sps).
      { rewrite E4. rewrite !elem_of_app, elem_of_cons. auto. }
      rewrite Forall_forall in Hsp. apply Hsp in Ha. congruence. }
    rewrite app_nil_r in E3. rewrite <- E3, E. rewrite E in Hl.
    now apply (strip_id c d' z).
  - assert (Hl' : Forall (fun a => is_space a = true) l).
    { rewrite Ew in E4. rewrite E4 in Hall. now apply Forall_app in Hall as [Hall _]. }
    pose proof (strip_padded [] d l ltac:(constructor) Hl') as Hp. cbn [app] in Hp.
    rewrite E3, Hp, E. rewrite E in Hl. now apply (strip_id c d' z).
Qed.

Lemma strip_described_general : strip text = text.
Proof.
  destruct (any_description_inv d Hd) as (c & d' & z & E & _ & Hc & _).
  destruct (token_last n Hwf) as (y & Hy & Hyd).
  destruct (token_head n Hwf) as (t & tk & Et & _).
  assert (Hlast : exists v, last text = Some v /\ is_space v = false).
  { unfold text. destruct Htail as [-> | (ws2 & cur & -> & Hws2 & Hcur)].
    - exists y. rewrite app_nil_r, !app_assoc, Et, last_app_cons, <- Et.
      split; [exact Hy|].
      destruct (is_space y) eqn:Ey; [|done].
      destruct (space_outside_number y Ey) as (Hn & _). congruence.
    - apply currency_letters_words in Hcur as [Hcur _].
      destruct (currency_word_chars cur Hcur) as [H (c0 & tl & v & Ec & Hlc)].
      exists v. split.
      + rewrite !app_assoc, Ec, last_app_cons, <- Ec. exact Hlc.
      + apply last_Some_elem_of in Hlc. rewrite Forall_forall in H.
        now destruct (H v Hlc). }
  destruct Hlast as (v & Hv & Hvs).
  apply (strip_id_ends _ c v); auto. unfold text. now rewrite E.
Qed.

(** A description, white space, a number and a currency word or none:
    when the suffix pattern does not match, the first pattern decides. *)
Lemma described_general_parse :
  re_search k_pattern text = None ->
  parse_amount text = if feqb (value n) (of_Z 0) then None else Some (value n, d).
Proof.
  intros Hk.
  destruct (any_description_inv d Hd) as (c & d' & z & E & _).
  rewrite parse_amount_unfold, strip_described_general.
  assert (truthy text = true) as -> by (unfold text; now rewrite E).
  unfold k_branch. rewrite Hk. cbn [patterns try_patterns].
  destruct pattern_1_matches as [m Hm].
  destruct (pattern_1_reads m Hm) as (H2 & g1 & H1 & Hg).
  unfold try_pattern at 1. cbn [fst snd]. rewrite Hm, groups_3.
  cbn [length]. unfold grp. cbn [lookup list_lookup]. rewrite H1, H2.
  cbn [default from_option id]. rewrite Hg. now rewrite (amount_of_token n Hwf).
Qed.

(** The suffix pattern cannot match a text that starts with neither a
    digit nor a minus sign. *)
Lemma described_general_no_suffix :
  (forall c d', d = c :: d' -> is_digit c = false /\ c <> 45) ->
  re_search k_pattern text = None.
Proof.
  intros H. destruct (any_description_inv d Hd) as (c & d' & z & E & _).
  destruct (H c d' E) as [H1 H2]. unfold text. rewrite E.
  now apply k_pattern_not_number.
Qed.

End DescribedGeneral.

Section Found.



(** What [parse_amount] returns, from the token that the grammar finds. *)
Lemma found_token_result (text : str) (n : number) :
  truthy (strip text) = true -> well_formed n = true ->
  found_token (strip text) = Some (token n) ->
  exists description,
    strip description = description
    /\ parse_amount text =
       if has_suffix (strip text) then
         let amount := fmul (value n) (of_Z 1000) in
         if fleb amount (of_Z 0) then None else Some (amount, description)
       else if feqb (value n) (of_Z 0) then None else Some (value n, description).
Proof.
  intros Ht Hwf. rewrite parse_amount_unfold, Ht.
  set (s := strip text). unfold found_token, has_suffix, k_branch.
  destruct (re_search k_pattern s) as [m|] eqn:Ek.
  { intros ->. cbn [default from_option id]. rewrite (py_float_token n Hwf).
    exists (strip (default [] (group 2 m))). split; [apply strip_idemp|].
    cbv zeta. now destruct (fleb _ _). }
  cbn [patterns try_patterns].
  destruct (re_search pattern_1 s) as [m|] eqn:E1.
  { intros H2. unfold try_pattern. cbn [fst snd]. rewrite E1, groups_3.
    cbn [length]. unfold grp. cbn [lookup list_lookup]. rewrite H2.
    cbn [default from_option id]. rewrite (amount_of_token n Hwf).
    exists (strip (default [] (group 1 m))). split; [apply strip_idemp|].
    now destruct (feqb _ _). }
  rewrite (try_pattern_none (pattern_1, 3%nat)) by done.
  rewrite pattern_2_continue by done.
  destruct (re_search pattern_3 s) as [m|] eqn:E3; [|done].
  intros H1. unfold try_pattern. cbn [fst snd]. rewrite E3, groups_2.
  cbn [length]. unfold grp. cbn [lookup list_lookup]. rewrite H1.
  cbn [default from_option id].
  destruct (starts_number_token n Hwf) as [m' ->].
  rewrite (amount_of_token n Hwf).
  exists []. split; [done|]. now destruct (feqb _ _).
Qed.



End Found.

Section Contract.



Lemma number_tail_parse (n : number) (tail : str) :
  well_formed n = true -> currency_tail currency_words tail ->
  parse_amount (token n ++ tail) =
  if feqb (value n) (of_Z 0) then None else Some (value n, []).
Proof.
  intros Hwf [-> | (ws & cur & -> & Hws & Hcur)].
  - rewrite app_nil_r. now apply parse_amount_token.
  - now apply number_currency_parse.
Qed.

Lemma suffix_forms_parse (n : number) (kc : char) (ws d : str) :
  well_formed n = true -> kc ∈ k_letters ->
  Forall (fun c => is_space c = true) ws ->
  ws = [] /\ d = [] \/ suffix_description d = true ->
  parse_amount (token n ++ [kc] ++ ws ++ d) =
  let amount := fmul (value n) (of_Z 1000) in
  if fleb amount (of_Z 0) then None else Some (amount, d).
Proof.
  intros Hwf Hkc Hws [[-> ->] | Hd].
  - rewrite !app_nil_r. now apply parse_amount_suffixed.
  - now apply suffix_description_parse.
Qed.

(** C4, amended.  A numeric token with a leading minus sign and a value
    other than zero parses to its negative value, sign preserved, on every
    input in which the grammar finds it and which the pattern of the
    thousand-multiplier suffix does not match; the rejection of such
    amounts is left to [validate_amount].  In particular the number may
    stand alone or after a description, with or without a currency word
    after it.  On an input that the pattern of the suffix matches, the
    parser itself fails for every negative number. *)
Theorem negative_amounts (n : number) :
  well_formed n = true -> negative n = true -> feqb (value n) (of_Z 0) = false ->
  fltb (value n) (of_Z 0) = true
  /\ (forall text : str,
        truthy (strip text) = true -> found_token (strip text) = Some (token n) ->
        if has_suffix (strip text) then parse_amount text = None
        else exists description, parse_amount text = Some (value n, description))
  /\ (forall tail : str,
        currency_tail currency_words tail ->
        parse_amount (token n ++ tail) = Some (value n, []))
  /\ (forall d ws tail : str,
        any_description d = true -> blanks ws = true ->
        currency_tail currency_letters tail ->
        has_suffix (d ++ ws ++ token n ++ tail) = false ->
        parse_amount (d ++ ws ++ token n ++ tail) = Some (value n, d))
  /\ (forall (kc : char) (ws d : str),
        kc ∈ k_letters -> Forall (fun c => is_space c = true) ws ->
        ws = [] /\ d = [] \/ suffix_description d = true ->
        parse_amount (token n ++ [kc] ++ ws ++ d) = None).
Proof.
  intros Hwf Hneg Hnz. pose proof (negative_value_sign n Hneg) as Hsign.
  pose proof (negative_le_zero _ (fmul_1000_sign true _ Hsign)) as Hk.
  split; [now apply negative_nonzero_below_zero|].
  split; [|split; [|split]].
  - intros text Ht Hf.
    destruct (found_token_result text n Ht Hwf Hf) as (description & _ & ->).
    destruct (has_suffix (strip text)).
    + cbv zeta. now rewrite Hk.
    + rewrite Hnz. eauto.
  - intros tail Htail. now rewrite (number_tail_parse n tail Hwf Htail), Hnz.
  - intros d ws tail Hd Hws Htail Hs.
    rewrite (described_general_parse n Hwf d ws tail Hd Hws Htail), Hnz; [done|].
    unfold has_suffix in Hs. now destruct (re_search k_pattern _).
  - intros kc ws d Hkc Hws Hd.
    rewrite (suffix_forms_parse n kc ws d Hwf Hkc Hws Hd). cbv zeta. now rewrite Hk.
Qed.

Lemma negative_amounts_witness :
  fltb (value minus_200) (of_Z 0) = true
  /\ parse_amount (py "-200") = Some (value minus_200, [])
  /\ parse_amount (py "-200 руб") = Some (value minus_200, [])
  /\ parse_amount (py "кофе -200 руб") = Some (value minus_200, py "кофе")
  /\ parse_amount (py "кофе 2 -200") = Some (value minus_200, py "кофе 2")
  /\ parse_amount (py "скидка-купон -200") = Some (value minus_200, py "скидка-купон")
  /\ (exists description, parse_amount (py "кофе -200 РУБ") = Some (value minus_200, description))
  /\ parse_amount (py "-200к") = None
  /\ parse_amount (py "-200 K обед") = None.
Proof.
  destruct (negative_amounts minus_200) as (H0 & HG & HN & HD & HS);
    [vm_compute; reflexivity..|].
  split; [exact H0|].
  split; [apply (HN []); now left|].
  split.
  { apply (HN (py " " ++ py "руб")). right. exists (py " "), (py "руб").
    split; [done|]. split; [vm_compute py; repeat constructor|].
    apply elem_of_cons. now left. }
  split.
  { apply (HD (py "кофе") (py " ") (py " " ++ py "руб")); try (vm_compute; reflexivity).
    right. exists (py " "), (py "руб").
    split; [done|]. split; [vm_compute py; repeat constructor|].
    apply elem_of_cons. now left. }
  split.
  { apply (HD (py "кофе 2") (py " ") []); try (vm_compute; reflexivity). now left. }
  split.
  { apply (HD (py "скидка-купон") (py " ") []); try (vm_compute; reflexivity). now left. }
  split.
  { apply (HG (py "кофе -200 РУБ")); vm_compute; reflexivity. }
  split.
  { apply (HS 1082 [] []); [unfold k_letters; vm_compute py; apply elem_of_cons; now left
                           |constructor|now left]. }
  apply (HS 75 (py " ") (py "обед")).
  - unfold k_letters. vm_compute py. rewrite !elem_of_cons. auto.
  - vm_compute py. repeat constructor.
  - right. vm_compute. reflexivity.
Defined.




End Contract.

(** ** [validate_amount], whatever the text *)

Section ValidateMore.

Lemma not_above_le : forall x y : float,
  is_nan x = false -> is_nan y = false -> fltb y x = false -> fleb x y = true.
Proof. float_cases. Qed.

(** What [validate_amount] accepts. *)
Lemma validate_amount_accepted (amount_str : str) (r : option float)
    (msg : validation_message) :
  validate_amount amount_str = (true, r, msg) ->
  exists a d,
    parse_amount amount_str = Some (a, d) /\ r = Some a /\ msg = msg_ok
    /\ fltb (of_Z 0) a = true /\ fleb a (of_Z 1000000000) = true.
Proof.
  unfold validate_amount. destruct (_ || _); [done|].
  destruct (parse_amount amount_str) as [[a d]|] eqn:Ep; [|done].
  destruct (parse_amount_number _ _ _ Ep) as [Hz Hn].
  destruct (fleb a (of_Z 0)) eqn:Hpos; [done|].
  destruct (fgtb a (of_Z 1000000000)) eqn:Hmax; [done|].
  intros [= <- <-]. exists a, d. repeat split.
  - now apply fleb_total.
  - now apply not_above_le.
Qed.

(** X8.  Whatever the text, [validate_amount] answers in one of two ways:
    with [True], the amount that [parse_amount] found, which is then
    greater than zero and at most 1000000000, and the empty message; or with
    [False], no amount and a message that is not the empty one. *)
Theorem validate_amount_result (amount_str : str) (ok : bool) (r : option float)
    (msg : validation_message) :
  validate_amount amount_str = (ok, r, msg) ->
  if ok then
    exists a d,
      parse_amount amount_str = Some (a, d) /\ r = Some a /\ msg = msg_ok
      /\ fltb (of_Z 0) a = true /\ fleb a (of_Z 1000000000) = true
  else r = None /\ msg <> msg_ok.
Proof.
  destruct ok; [apply validate_amount_accepted|].
  unfold validate_amount. destruct (_ || _).
  { intros [= <- <-]. done. }
  destruct (parse_amount amount_str) as [[a d]|].
  2: { intros [= <- <-]. done. }
  destruct (fleb a (of_Z 0)).
  { intros [= <- <-]. done. }
  destruct (fgtb a (of_Z 1000000000)); [|done].
  intros [= <- <-]. done.
Qed.

Lemma validate_amount_result_witness :
  exists a d,
    parse_amount (py "500") = Some (a, d) /\ Some (of_Z 500) = Some a /\ msg_ok = msg_ok
    /\ fltb (of_Z 0) a = true /\ fleb a (of_Z 1000000000) = true.
Proof.
  apply (validate_amount_result (py "500") true (Some (of_Z 500)) msg_ok).
  vm_compute. reflexivity.
Defined.

(** X9.  [validate_amount] on a numeric token alone: the message is "cannot
    parse" for the value zero, "must be positive" for a negative value, "too
    large" above 1000000000, and the value is accepted otherwise.  With the
    suffix к or k the amount is 1000 times the value, and a product that is
    not greater than zero gets the message "cannot parse", not "must be
    positive". *)
Theorem validate_amount_token (n : number) (kc : char) :
  well_formed n = true -> kc ∈ k_letters ->
  validate_amount (token n) =
    (if feqb (value n) (of_Z 0) then (false, None, msg_cannot_parse)
     else if fleb (value n) (of_Z 0) then (false, None, msg_must_be_positive)
     else if fgtb (value n) (of_Z 1000000000) then (false, None, msg_too_large)
     else (true, Some (value n), msg_ok))
  /\ validate_amount (token n ++ [kc]) =
    (let amount := fmul (value n) (of_Z 1000) in
     if fleb amount (of_Z 0) then (false, None, msg_cannot_parse)
     else if fgtb amount (of_Z 1000000000) then (false, None, msg_too_large)
     else (true, Some amount, msg_ok)).
Proof.
  intros Hwf Hkc. split.
  - unfold validate_amount.
    rewrite (strip_token n Hwf), (token_truthy n Hwf). cbn [negb orb].
    rewrite (parse_amount_token n Hwf). now destruct (feqb _ _).
  - unfold validate_amount.
    rewrite (strip_suffixed n Hwf kc Hkc).
    assert (truthy (token n ++ [kc]) = true) as ->.
    { destruct (token_head n Hwf) as (c & s & -> & _). done. }
    cbn [negb orb]. rewrite (parse_amount_suffixed n Hwf kc Hkc). cbv zeta.
    destruct (fleb _ _) eqn:E; [done|]. now rewrite E.
Qed.

Lemma validate_amount_token_witness :
  validate_amount (token plus_1_5) =
    (if feqb (value plus_1_5) (of_Z 0) then (false, None, msg_cannot_parse)
     else if fleb (value plus_1_5) (of_Z 0) then (false, None, msg_must_be_positive)
     else if fgtb (value plus_1_5) (of_Z 1000000000) then (false, None, msg_too_large)
     else (true, Some (value plus_1_5), msg_ok))
  /\ validate_amount (token plus_1_5 ++ [1082]) =
    (let amount := fmul (value plus_1_5) (of_Z 1000) in
     if fleb amount (of_Z 0) then (false, None, msg_cannot_parse)
     else if fgtb amount (of_Z 1000000000) then (false, None, msg_too_large)
     else (true, Some amount, msg_ok)).
Proof.
  apply (validate_amount_token plus_1_5 1082); [vm_compute; reflexivity|].
  unfold k_letters. vm_compute py. apply elem_of_cons. now left.
Defined.

End ValidateMore.

(** ** The closing line of the budget recommendations *)

Section BudgetMore.
Import Config Budget.

Lemma abs_band : forall x y : float,
  is_nan x = false -> has_sign false y ->
  fleb (SFabs x) y = negb (fltb y x) && negb (fltb x (fneg y)).
Proof.
  unfold fleb, fltb, fneg, SFleb, SFltb, SFabs, SFopp, SFcompare.
  intros [[]|[]| |[] m e] [[]|[]| |[] m' e']; cbn; try done;
    cmp_cases; cbn; intros; subst; try congruence; try lia.
Qed.

Lemma below_band : forall x y : float,
  has_sign false y -> fltb x (fneg y) = true -> fleb (SFabs x) y = false.
Proof.
  intros x y Hy H. destruct x as [s|s| |s m e] eqn:Ex; try (rewrite <- Ex in *).
  1,2,4: rewrite abs_band, H by (subst; done); now rewrite andb_false_r.
  subst. done.
Qed.

(** The lines of [generate_budget_recommendations]. *)
Lemma recommendations_lines (st : stats) :
  generate_budget_recommendations st =
    (if fleb (total_amount st) (of_Z 0) then [NoData]
     else map (fun g => group_recommendation g (group_percentage st g) (ratio g))
              [essentials; wants; savings] ++ [advice st]).
Proof.
  unfold generate_budget_recommendations, advice.
  destruct (fleb _ _); [done|]. cbv zeta.
  destruct (within_band st essentials), (within_band st wants); reflexivity.
Qed.

(** X10.  [generate_budget_recommendations] gives the one line "no data"
    when the total is not greater than zero, and otherwise the three lines
    of the groups and one closing line, which depends on the essentials and
    the wants only.  The closing line asks to cut the essentials also when
    their share is more than 10 points below the norm, after a first line
    that says so. *)
Theorem budget_overall_advice (st : stats) :
  generate_budget_recommendations st =
    (if fleb (total_amount st) (of_Z 0) then [NoData]
     else map (fun g => group_recommendation g (group_percentage st g) (ratio g))
              [essentials; wants; savings] ++ [advice st])
  /\ (fleb (total_amount st) (of_Z 0) = false ->
      fltb (deviation (group_percentage st essentials) (ratio essentials))
           (of_Z (-10)) = true ->
      exists actual ideal d,
        generate_budget_recommendations st !! 0%nat
          = Some (UnderTarget essentials actual ideal d)
        /\ last (generate_budget_recommendations st) = Some ReduceEssentials).
Proof.
  pose proof (recommendations_lines st) as E.
  split; [exact E|]. intros Ht Hd. rewrite E, Ht.
  assert (Hband : within_band st essentials = false).
  { unfold within_band. apply below_band; [done|exact Hd]. }
  eexists _, _, _. split.
  - cbn [map app lookup list_lookup]. unfold group_recommendation. cbv zeta.
    fold (deviation (group_percentage st essentials) (ratio essentials)).
    rewrite Hd.
    destruct (fgtb _ _) eqn:Hg; [|reflexivity].
    exfalso. pose proof (fltb_trans _ _ _ Hg Hd) as F. vm_compute in F. done.
  - rewrite last_snoc. unfold advice. now rewrite Hband.
Qed.

(** X11.  With a total greater than zero and deviations that are numbers,
    the closing line praises the distribution exactly when the lines of the
    essentials and of the wants both say "on target". *)
Theorem budget_advice_coherent (st : stats) :
  fleb (total_amount st) (of_Z 0) = false ->
  is_nan (deviation (group_percentage st essentials) (ratio essentials)) = false ->
  is_nan (deviation (group_percentage st wants) (ratio wants)) = false ->
  (last (generate_budget_recommendations st) = Some GoodDistribution
   <-> is_on_target (group_recommendation essentials
                       (group_percentage st essentials) (ratio essentials)) = true
       /\ is_on_target (group_recommendation wants
                          (group_percentage st wants) (ratio wants)) = true).
Proof.
  intros Ht He Hw.
  rewrite recommendations_lines, Ht, last_snoc.
  assert (Hband : forall g,
            is_nan (deviation (group_percentage st g) (ratio g)) = false ->
            within_band st g =
            is_on_target (group_recommendation g (group_percentage st g) (ratio g))).
  { intros g Hn. unfold within_band, group_recommendation. cbv zeta.
    fold (deviation (group_percentage st g) (ratio g)).
    rewrite abs_band by done. unfold fgtb.
    fold (fltb (of_Z 10) (deviation (group_percentage st g) (ratio g))).
    change (fneg (of_Z 10)) with (of_Z (-10)).
    destruct (fltb (of_Z 10) _), (fltb _ (of_Z (-10))); reflexivity. }
  unfold advice. rewrite !Hband by done.
  destruct (is_on_target _), (is_on_target _); split; try done; intros []; done.
Qed.

Lemma budget_advice_coherent_witness :
  last (generate_budget_recommendations example_stats) = Some GoodDistribution
  <-> is_on_target (group_recommendation essentials
                      (group_percentage example_stats essentials) (ratio essentials)) = true
      /\ is_on_target (group_recommendation wants
                         (group_percentage example_stats wants) (ratio wants)) = true.
Proof.
  apply (budget_advice_coherent example_stats); vm_compute; reflexivity.
Defined.

End BudgetMore.

(** ** A confident prediction *)

Section ClassifierMore.
Import Config Classifier.

(** X12.  With a threshold greater than zero, an answer of
    [predict_with_threshold] that is marked confident carries a category:
    the text is not empty, the pipeline gave a distribution, the category is
    the class at the position of its greatest probability, and the
    confidence is that probability and reaches the threshold.  The fallback
    [(None, 0.0)] of [predict] is never confident.  An answer that is not
    confident carries no category. *)
Theorem predict_with_threshold_confident_category (clf : FinancialClassifier)
    (text : str) (threshold : float) (category : option str) (confidence : float)
    (is_confident : bool) :
  fltb (of_Z 0) threshold = true ->
  predict_with_threshold clf text threshold = Some (category, confidence, is_confident) ->
  if is_confident then
    fgeb confidence threshold = true
    /\ exists c predict_proba proba i,
         category = Some c /\ classes_ clf !! i = Some c
         /\ pipeline clf = Some predict_proba
         /\ predict_proba text = Some proba /\ proba !! i = Some confidence
         /\ np_argmax proba = Some i /\ text <> []
  else category = None /\ fgeb confidence threshold = false.
Proof.
  intros Hthr. unfold predict_with_threshold.
  destruct (predict clf text) as [[cat conf]|] eqn:Ep; [|done].
  cbn [mbind option_bind].
  destruct (fgeb conf threshold) eqn:Hc; intros [= <- <- <-]; [|done].
  split; [done|].
  unfold predict in Ep. destruct (is_trained clf); [|done].
  destruct (pipeline clf) as [predict_proba|]; [|done].
  assert (Hzero : (cat, conf) <> (None, of_Z 0)).
  { intros [= -> ->]. unfold fgeb in Hc. fold (fleb threshold (of_Z 0)) in Hc.
    pose proof (fltb_fleb_trans _ _ _ Hthr Hc) as F. vm_compute in F. done. }
  destruct text as [|x text]; cbn [truthy negb] in Ep.
  { injection Ep as <- <-. done. }
  destruct (predict_proba (x :: text)) as [proba|] eqn:Epr; cbn in Ep.
  2: { injection Ep as <- <-. done. }
  destruct (np_argmax proba) as [i|] eqn:Ei; cbn in Ep.
  2: { injection Ep as <- <-. done. }
  destruct (proba !! i) as [p|] eqn:Epi; cbn in Ep.
  2: { injection Ep as <- <-. done. }
  destruct (classes_ clf !! i) as [c|] eqn:Eci; cbn in Ep.
  2: { injection Ep as <- <-. done. }
  injection Ep as <- <-. exists c, predict_proba, proba, i. repeat split; done.
Qed.

Lemma predict_with_threshold_confident_category_witness :
  fgeb (of_decimal 92 2) CONFIDENCE_THRESHOLD = true
  /\ exists c predict_proba proba i,
       Some (py "Кафе") = Some c /\ classes_ example_classifier !! i = Some c
       /\ pipeline example_classifier = Some predict_proba
       /\ predict_proba (py "кофе") = Some proba /\ proba !! i = Some (of_decimal 92 2)
       /\ np_argmax proba = Some i /\ py "кофе" <> [].
Proof.
  apply (predict_with_threshold_confident_category example_classifier (py "кофе")
           CONFIDENCE_THRESHOLD (Some (py "Кафе")) (of_decimal 92 2) true);
    vm_compute; reflexivity.
Defined.

End ClassifierMore.

(** ** The keyboards of categories *)

Section Keyboard.
Import Bot.

Lemma keyboard_rows_spec (mk : Z -> callback) (n : nat) :
  forall (cats : list (Z * str)) (i : nat) (row : list button),
  (i + length cats = S n)%nat ->
  (cats <> [] -> length row = if Nat.eqb (i mod 2) 0 then 1%nat else 0%nat) ->
  (cats = [] -> row = []) ->
  concat (keyboard_rows mk i n row cats) = row ++ map (button_of mk) cats
  /\ Forall (fun r => (1 <= length r <= 2)%nat) (keyboard_rows mk i n row cats)
  /\ (2 * length (keyboard_rows mk i n row cats) <= length row + length cats + 1)%nat.
Proof.
  induction cats as [|cat cats IH]; intros i row Hn Hrow Hnil.
  - rewrite Hnil by done. split; [done|]. split; [constructor|cbn; lia].
  - cbn [keyboard_rows map]. cbn [length] in Hn.
    specialize (Hrow ltac:(done)).
    pose proof (Nat.div_mod_eq i 2) as Hi.
    pose proof (Nat.mod_upper_bound i 2 ltac:(lia)) as Hi2.
    pose proof (Nat.div_mod_eq (S i) 2) as HSi.
    pose proof (Nat.mod_upper_bound (S i) 2 ltac:(lia)) as HSi2.
    destruct (Nat.eqb (i mod 2) 0) eqn:Ei; cbn [orb].
    + apply Nat.eqb_eq in Ei.
      destruct (IH (S i) []) as (Hc & Hf & Hl); [lia| |done|].
      { intros _. destruct (Nat.eqb (S i mod 2) 0) eqn:E; [|done].
        apply Nat.eqb_eq in E. lia. }
      split; [|split].
      * cbn [concat]. rewrite Hc. cbn [app]. now rewrite <- app_assoc.
      * constructor; [|done]. rewrite length_app. cbn [length]. lia.
      * cbn [length] in Hl |- *. lia.
    + apply Nat.eqb_neq in Ei. destruct (Nat.eqb i n) eqn:En.
      * apply Nat.eqb_eq in En. destruct cats as [|cat' cats]; [|cbn in Hn; lia].
        cbn [keyboard_rows concat map]. split; [|split].
        -- now rewrite app_nil_r.
        -- constructor; [|constructor]. rewrite length_app. cbn [length]. lia.
        -- cbn [length]. lia.
      * apply Nat.eqb_neq in En.
        destruct (IH (S i) (row ++ [(snd cat, mk (fst cat))])) as (Hc & Hf & Hl); [lia| | |].
        { intros _. rewrite length_app. cbn [length].
          destruct (Nat.eqb (S i mod 2) 0) eqn:E; [lia|].
          apply Nat.eqb_neq in E. lia. }
        { intros ->. cbn in Hn. lia. }
        split; [|split; [done|]].
        -- rewrite Hc. now rewrite <- app_assoc.
        -- rewrite length_app in Hl. cbn [length] in Hl |- *. lia.
Qed.

(** X13.  The keyboards of categories of [add_transaction_text],
    [fast_add_start] and [change_category_callback]: one button for every
    category, in the order of the list, in rows of two with at most one row
    of one, and the cancel button in a last row of its own. *)
Theorem category_keyboard_layout (mk : Z -> callback) (cancel : callback)
    (cats : list (Z * str)) :
  exists rows : keyboard,
    category_keyboard mk cancel cats = rows ++ [[(py "❌ Отмена", cancel)]]
    /\ concat rows = map (button_of mk) cats
    /\ Forall (fun r => (1 <= length r <= 2)%nat) rows
    /\ (2 * length rows <= length cats + 1)%nat.
Proof.
  unfold category_keyboard. eexists. split; [reflexivity|].
  destruct (keyboard_rows_spec mk (length cats) cats 1 []) as (Hc & Hf & Hl); auto.
Qed.
End Keyboard.

(** Reads of [user_data] after writes. *)
Ltac lookup_ud :=
  cbn [Bot.set_item Bot.user_data Bot.reply Bot.clear Bot.with_database
       Bot.database Bot.sent];
  repeat first [rewrite lookup_insert_eq | rewrite lookup_insert_ne by done];
  try reflexivity.

(** ** The dialogues *)

Section Flows.
Import Config Classifier Database Bot.

Lemma parsed_truthy (text : str) (a : float) (d : str) :
  parse_amount text = Some (a, d) -> PyFloat.truthy a = true.
Proof.
  intros [H _]%parse_amount_number. unfold PyFloat.truthy.
  change (S754_zero false) with (of_Z 0). now rewrite H.
Qed.

(** X14.  A text whose description the classifier puts in a category with a
    confidence of at least 0.8 and below 0.85 is not stored: the bot asks to
    check the data, with the buttons "yes" and "change the category", the
    dialogue waits in CONFIRM_CATEGORY, the database is as before, and the
    amount, the description, the category, its id and the confidence are
    pending in [user_data]. *)
Theorem add_text_middle_confidence (e : env) (clf : FinancialClassifier)
    (user_id : Z) (user_text : str) (amount : float) (description : str)
    (category : option str) (c : float) (w : world) :
  parse_amount user_text = Some (amount, description) ->
  classifier e = Some clf -> description <> [] ->
  predict clf description = Some (category, c) ->
  fgeb c CONFIDENCE_THRESHOLD = true -> fgeb c HIGH_CONFIDENCE_THRESHOLD = false ->
  exists pending,
    conv_handler e user_id (Some DESCRIPTION) (Message user_text) w =
    Handled (Some CONFIRM_CATEGORY)
      {| user_data := pending;
         database := database w;
         sent :=
           CheckData description amount category c
             [[(py "✅ Да, все верно", confirm_yes)];
              [(py "❌ Нет, изменить категорию", change_category)]] :: sent w |}
    /\ pending !! "amount"%string = Some (VFloat amount)
    /\ pending !! "description"%string = Some (VStr description)
    /\ pending !! "suggested_category"%string = Some (opt_str category)
    /\ pending !! "category_id"%string =
       Some (opt_int (category ≫= get_category_id (database w)))
    /\ pending !! "confidence"%string = Some (VFloat c).
Proof.
  intros Hparse Hclf Hdesc Hpredict Hconf Hhigh.
  assert (Htruthy : PyStr.truthy description = true) by now destruct description.
  cbn [conv_handler]. unfold add_transaction_text. rewrite Hparse.
  unfold classify. cbn [classifier database set_item]. rewrite Hclf, Htruthy.
  unfold predict_with_threshold. rewrite Hpredict. cbn [mbind option_bind].
  rewrite Hconf. cbn [mbind option_bind]. rewrite Hhigh.
  cbn [database set_item user_data sent].
  eexists. unfold run. cbn [reply user_data database sent].
  rewrite lookup_insert_ne by done. rewrite lookup_insert_ne by done.
  rewrite lookup_insert_ne by done. rewrite lookup_insert_ne by done.
  rewrite lookup_insert_eq. cbn [val_truthy].
  split; [reflexivity|].
  repeat split; lookup_ud.
Qed.

Lemma add_text_middle_confidence_witness :
  exists pending,
    conv_handler fair_env 7 (Some DESCRIPTION) (Message (py "кофе 300")) initial_world =
    Handled (Some CONFIRM_CATEGORY)
      {| user_data := pending;
         database := database initial_world;
         sent :=
           CheckData (py "кофе") (of_Z 300) (Some (py "Кафе")) (of_decimal 82 2)
             [[(py "✅ Да, все верно", confirm_yes)];
              [(py "❌ Нет, изменить категорию", change_category)]]
           :: sent initial_world |}
    /\ pending !! "amount"%string = Some (VFloat (of_Z 300))
    /\ pending !! "description"%string = Some (VStr (py "кофе"))
    /\ pending !! "suggested_category"%string = Some (opt_str (Some (py "Кафе")))
    /\ pending !! "category_id"%string =
       Some (opt_int (Some (py "Кафе") ≫= get_category_id (database initial_world)))
    /\ pending !! "confidence"%string = Some (VFloat (of_decimal 82 2)).
Proof.
  apply (add_text_middle_confidence fair_env fair_classifier 7 (py "кофе 300")
           (of_Z 300) (py "кофе") (Some (py "Кафе")) (of_decimal 82 2) initial_world);
    try (vm_compute; reflexivity).
  vm_compute. discriminate.
Defined.

End Flows.

Section Commits.
Import Config Classifier Database Bot.

Lemma text_without_classifier (e : env) (user_id : Z) (user_text : str)
    (amount : float) (description : str) (w : world) :
  parse_amount user_text = Some (amount, description) ->
  classifier e = None ->
  exists m,
    add_transaction_text e user_id user_text w =
    (Next CONFIRM_CATEGORY,
     reply m
       (set_item "category_id" (opt_int (get_category_id (database w) (py "Другое")))
          (set_item "suggested_category" (VStr (py "Другое"))
             (set_item "description" (VStr description)
                (set_item "amount" (VFloat amount) w))))).
Proof.
  intros Hp Hc. unfold add_transaction_text. rewrite Hp.
  unfold classify. cbn [classifier database set_item]. rewrite Hc.
  cbn [opt_str]. destruct (val_truthy _); eexists; reflexivity.
Qed.

(** X15.  The manual path, from the text to the row.  Without a
    classifier, a text that parses, the button of a listed category and the
    confirmation end the dialogue with [user_data] empty and exactly one new
    row: the parsed amount, the parsed description and the chosen category,
    for the user, at the time of the confirmation, when the INSERT goes
    through. *)
Theorem manual_path_commit (e1 e2 e3 : env) (user_id : Z) (user_text : str)
    (amount : float) (description : str) (id : Z) (name : str) (w : world) :
  parse_amount user_text = Some (amount, description) ->
  classifier e1 = None ->
  category_name_of (database w) id = Some name -> name <> [] -> id <> 0 ->
  storage_ok e3 = true ->
  exists w',
    converse conv_handler user_id
      [(e1, Message user_text); (e2, CallbackQuery (select_cat id));
       (e3, CallbackQuery confirm_yes)] (Some DESCRIPTION) w = (None, w')
    /\ user_data w' = ∅
    /\ database w' =
       with_transaction (database w) (now e3) user_id amount (Some description) (Some id).
Proof.
  intros Hp Hc Hname Hne Hid Hok.
  destruct (text_without_classifier e1 user_id user_text amount description w Hp Hc)
    as (m & E1).
  cbn [converse conv_handler]. rewrite E1. cbn [run].
  unfold category_selection_callback. cbn [database reply set_item].
  rewrite Hname.
  assert (PyStr.truthy name = true) as -> by now destruct name.
  lookup_ud. cbn [run].
  unfold confirm_category_callback. lookup_ud.
  cbn [val_truthy]. rewrite (parsed_truthy _ _ _ Hp).
  assert (negb (id =? 0) = true) as -> by (apply negb_true_iff; lia).
  cbn [andb]. unfold insert_transaction. rewrite Hok.
  eexists. split; [reflexivity|]. split; reflexivity.
Qed.

Lemma manual_path_commit_witness :
  exists w',
    converse conv_handler 7
      [(manual_env, Message (py "кофе 300")); (manual_env, CallbackQuery (select_cat 1));
       (manual_env, CallbackQuery confirm_yes)] (Some DESCRIPTION) initial_world
    = (None, w')
    /\ user_data w' = ∅
    /\ database w' =
       with_transaction (database initial_world) (now manual_env) 7 (of_Z 300)
         (Some (py "кофе")) (Some 1).
Proof.
  apply (manual_path_commit manual_env manual_env manual_env 7 (py "кофе 300")
           (of_Z 300) (py "кофе") 1 (py "Еда") initial_world);
    try (vm_compute; reflexivity); [vm_compute; discriminate | lia].
Defined.

(** X16.  The fast path, from the button to the row.  The button of a
    listed category and a text that [validate_amount] accepts end the
    dialogue with [user_data] empty and exactly one new row: the validated
    amount, no description and the chosen category, when the INSERT goes
    through.  The stored amount is greater than zero and at most
    1000000000. *)
Theorem fast_path_commit (e1 e2 : env) (user_id : Z) (user_text : str)
    (amount : float) (msg : validation_message) (id : Z) (name : str) (w : world) :
  validate_amount user_text = (true, Some amount, msg) ->
  category_name_of (database w) id = Some name -> name <> [] -> id <> 0 ->
  storage_ok e2 = true ->
  exists w',
    converse fast_conv_handler user_id
      [(e1, CallbackQuery (fast_cat id)); (e2, Message user_text)]
      (Some FAST_CATEGORY) w = (None, w')
    /\ user_data w' = ∅
    /\ database w' =
       with_transaction (database w) (now e2) user_id amount None (Some id)
    /\ fltb (of_Z 0) amount = true /\ fleb amount (of_Z 1000000000) = true.
Proof.
  intros Hv Hname Hne Hid Hok.
  pose proof (validate_amount_accepted _ _ _ Hv) as (a & d & _ & [= <-] & _ & H0 & H1).
  cbn [converse fast_conv_handler]. unfold fast_category_callback.
  rewrite Hname.
  assert (PyStr.truthy name = true) as -> by now destruct name.
  cbn [run]. unfold fast_amount_input. rewrite Hv. lookup_ud.
  cbn [val_truthy].
  assert (negb (id =? 0) = true) as -> by (apply negb_true_iff; lia).
  unfold insert_transaction. rewrite Hok.
  eexists. split; [reflexivity|]. repeat split; done.
Qed.

Lemma fast_path_commit_witness :
  exists w',
    converse fast_conv_handler 7
      [(manual_env, CallbackQuery (fast_cat 1)); (manual_env, Message (py "500"))]
      (Some FAST_CATEGORY) initial_world = (None, w')
    /\ user_data w' = ∅
    /\ database w' =
       with_transaction (database initial_world) (now manual_env) 7 (of_Z 500) None
         (Some 1)
    /\ fltb (of_Z 0) (of_Z 500) = true /\ fleb (of_Z 500) (of_Z 1000000000) = true.
Proof.
  apply (fast_path_commit manual_env manual_env 7 (py "500") (of_Z 500) msg_ok 1
           (py "Еда") initial_world);
    try (vm_compute; reflexivity); [vm_compute; discriminate | lia].
Defined.

(** X17.  The confirmation button always ends the dialogue and empties
    [user_data].  It leaves the database as it was, or adds exactly the
    pending amount, which is not zero, under the pending category, whose id
    is not zero; when the amount or the category is missing it stores
    nothing and reports that the data were lost. *)
Theorem confirm_yes_writes (e : env) (user_id : Z) (w : world) :
  exists w',
    confirm_category_callback e user_id confirm_yes w = (Next END, w')
    /\ user_data w' = ∅
    /\ (database w' = database w
        \/ exists a c,
             user_data w !! "amount"%string = Some (VFloat a)
             /\ user_data w !! "category_id"%string = Some (VInt c)
             /\ PyFloat.truthy a = true /\ c <> 0 /\ storage_ok e = true
             /\ database w' =
                with_transaction (database w) (now e) user_id a
                  (description_of (user_data w !! "description"%string)) (Some c))
    /\ (user_data w !! "amount"%string = None \/
        user_data w !! "category_id"%string = None ->
        database w' = database w /\ head (sent w') = Some DataLost).
Proof.
  unfold confirm_category_callback.
  destruct (user_data w !! "amount"%string) as [[| | |a|]|] eqn:Ea;
    try (eexists; split; [reflexivity|]; split; [reflexivity|];
         split; [now left|]; intros [|]; [done|]; split; reflexivity).
  destruct (user_data w !! "category_id"%string) as [[| |c| |]|] eqn:Ec;
    try (eexists; split; [reflexivity|]; split; [reflexivity|];
         split; [now left|]; intros [|]; [done|]; split; reflexivity).
  cbn [val_truthy].
  destruct (PyFloat.truthy a) eqn:Ha; cbn [andb].
  2: { eexists. split; [reflexivity|]. split; [reflexivity|].
       split; [now left|]. intros [|]; done. }
  destruct (negb (c =? 0)) eqn:Hc.
  2: { eexists. split; [reflexivity|]. split; [reflexivity|].
       split; [now left|]. intros [|]; done. }
  apply negb_true_iff in Hc. unfold insert_transaction.
  destruct (storage_ok e) eqn:Hok.
  - eexists. split; [reflexivity|]. split; [reflexivity|]. split.
    + right. exists a, c. repeat split; try done. lia.
    + intros [|]; done.
  - eexists. split; [reflexivity|]. split; [reflexivity|].
    split; [now left|]. intros [|]; done.
Qed.

(** X18.  The two dialogues share [user_data].  With a text dialogue
    waiting for its confirmation and a fast dialogue waiting for its amount,
    a valid amount goes to the fast dialogue, whose commit clears the pending
    data of both; the confirmation of the text dialogue that follows stores
    nothing and reports that the data were lost. *)
Theorem fast_commit_discards_pending_add (e1 e2 : env) (user_id : Z)
    (user_text : str) (amount : float) (msg : validation_message) (c : Z)
    (w : world) :
  validate_amount user_text = (true, Some amount, msg) ->
  user_data w !! "fast_category_id"%string = Some (VInt c) -> c <> 0 ->
  exists w',
    serve user_id
      [(e1, Message user_text); (e2, CallbackQuery confirm_yes)]
      {| add_conversation := Some CONFIRM_CATEGORY;
         fast_conversation := Some FAST_AMOUNT |} w
    = Some (no_conversation, w')
    /\ user_data w' = ∅
    /\ head (sent w') = Some DataLost
    /\ database w' =
       snd (insert_transaction (storage_ok e1) (now e1) (database w) user_id
              amount None (Some c)).
Proof.
  intros Hv Hc Hc0.
  cbn [serve application conv_handler fast_conv_handler add_conversation
       fast_conversation].
  unfold fast_amount_input. rewrite Hv, Hc. cbn [val_truthy].
  assert (negb (c =? 0) = true) as -> by (apply negb_true_iff; lia).
  destruct (insert_transaction _ _ _ _ _ _ _) as [[tid|] d] eqn:Ei;
    cbn [run mbind option_bind];
    cbn [serve application conv_handler fast_conv_handler add_conversation
         fast_conversation run mbind option_bind];
    unfold confirm_category_callback; lookup_ud;
    rewrite lookup_empty; cbn [run mbind option_bind];
    eexists; (split; [reflexivity|]); repeat split.
Qed.

Lemma fast_commit_discards_pending_add_witness :
  exists w',
    serve 7
      [(manual_env, Message (py "500")); (manual_env, CallbackQuery confirm_yes)]
      {| add_conversation := Some CONFIRM_CATEGORY;
         fast_conversation := Some FAST_AMOUNT |} both_pending
    = Some (no_conversation, w')
    /\ user_data w' = ∅
    /\ head (sent w') = Some DataLost
    /\ database w' =
       snd (insert_transaction (storage_ok manual_env) (now manual_env)
              (database both_pending) 7 (of_Z 500) None (Some 1)).
Proof.
  apply (fast_commit_discards_pending_add manual_env manual_env 7 (py "500")
           (of_Z 500) msg_ok 1 both_pending);
    [vm_compute; reflexivity | vm_compute; reflexivity | lia].
Defined.

End Commits.

(** ** The categories behind the buttons *)

Section Categories.
Import Config Classifier Database Bot.

Lemma insert_by_name_perm (c : Z * str) (l : list (Z * str)) :
  insert_by_name c l ≡ₚ c :: l.
Proof.
  induction l as [|c' l IH]; cbn [insert_by_name]; [done|].
  destruct (str_leb (snd c) (snd c')); [done|].
  rewrite IH. apply Permutation_swap.
Qed.

Lemma get_all_categories_perm (d : db) : get_all_categories d ≡ₚ categories d.
Proof.
  unfold get_all_categories. induction (categories d) as [|c l IH]; [done|].
  cbn [foldr]. now rewrite insert_by_name_perm, IH.
Qed.

Lemma find_by_id (l : list (Z * str)) (id : Z) (name : str) :
  NoDup (l.*1) -> (id, name) ∈ l ->
  find (fun cat => fst cat =? id) l = Some (id, name).
Proof.
  induction l as [|[i m] l IH]; intros Hnd Hin; [now apply elem_of_nil in Hin|].
  cbn [fmap list_fmap fst] in Hnd. apply NoDup_cons in Hnd as [Hi Hnd].
  cbn [find fst]. apply elem_of_cons in Hin as [[= <- <-]|Hin].
  - now rewrite Z.eqb_refl.
  - destruct (i =? id) eqn:E; [|now apply IH].
    apply Z.eqb_eq in E. subst i. exfalso. apply Hi.
    apply (list_elem_of_fmap_2 fst) in Hin. exact Hin.
Qed.

Lemma category_name_of_listed (d : db) (id : Z) (name : str) :
  NoDup ((categories d).*1) -> (id, name) ∈ get_all_categories d ->
  category_name_of d id = Some name.
Proof.
  intros Hnd Hin. unfold category_name_of.
  rewrite (find_by_id _ id name); [done| |done].
  now rewrite get_all_categories_perm.
Qed.

(** X19.  Every button of a keyboard of categories finds its category
    again.  With unique ids in the table, for a category that
    [get_all_categories] lists under a name that is not empty: the button
    "fast_cat_<id>" stores this id and this name for the fast dialogue,
    whatever is pending; the button "select_cat_<id>" stores them for the
    confirmation when an amount is pending, and without a pending amount
    its handler is left by an exception before it replies.  None of them
    touches the database. *)
Theorem category_button_resolves (w : world) (id : Z) (name : str) :
  NoDup ((categories (database w)).*1) ->
  (id, name) ∈ get_all_categories (database w) -> name <> [] ->
  (exists w',
     fast_category_callback (fast_cat id) w = (Next FAST_AMOUNT, w')
     /\ user_data w' !! "fast_category_id"%string = Some (VInt id)
     /\ user_data w' !! "fast_category_name"%string = Some (VStr name)
     /\ database w' = database w)
  /\ (forall amount, user_data w !! "amount"%string = Some amount ->
      exists w',
        category_selection_callback (select_cat id) w = (Next CONFIRM_CATEGORY, w')
        /\ user_data w' !! "category_id"%string = Some (VInt id)
        /\ user_data w' !! "suggested_category"%string = Some (VStr name)
        /\ database w' = database w)
  /\ (user_data w !! "amount"%string = None ->
      exists w',
        category_selection_callback (select_cat id) w = (Exception, w')
        /\ sent w' = sent w
        /\ database w' = database w).
Proof.
  intros Hnd Hin Hne.
  pose proof (category_name_of_listed _ _ _ Hnd Hin) as Hname.
  assert (Ht : PyStr.truthy name = true) by now destruct name.
  split; [|split].
  - unfold fast_category_callback. rewrite Hname, Ht.
    eexists. split; [reflexivity|]. repeat split; lookup_ud.
  - intros amount Ha.
    unfold category_selection_callback. rewrite Hname, Ht. lookup_ud. rewrite Ha.
    eexists. split; [reflexivity|]. repeat split; lookup_ud.
  - intros Ha.
    unfold category_selection_callback. rewrite Hname, Ht. lookup_ud. rewrite Ha.
    eexists. split; [reflexivity|]. split; reflexivity.
Qed.

Lemma category_button_resolves_witness :
  (exists w',
     fast_category_callback (fast_cat 1) initial_world = (Next FAST_AMOUNT, w')
     /\ user_data w' !! "fast_category_id"%string = Some (VInt 1)
     /\ user_data w' !! "fast_category_name"%string = Some (VStr (py "Еда"))
     /\ database w' = init_db)
  /\ (exists w',
        category_selection_callback (select_cat 1) amount_pending
          = (Next CONFIRM_CATEGORY, w')
        /\ user_data w' !! "category_id"%string = Some (VInt 1)
        /\ user_data w' !! "suggested_category"%string = Some (VStr (py "Еда"))
        /\ database w' = init_db)
  /\ (exists w',
        category_selection_callback (select_cat 1) initial_world = (Exception, w')
        /\ sent w' = []
        /\ database w' = init_db).
Proof.
  assert (Hnd : NoDup ((categories init_db).*1))
    by (apply (bool_decide_unpack _); vm_compute; exact I).
  assert (Hin : (1, py "Еда") ∈ get_all_categories init_db)
    by (apply (bool_decide_unpack _); vm_compute; exact I).
  assert (Hne : py "Еда" <> []) by (vm_compute; discriminate).
  split; [|split].
  - exact (proj1 (category_button_resolves initial_world 1 (py "Еда") Hnd Hin Hne)).
  - exact (proj1 (proj2 (category_button_resolves amount_pending 1 (py "Еда")
                           Hnd Hin Hne))
             (VFloat (of_Z 300)) eq_refl).
  - exact (proj2 (proj2 (category_button_resolves initial_world 1 (py "Еда")
                           Hnd Hin Hne)) eq_refl).
Defined.

(** X20.  The flag "is_auto_category" outlives its text.  A bare number
    has no description, so the classifier is not asked and the flag is not
    written; when an earlier text of the same user has left it set, the bot
    asks to confirm the category "Другое" with the confidence 0, instead of
    showing the list of categories. *)
Theorem stale_auto_category (e : env) (user_id : Z) (n : number) (w : world) :
  well_formed n = true -> feqb (value n) (of_Z 0) = false ->
  val_truthy (user_data w !! "is_auto_category"%string) = true ->
  exists pending,
    conv_handler e user_id (Some DESCRIPTION) (Message (token n)) w =
    Handled (Some CONFIRM_CATEGORY)
      {| user_data := pending;
         database := database w;
         sent :=
           CheckData [] (value n) (Some (py "Другое")) (of_Z 0)
             [[(py "✅ Да, все верно", confirm_yes)];
              [(py "❌ Нет, изменить категорию", change_category)]] :: sent w |}
    /\ pending !! "amount"%string = Some (VFloat (value n))
    /\ pending !! "category_id"%string =
       Some (opt_int (get_category_id (database w) (py "Другое"))).
Proof.
  intros Hwf Hnz Hstale.
  cbn [conv_handler]. unfold add_transaction_text.
  rewrite (parse_amount_token n Hwf), Hnz.
  unfold classify. cbn [classifier database set_item PyStr.truthy].
  destruct (classifier e); cbn [opt_str]; lookup_ud; rewrite Hstale;
    (eexists; split; [reflexivity|]; split; lookup_ud).
Qed.

Lemma stale_auto_category_witness :
  exists pending,
    conv_handler manual_env 7 (Some DESCRIPTION) (Message (token plus_1_5))
      after_suggestion =
    Handled (Some CONFIRM_CATEGORY)
      {| user_data := pending;
         database := database after_suggestion;
         sent :=
           CheckData [] (value plus_1_5) (Some (py "Другое")) (of_Z 0)
             [[(py "✅ Да, все верно", confirm_yes)];
              [(py "❌ Нет, изменить категорию", change_category)]]
           :: sent after_suggestion |}
    /\ pending !! "amount"%string = Some (VFloat (value plus_1_5))
    /\ pending !! "category_id"%string =
       Some (opt_int (get_category_id (database after_suggestion) (py "Другое"))).
Proof.
  apply (stale_auto_category manual_env 7 plus_1_5 after_suggestion);
    vm_compute; reflexivity.
Defined.

End Categories.

(** ** The dates of [get_period_statistics] *)

Section Periods.
Import Database.

Lemma period_statistics_dates
    (select : query -> Z -> Z -> Z -> option (list row))
    (month_start year_start : Z -> Z) (now user_id : Z) (period : str)
    (s : statistics) :
  get_period_statistics select month_start year_start now user_id period
    = statistics_of s ->
  start_date s = period_start month_start year_start period now
  /\ end_date s = now
  /\ days_in_period s = (now - start_date s) `div` day_us + 1.
Proof.
  unfold get_period_statistics.
  destruct (select q_overall _ _ _) as [r1|]; [|done].
  destruct (select q_by_category _ _ _) as [r2|]; [|now destruct r1].
  destruct (select q_most_expensive _ _ _) as [r3|]; [|now destruct r1].
  destruct (select q_most_frequent _ _ _) as [r4|]; [|now destruct r1].
  destruct r1; cbn; intros [= <-]; cbn; auto.
Qed.

(** X21.  The dates of [get_period_statistics].  The period ends now.  For
    "day" it starts at midnight and counts one day.  For "week" it starts at
    the midnight of a Monday at most seven days back, and counts as many
    days as have begun since, the weekday of today plus one.  A period
    other than "day", "week", "month" and "year" starts on 2000-01-01. *)
Theorem period_statistics_days
    (select : query -> Z -> Z -> Z -> option (list row))
    (month_start year_start : Z -> Z) (now user_id : Z) (period : str)
    (s : statistics) :
  get_period_statistics select month_start year_start now user_id period
    = statistics_of s ->
  end_date s = now
  /\ (period = py "day" ->
      start_date s = midnight now /\ start_date s <= now
      /\ days_in_period s = 1)
  /\ (period = py "week" ->
      weekday (start_date s) = 0 /\ start_date s = midnight (start_date s)
      /\ start_date s <= now < start_date s + 7 * day_us
      /\ days_in_period s = weekday now + 1)
  /\ (period <> py "day" -> period <> py "week" -> period <> py "month" ->
      period <> py "year" -> start_date s = 730119 * day_us).
Proof.
  intros (Hs & He & Hd)%period_statistics_dates.
  split; [done|]. rewrite Hd, Hs. unfold period_start, str_eqb.
  split; [|split].
  - intros ->. rewrite bool_decide_eq_true_2 by done.
    unfold midnight, day_us. repeat split; Z.div_mod_to_equations; lia.
  - intros ->. rewrite bool_decide_eq_false_2 by (vm_compute; congruence).
    rewrite bool_decide_eq_true_2 by done.
    unfold midnight, weekday, day_us. repeat split; Z.div_mod_to_equations; lia.
  - intros H1 H2 H3 H4. now rewrite !bool_decide_eq_false_2 by done.
Qed.

Lemma period_statistics_days_witness :
  exists s,
    get_period_statistics one_row_select (fun t => t) (fun t => t) a_saturday 7
      (py "week") = statistics_of s
    /\ end_date s = a_saturday
    /\ (py "week" = py "day" ->
        start_date s = midnight a_saturday /\ start_date s <= a_saturday
        /\ days_in_period s = 1)
    /\ (py "week" = py "week" ->
        weekday (start_date s) = 0 /\ start_date s = midnight (start_date s)
        /\ start_date s <= a_saturday < start_date s + 7 * day_us
        /\ days_in_period s = weekday a_saturday + 1)
    /\ (py "week" <> py "day" -> py "week" <> py "week" -> py "week" <> py "month" ->
        py "week" <> py "year" -> start_date s = 730119 * day_us).
Proof.
  eexists. split; [vm_compute; reflexivity|].
  apply (period_statistics_days one_row_select (fun t => t) (fun t => t) a_saturday 7
           (py "week")).
  vm_compute. reflexivity.
Defined.

End Periods.

(** ** The commands *)

Section Commands.
Import Config Classifier Database Bot.

Ltac crack_string st :=
  repeat match goal with
  | |- context [match ?n with EmptyString => _ | String _ _ => _ end] =>
    is_var n;
    destruct n as [|[[] [] [] [] [] [] [] []] ?];
    try (destruct st; reflexivity)
  end.

Lemma conv_handler_command e user_id st name w :
  conv_handler e user_id st (Command name) w =
  if String.eqb name "add" then run (add_transaction_start w)
  else match st with
       | None => NotHandled
       | Some _ => if String.eqb name "cancel" then run (cancel_add w) else NotHandled
       end.
Proof.
  unfold conv_handler. crack_string st.
Qed.

Lemma fast_conv_handler_command e user_id st name w :
  fast_conv_handler e user_id st (Command name) w =
  if String.eqb name "fast" then run (fast_add_start w)
  else match st with
       | None => NotHandled
       | Some _ =>
         if String.eqb name "cancel" then run (cancel_fast_add w) else NotHandled
       end.
Proof.
  unfold fast_conv_handler. crack_string st.
Qed.

End Commands.

(** ** What the handlers do to the database *)

Section Appends.
Import Config Classifier Database Bot.














End Appends.

Section CommandsKeep.
Import Config Classifier Database Bot.

(** X23.  No command that the dialogues see touches the pending data or
    the database.  "/cancel" in particular goes to the plain handler that
    [main] registers before the dialogues: it answers that the operation is
    cancelled, and leaves both dialogues in their states and [user_data] as
    it was. *)
Theorem command_keeps_pending_state (e : env) (user_id : Z) (c : conversations)
    (name : string) (w : world) (c' : conversations) (w' : world) :
  application e user_id c (Command name) w = Some (c', w') ->
  user_data w' = user_data w /\ database w' = database w
  /\ (name = "cancel"%string -> c' = c /\ sent w' = OperationCancelled :: sent w).
Proof.
  unfold application. destruct (String.eqb name "cancel") eqn:Ec.
  { intros [= <- <-]. repeat split; reflexivity. }
  destruct (bool_decide _); [done|].
  assert (Hne : name <> "cancel"%string).
  { intros ->. now rewrite String.eqb_refl in Ec. }
  rewrite conv_handler_command, fast_conv_handler_command, Ec.
  destruct (String.eqb name "add").
  { intros [= <- <-]. repeat split; done. }
  assert ((match add_conversation c with
           | Some _ | _ => NotHandled
           end) = NotHandled) as -> by now destruct (add_conversation c).
  destruct (String.eqb name "fast").
  { unfold fast_add_start. destruct (get_all_categories _);
      intros [= <- <-]; repeat split; done. }
  assert ((match fast_conversation c with
           | Some _ | _ => NotHandled
           end) = NotHandled) as -> by now destruct (fast_conversation c).
  intros [= <- <-]. repeat split; done.
Qed.

Lemma command_keeps_pending_state_witness :
  exists c' w',
    application manual_env 7
      {| add_conversation := Some CONFIRM_CATEGORY; fast_conversation := None |}
      (Command "cancel") amount_pending = Some (c', w')
    /\ user_data w' = user_data amount_pending
    /\ database w' = database amount_pending
    /\ ("cancel"%string = "cancel"%string ->
        c' = {| add_conversation := Some CONFIRM_CATEGORY; fast_conversation := None |}
        /\ sent w' = OperationCancelled :: sent amount_pending).
Proof.
  eexists _, _. split; [reflexivity|].
  apply (command_keeps_pending_state manual_env 7
           {| add_conversation := Some CONFIRM_CATEGORY; fast_conversation := None |}
           "cancel" amount_pending).
  reflexivity.
Defined.

Lemma find_elem {A} (f : A -> bool) (l : list A) (x : A) :
  find f l = Some x -> x ∈ l /\ f x = true.
Proof.
  induction l as [|y l IH]; [done|]. cbn [find].
  destruct (f y) eqn:E.
  - intros [= <-]. split; [apply elem_of_cons; now left|done].
  - intros [H1 H2]%IH. split; [apply elem_of_cons; now right|done].
Qed.

(** X24.  [get_category_id] and [get_all_categories] agree: the id that
    the first finds for a name is listed with this name by the second, and,
    names being unique as the table declares, a listed category is found
    under its name with its id. *)
Theorem category_lookup_agrees (d : db) (name : str) (id : Z) :
  (get_category_id d name = Some id -> (id, name) ∈ get_all_categories d)
  /\ (NoDup ((categories d).*2) -> (id, name) ∈ get_all_categories d ->
      get_category_id d name = Some id).
Proof.
  unfold get_category_id, str_eqb. split.
  - intros H. rewrite get_all_categories_perm.
    destruct (find _ _) as [[i m]|] eqn:E; [|done]. injection H as ->.
    apply find_elem in E as [Hin Hb]. cbn in Hb.
    apply bool_decide_eq_true in Hb. now subst m.
  - intros Hnd Hin. rewrite get_all_categories_perm in Hin.
    induction (categories d) as [|[i m] l IH]; [now apply elem_of_nil in Hin|].
    cbn [fmap list_fmap snd] in Hnd. apply NoDup_cons in Hnd as [Hi Hnd].
    cbn [find snd]. apply elem_of_cons in Hin as [[= <- <-]|Hin].
    + now rewrite bool_decide_eq_true_2.
    + destruct (bool_decide (m = name)) eqn:E; [|now apply IH].
      apply bool_decide_eq_true in E. subst m. exfalso. apply Hi.
      apply (list_elem_of_fmap_2 snd) in Hin. exact Hin.
Qed.

End CommandsKeep.

(** ** The budgets *)

Section AccountsFacts.
Import Accounts.

Lemma find_filter_other {A} (f g : A -> bool) (l : list A) :
  (forall x, f x = true -> g x = true) ->
  find f (List.filter g l) = find f l.
Proof.
  intros H. induction l as [|x l IH]; [done|]. cbn [List.filter find].
  destruct (g x) eqn:Eg; cbn [find].
  - destruct (f x); [done|exact IH].
  - destruct (f x) eqn:Ef; [|exact IH]. apply H in Ef. congruence.
Qed.

Lemma find_filter_none {A} (f g : A -> bool) (l : list A) :
  (forall x, f x = true -> g x = false) -> find f (List.filter g l) = None.
Proof.
  intros H. induction l as [|x l IH]; [done|]. cbn [List.filter].
  destruct (g x) eqn:Eg; [|exact IH]. cbn [find].
  destruct (f x) eqn:Ef; [|exact IH]. apply H in Ef. congruence.
Qed.

Lemma same_key_spec u c p b : same_key u c p b = true <-> key b = (u, c, p).
Proof.
  unfold same_key, key, str_eqb.
  rewrite !andb_true_iff, !Z.eqb_eq, bool_decide_eq_true.
  split; [intros [[-> ->] ->]; done|intros [= -> -> ->]; done].
Qed.

(** X25.  [set_budget] replaces: after it the table holds exactly one
    budget for the user, the category and the period, with the new limit,
    however many times it was set before, and the budgets under the other
    keys are as they were. *)
Theorem set_budget_replaces (t : tables) (user_id category_id : Z)
    (amount_limit : float) (period : str) :
  let r := set_budget true t user_id category_id amount_limit period in
  fst r = true
  /\ budget_limit (snd r) user_id category_id period = Some amount_limit
  /\ length (List.filter (same_key user_id category_id period) (budgets (snd r))) = 1%nat
  /\ (forall u c p, (u, c, p) <> (user_id, category_id, period) ->
      budget_limit (snd r) u c p = budget_limit t u c p).
Proof.
  cbv zeta. unfold set_budget, budget_limit. cbn [fst snd budgets].
  assert (Hself : same_key user_id category_id period
            {| b_id := last_budget_id t + 1; b_user_id := user_id;
               b_category_id := category_id; b_amount_limit := amount_limit;
               b_period := period |} = true).
  { now apply same_key_spec. }
  split; [done|]. split; [|split].
  - cbn [find]. now rewrite Hself.
  - cbn [List.filter]. rewrite Hself. cbn [length]. f_equal.
    induction (budgets t) as [|b l IH]; [done|]. cbn [List.filter].
    destruct (same_key user_id category_id period b) eqn:E; cbn [negb]; [exact IH|].
    cbn [List.filter]. now rewrite E.
  - intros u c p Hne. cbn [find].
    destruct (same_key u c p _) eqn:E.
    + apply same_key_spec in E. unfold key in E. cbn in E. congruence.
    + f_equal. apply find_filter_other. intros b Hb.
      apply negb_true_iff. destruct (same_key user_id category_id period b) eqn:E'; [|done].
      apply same_key_spec in Hb, E'. congruence.
Qed.

(** X26.  [delete_budget] answers [True] exactly when the user had a budget
    for the category, in whatever period.  After it no budget of the user
    for the category is left in any period, the budgets of other users and
    categories are as they were, and the answer [False] means that the table
    has not changed. *)
Theorem delete_budget_removes (t : tables) (user_id category_id : Z) :
  let r := delete_budget true t user_id category_id in
  (fst r = true <->
   exists b, b ∈ budgets t /\ b_user_id b = user_id /\ b_category_id b = category_id)
  /\ (forall p, budget_limit (snd r) user_id category_id p = None)
  /\ (forall u c p, (u, c) <> (user_id, category_id) ->
      budget_limit (snd r) u c p = budget_limit t u c p)
  /\ (fst r = false -> snd r = t).
Proof.
  cbv zeta. unfold delete_budget, budget_limit. cbn [fst snd budgets].
  set (g := fun b => negb ((b_user_id b =? user_id) && (b_category_id b =? category_id))).
  assert (Hlen : forall l : list budget,
            (length (List.filter g l) <= length l)%nat
            /\ ((length (List.filter g l) < length l)%nat <->
                exists b, b ∈ l /\ b_user_id b = user_id /\ b_category_id b = category_id)
            /\ (length (List.filter g l) = length l -> List.filter g l = l)).
  { induction l as [|b l (IH1 & IH2 & IH3)]; cbn [List.filter length].
    - split; [lia|]. split; [|done]. split; [lia|]. intros (b & Hb & _).
      now apply elem_of_nil in Hb.
    - destruct (g b) eqn:Eg; cbn [length].
      + split; [lia|]. split; [|intros H; f_equal; apply IH3; lia].
        rewrite <- Nat.succ_lt_mono, IH2. split.
        * intros (b' & Hb' & H). exists b'. split; [apply elem_of_cons; now right|done].
        * intros (b' & [->|Hb']%elem_of_cons & H1 & H2); [|eauto].
          unfold g in Eg. apply negb_true_iff, andb_false_iff in Eg.
          rewrite !Z.eqb_neq in Eg. tauto.
      + split; [lia|]. split; [|lia]. split; [|lia]. intros _.
        exists b. split; [apply elem_of_cons; now left|].
        unfold g in Eg. apply negb_false_iff, andb_true_iff in Eg.
        now rewrite !Z.eqb_eq in Eg. }
  destruct (Hlen (budgets t)) as (H1 & H2 & H3).
  split; [|split; [|split]].
  - rewrite <- H2. rewrite Z.ltb_lt. lia.
  - intros p. rewrite find_filter_none; [done|]. intros b Hb.
    apply same_key_spec in Hb. unfold key in Hb. injection Hb as Hu Hc _.
    unfold g. apply negb_false_iff, andb_true_iff. now rewrite !Z.eqb_eq.
  - intros u c p Hne. f_equal. apply find_filter_other. intros b Hb.
    apply same_key_spec in Hb. unfold key in Hb. injection Hb as Hu Hc _.
    unfold g. apply negb_true_iff, andb_false_iff. rewrite !Z.eqb_neq.
    destruct (decide (u = user_id)) as [->|]; [right|left]; congruence.
  - rewrite Z.ltb_ge. intros H. rewrite H3 by lia. now destruct t.
Qed.

End AccountsFacts.

